(** * mce.pipeline and mce.bus: a shallow embedding

    The Python package [mce] assembles a GStreamer/DeepStream pipeline.
    This development embeds the parts of [mce/pipeline.py] and
    [mce/bus.py] that build the inference bin description, link pads,
    ghost pads to the outside of a bin, attach sources and drive the
    pipeline state, and proves properties of them.

    Conventions of the embedding:
    - a Python [int] is a [Z];
    - a Python exception is a value of [exn]; a call that may raise returns
      a [result];
    - a method is a computation in the monad [M Self], which threads the
      Python object [self] and the log of calls made to GStreamer, GLib and
      [logging]; an exception leaves the state reached so far in place, as
      in Python;
    - GStreamer itself is not part of the package: what it answers to a
      call is given by a [Framework], a record of functions of the calls
      made so far. *)

From Stdlib Require Import ZArith Lia Bool SpecFloat.
From stdpp Require Import base option list strings pretty gmap.

Local Open Scope Z_scope.

(** ** Exceptions *)

(** The exception classes of [pipeline.py], and the builtin ones the
    modelled code can raise.  Each carries its message. *)
Inductive exn : Type :=
  | BinAddError (msg : string)
  | ElementCreationError (msg : string)
  | GetPadError (msg : string)
  | LinkError (msg : string)
  | PipelineCreationError (msg : string)
  | ValueError (msg : string)
  | ZeroDivisionError (msg : string)
  | KeyError (msg : string)
  | AttributeError (msg : string)
  | OverflowError (msg : string).

Inductive result (A : Type) : Type :=
  | Ok (a : A)
  | Raise (e : exn).
Arguments Ok {A} a.
Arguments Raise {A} e.

(** ** Tiling geometry and the inference bin description *)

Module Description.

(** [calc_rows_and_columns]:
<<
  if not num_sources:
      return 1
  return int(math.ceil(math.sqrt(num_sources)))
>>
    [math.sqrt] raises [ValueError] on a negative argument.  The square
    root is taken over the reals: [Z.sqrt_up n] is the least [r] with
    [n <= r * r], which is what [math.ceil(math.sqrt(n))] computes as long
    as [n] is exactly representable and the rounding of the double does
    not cross an integer (see [FloatCheck] below). *)
Definition calc_rows_and_columns (num_sources : Z) : result Z :=
  if bool_decide (num_sources = 0) then Ok 1
  else if bool_decide (num_sources < 0) then Raise (ValueError "math domain error")
  else Ok (Z.sqrt_up num_sources).


(** Values of element properties. *)
Inductive PropValue : Type :=
  | VInt (z : Z)
  | VBool (b : bool)
  | VStr (s : string).

(** [ElementDescription = namedtuple('type', 'name', 'properties')];
    [properties] is a dict or [None]. *)
Record ElementDescription : Type := {
  ed_type : string;
  ed_name : string;
  ed_properties : option (gmap string PropValue);
}.

(** A [BinDescription] is a sequence whose entries may be [None]. *)
Definition BinDescription : Type := list (option ElementDescription).







Definition is_ceil_sqrt (n r : Z) : Prop :=
  0 <= r /\ (r - 1) * (r - 1) < n <= r * r.

End Description.

(** ** The square root as Python computes it *)

(** [math.sqrt] and [math.ceil] on IEEE 754 binary64 numbers, after the
    specification of floating-point arithmetic of the standard library:
    the conversion of an [int] to a [float] and the square root both round
    to nearest, ties to even. *)
Module FloatCheck.

Definition prec : Z := 53.
Definition emax : Z := 1024.

(** [float(n)]; [None] stands for the [OverflowError] of an [int] too
    large for a [float]. *)
Definition float_of_int (n : Z) : option spec_float :=
  match binary_normalize prec emax n 0 false with
  | S754_infinity _ => None
  | x => Some x
  end.

Definition math_sqrt (x : spec_float) : spec_float := SFsqrt prec emax x.

(** [math.ceil(x)], an [int]; [None] for an infinity or a NaN. *)
Definition math_ceil (x : spec_float) : option Z :=
  match x with
  | S754_zero _ => Some 0
  | S754_finite s m e =>
    let v := if s then Z.neg m else Z.pos m in
    Some (if 0 <=? e then v * 2 ^ e else - ((- v) / 2 ^ (- e)))
  | _ => None
  end.

(** [calc_rows_and_columns] with the square root of the machine. *)
Definition calc_rows_and_columns (num_sources : Z) : result Z :=
  if bool_decide (num_sources = 0) then Ok 1
  else if bool_decide (num_sources < 0) then Raise (ValueError "math domain error")
  else
    match float_of_int num_sources with
    | None => Raise (OverflowError "int too large to convert to float")
    | Some x =>
      match math_ceil (math_sqrt x) with
      | Some r => Ok r
      | None => Raise (OverflowError "cannot convert float infinity to integer")
      end
    end.

End FloatCheck.


(** ** GStreamer and GLib, as the package sees them *)

Module Gst.

(** [Gst.PadDirection] *)
Inductive PadDirection : Type := UNKNOWN | SRC | SINK.

Global Instance PadDirection_eq_dec : EqDecision PadDirection.
Proof. solve_decision. Defined.

Definition PadDirection_to_nat (d : PadDirection) : nat :=
  match d with UNKNOWN => 0%nat | SRC => 1%nat | SINK => 2%nat end.

Definition PadDirection_of_nat (n : nat) : option PadDirection :=
  match n with
  | 0%nat => Some UNKNOWN | 1%nat => Some SRC | 2%nat => Some SINK
  | _ => None
  end.

Global Instance PadDirection_countable : Countable PadDirection.
Proof.
  apply (inj_countable PadDirection_to_nat PadDirection_of_nat).
  intros []; reflexivity.
Defined.

Definition direction_value_name (d : PadDirection) : string :=
  match d with
  | UNKNOWN => "GST_PAD_UNKNOWN" | SRC => "GST_PAD_SRC" | SINK => "GST_PAD_SINK"
  end.

(** A pad, by what identifies it: its name, its direction and the name of
    its parent.  Whether it is linked, and its caps, change with time and
    are asked of the framework. *)
Record Pad : Type := {
  pad_name : string;
  pad_direction : PadDirection;
  pad_parent : string;
}.

Global Instance Pad_eq_dec : EqDecision Pad.
Proof. solve_decision. Defined.

(** [Gst.PadLinkReturn] *)
Inductive PadLinkReturn : Type :=
  | OK | WRONG_HIERARCHY | WAS_LINKED | WRONG_DIRECTION | NOFORMAT | NOSCHED | REFUSED.

Global Instance PadLinkReturn_eq_dec : EqDecision PadLinkReturn.
Proof. solve_decision. Defined.

Definition link_value_name (r : PadLinkReturn) : string :=
  match r with
  | OK => "GST_PAD_LINK_OK"
  | WRONG_HIERARCHY => "GST_PAD_LINK_WRONG_HIERARCHY"
  | WAS_LINKED => "GST_PAD_LINK_WAS_LINKED"
  | WRONG_DIRECTION => "GST_PAD_LINK_WRONG_DIRECTION"
  | NOFORMAT => "GST_PAD_LINK_NOFORMAT"
  | NOSCHED => "GST_PAD_LINK_NOSCHED"
  | REFUSED => "GST_PAD_LINK_REFUSED"
  end.

(** [Gst.State] and [Gst.StateChangeReturn] *)
Inductive State : Type := VOID_PENDING | NULL | READY | PAUSED | PLAYING.

Global Instance State_eq_dec : EqDecision State.
Proof. solve_decision. Defined.

Definition state_value_name (s : State) : string :=
  match s with
  | VOID_PENDING => "GST_STATE_VOID_PENDING"
  | NULL => "GST_STATE_NULL"
  | READY => "GST_STATE_READY"
  | PAUSED => "GST_STATE_PAUSED"
  | PLAYING => "GST_STATE_PLAYING"
  end.

Inductive StateChangeReturn : Type := FAILURE | SUCCESS | ASYNC | NO_PREROLL.

Global Instance StateChangeReturn_eq_dec : EqDecision StateChangeReturn.
Proof. solve_decision. Defined.

(** The calls the package makes that act on the pipeline, on its main
    loop or on the file system.  Elements, bins and pipelines are named. *)
Inductive Call : Type :=
  | FindUnlinkedPad (bin : string) (direction : PadDirection)
  | GetRequestPad (element : string) (name : string)
  | GhostPadNew (name : string) (target : Pad)
  | SetActive (pad : Pad) (active : bool)
  | AddPad (bin : string) (pad : Pad)
  | PadLink (a b : Pad)
  | ElementLink (a b : string)
  | BinRemove (bin : string) (element : string)
  | SetState (pipeline : string) (state : State)
  | GetState (pipeline : string) (timeout : Z)
  | BinToPdf (bin : string) (filename : string)
  | LoopRun
  | LoopQuit.

Global Instance Call_eq_dec : EqDecision Call.
Proof. solve_decision. Defined.

(** What the framework answers.  The package does not decide any of
    this; each answer may depend on every call made before. *)
Record Framework : Type := {
  find_unlinked_pad : list Call -> string -> PadDirection -> option Pad;
  get_request_pad : list Call -> string -> string -> option Pad;
  (** whether [Gst.GhostPad.new] returns a pad rather than [None] *)
  ghost_pad_new : list Call -> string -> Pad -> bool;
  add_pad : list Call -> string -> Pad -> bool;
  pad_link : list Call -> Pad -> Pad -> PadLinkReturn;
  element_link : list Call -> string -> string -> bool;
  bin_remove : list Call -> string -> string -> bool;
  is_linked : list Call -> Pad -> bool;
  get_peer : list Call -> Pad -> Pad;
  query_caps : list Call -> Pad -> string;
  get_current_caps : list Call -> Pad -> option string;
  set_state : list Call -> string -> State -> StateChangeReturn;
  (** [GLib.MainLoop.is_running] of the one loop of the application *)
  loop_is_running : list Call -> bool;
  (** the attributes every [Gst.Pipeline] object has, and the name a new
      pipeline is given *)
  pipeline_attributes : gset string;
  pipeline_name : string;
}.

End Gst.

(** ** Methods as computations *)

(** [logging] levels used by the package, and a log record. *)
Module Logging.

Inductive Level : Type := DEBUG | INFO | WARNING | ERROR.

Global Instance Level_eq_dec : EqDecision Level.
Proof. solve_decision. Defined.

End Logging.

Definition LogRecord : Type := Logging.Level * string.

(** The state a method runs in: the object it is called on, the calls made
    so far (oldest first) and the log written so far. *)
Record Sys (Self : Type) : Type := {
  self : Self;
  calls : list Gst.Call;
  logged : list LogRecord;
}.
Arguments self {Self} s.
Arguments calls {Self} s.
Arguments logged {Self} s.
Arguments Build_Sys {Self} self calls logged.

Definition M (Self A : Type) : Type := Sys Self -> result A * Sys Self.

Section Monad.
Context {Self : Type}.

Definition ret {A} (a : A) : M Self A := fun s => (Ok a, s).

Definition bind {A B} (m : M Self A) (k : A -> M Self B) : M Self B :=
  fun s =>
    match m s with
    | (Ok a, s') => k a s'
    | (Raise e, s') => (Raise e, s')
    end.

Definition raise {A} (e : exn) : M Self A := fun s => (Raise e, s).

(** [try: m except Exception as e: handler e] *)
Definition try_except {A} (m : M Self A) (handler : exn -> M Self A) : M Self A :=
  fun s =>
    match m s with
    | (Ok a, s') => (Ok a, s')
    | (Raise e, s') => handler e s'
    end.

Definition get : M Self Self := fun s => (Ok (self s), s).

Definition modify (f : Self -> Self) : M Self unit :=
  fun s => (Ok tt, Build_Sys (f (self s)) (calls s) (logged s)).

(** A question to the framework that changes nothing. *)
Definition ask {A} (answer : list Gst.Call -> A) : M Self A :=
  fun s => (Ok (answer (calls s)), s).

(** A call: the framework answers from the calls made before it, and the
    call is recorded. *)
Definition call {A} (c : Gst.Call) (answer : list Gst.Call -> A) : M Self A :=
  fun s => (Ok (answer (calls s)), Build_Sys (self s) (calls s ++ [c]) (logged s)).

Definition log (lvl : Logging.Level) (msg : string) : M Self unit :=
  fun s => (Ok tt, Build_Sys (self s) (calls s) (logged s ++ [(lvl, msg)])).

End Monad.

Declare Scope py_scope.
Delimit Scope py_scope with py.
Notation "x <- m ;; k" := (bind m (fun x => k))
  (at level 20, m at level 99, k at level 200, only parsing) : py_scope.
Notation "m ;; k" := (bind m (fun _ => k))
  (at level 100, k at level 200, only parsing, right associativity) : py_scope.

(** A method of a base class run on an object of a subclass: [proj] reads
    the base part of the object and [upd] writes it back. *)
Definition lift {Base Self A} (proj : Self -> Base) (upd : Base -> Self -> Self)
    (m : M Base A) : M Self A :=
  fun s =>
    let '(r, b) := m (Build_Sys (proj (self s)) (calls s) (logged s)) in
    (r, Build_Sys (upd (self b) (self s)) (calls b) (logged b)).

(** ** Linking: [_link_pads] and [link] *)

Module Linker.

(** The argument of [link]: a [Gst.Element], given by its name, or a
    [Gst.Pad]. *)
Inductive ElementOrPad : Type :=
  | AnElement (name : string)
  | APad (pad : Gst.Pad).

Definition name_of (x : ElementOrPad) : string :=
  match x with AnElement n => n | APad p => Gst.pad_name p end.

Definition isinstance_Pad (x : ElementOrPad) : bool :=
  match x with APad _ => true | AnElement _ => false end.

(** [str] of an optional pad or of optional caps, for messages. *)
Definition str_pad (p : option Gst.Pad) : string :=
  match p with Some p => Gst.pad_name p | None => "None" end.

Definition str_caps (c : option string) : string :=
  match c with Some c => c | None => "None" end.

Section WithFramework.
Context (F : Gst.Framework) {Self : Type}.

Definition caps_start_with (pad : Gst.Pad) (caps_str : string) : M Self bool :=
  (string <- ask (fun h => Gst.query_caps F h pad) ;;
   if String.prefix caps_str string then ret true else ret false)%py.

Definition is_video_pad (pad : Gst.Pad) : M Self bool :=
  caps_start_with pad "video/x-raw".

(** In the [WAS_LINKED] branch the loop over [(a, b)] raises at the first
    pad that is linked; when neither is, the function falls off its end
    and returns. *)
Definition _link_pads (a b : option Gst.Pad) : M Self unit :=
  match a, b with
  | Some a, Some b =>
    (r <- call (Gst.PadLink a b) (fun h => Gst.pad_link F h a b) ;;
     match r with
     | Gst.OK =>
       log Logging.DEBUG ("pad link between " +:+ Gst.pad_parent a +:+ ":" +:+ Gst.pad_name a
                  +:+ " and " +:+ Gst.pad_parent b +:+ Gst.pad_name b +:+ " OK")
     | Gst.WRONG_HIERARCHY =>
       raise (LinkError ("could not link " +:+ Gst.pad_name a +:+ " to " +:+ Gst.pad_name b
         +:+ " because you need to create"
         +:+ "ghost pads from the elements inside the bin to the bin itself."
         +:+ "You may need to request a pad if it's not a static pad."))
     | Gst.WAS_LINKED =>
       let already (pad : Gst.Pad) (otherwise : M Self unit) : M Self unit :=
         (linked <- ask (fun h => Gst.is_linked F h pad) ;;
          if (linked : bool) then
            peer <- ask (fun h => Gst.get_peer F h pad) ;;
            raise (LinkError (Gst.pad_name pad +:+ " of " +:+ Gst.pad_parent pad
              +:+ " is already " +:+ "linked to " +:+ Gst.pad_name peer +:+ " of "
              +:+ Gst.pad_parent peer))
          else otherwise) in
       already a (already b (ret tt))
     | Gst.NOFORMAT =>
       a_caps <- ask (fun h => Gst.get_current_caps F h a) ;;
       b_caps <- ask (fun h => Gst.get_current_caps F h b) ;;
       raise (LinkError ("could not link pads " +:+ Gst.pad_name a +:+ " and "
         +:+ Gst.pad_name b +:+ " because caps are " +:+ "incompatible:
" +:+ Gst.pad_name a +:+ ": " +:+ str_caps a_caps +:+ "
" +:+ Gst.pad_name b +:+ ": " +:+ str_caps b_caps))
     | _ =>
       raise (LinkError ("could not link " +:+ Gst.pad_name a +:+ " on " +:+ Gst.pad_parent a
         +:+ " to " +:+ Gst.pad_name b +:+ " on " +:+ Gst.pad_parent b +:+ " because "
         +:+ "pad return: " +:+ Gst.link_value_name r))
     end)%py
  | _, _ =>
    raise (LinkError ("cannot link " +:+ str_pad a +:+ " to " +:+ str_pad b
      +:+ " because one is None (null)"))
  end.

(** [link].  Both an element and a pad have a [name], so the logging
    at the head never raises [AttributeError] on an [ElementOrPad].
    The two tests that follow are separate [if]s: when neither holds
    nothing else is done. *)
Definition link (a b : ElementOrPad) : M Self unit :=
  (log Logging.DEBUG ("linking " +:+ (if isinstance_Pad a then "pad " else "") +:+ name_of a
              +:+ " to " +:+ (if isinstance_Pad b then "pad " else "") +:+ name_of b) ;;
   match a, b with
   | AnElement ea, AnElement eb =>
     linked <- call (Gst.ElementLink ea eb) (fun h => Gst.element_link F h ea eb) ;;
     if (linked : bool) then ret tt
     else raise (LinkError ("could not link " +:+ ea +:+ " to " +:+ eb))
   | _, _ => ret tt
   end ;;
   match a, b with
   | APad pa, APad pb => _link_pads (Some pa) (Some pb)
   | _, _ => ret tt
   end)%py.

End WithFramework.

End Linker.

(** ** [GhostBin] *)

Module GhostBin.

(** A [GhostBin] object: its class name (a subclass prints its own), its
    name, and the dict [_outer_pad_count] from direction to the number of
    ghost pads made in that direction. *)
Record t : Type := {
  class_name : string;
  name : string;
  _outer_pad_count : gmap Gst.PadDirection Z;
}.

(** The fields as [__init__] sets them.  Making, adding and linking the
    described elements is the framework's work and is not modelled. *)
Definition new (cls name : string) : t :=
  {| class_name := cls;
     name := name;
     _outer_pad_count := <[Gst.SRC := 0]> (<[Gst.SINK := 0]> ∅) |}.

Definition set_count (direction : Gst.PadDirection) (n : Z) (self : t) : t :=
  {| class_name := class_name self;
     name := name self;
     _outer_pad_count := <[direction := n]> (_outer_pad_count self) |}.

Section WithFramework.
Context (F : Gst.Framework).

(** [self._outer_pad_count[direction]] *)
Definition outer_pad_count (direction : Gst.PadDirection) : M t Z :=
  (self <- get ;;
   match _outer_pad_count self !! direction with
   | Some n => ret n
   | None => raise (KeyError (Gst.direction_value_name direction))
   end)%py.

(** [make_ghost].  The ghost pad made by [Gst.GhostPad.new(outer_name,
    inner_pad)] has the name asked for and the direction of its
    target; it is added to the bin.  Past the first test, [direction]
    is given whenever [inner_pad] is not, so the [default] below never
    applies. *)
Definition make_ghost (direction : option Gst.PadDirection)
    (inner_pad : option Gst.Pad) : M t Gst.Pad :=
  (match inner_pad, direction with
   | None, None =>
     self <- get ;;
     raise (BinAddError ("need inner pad or direction to add ghost pad to "
                         +:+ class_name self))
   | _, _ => ret tt
   end ;;
   self <- get ;;
   log Logging.DEBUG ("creating ghost pad for " +:+ class_name self +:+ ": " +:+ name self) ;;
   found <-
     match inner_pad with
     | Some inner_pad =>
       linked <- ask (fun h => Gst.is_linked F h inner_pad) ;;
       if (linked : bool) then
         raise (LinkError ("pad " +:+ Gst.pad_name inner_pad +:+ " is already linked"))
       else ret (Gst.pad_direction inner_pad, inner_pad)
     | None =>
       let direction := default Gst.UNKNOWN direction in
       log Logging.DEBUG ("Finding unlinked " +:+ Gst.direction_value_name direction
                  +:+ " pad within " +:+ name self +:+ ".") ;;
       inner_pad <- call (Gst.FindUnlinkedPad (name self) direction)
                      (fun h => Gst.find_unlinked_pad F h (name self) direction) ;;
       match inner_pad with
       | None => raise (GetPadError "Unlinked pad not found. Perhaps request one?")
       | Some inner_pad =>
         log Logging.DEBUG ("Unlinked pad " +:+ Gst.pad_name inner_pad +:+ " found in bin "
                    +:+ name self) ;;
         ret (direction, inner_pad)
       end
     end ;;
   let '(direction, inner_pad) := found in
   outer_name <-
     match direction with
     | Gst.SRC => n <- outer_pad_count direction ;; ret ("src_" +:+ pretty n)
     | Gst.SINK => n <- outer_pad_count direction ;; ret ("sink_" +:+ pretty n)
     | _ =>
       raise (GetPadError ("invalid pad direction: " +:+ Gst.direction_value_name direction
                           +:+ " requested for " +:+ name self))
     end ;;
   log Logging.DEBUG ("adding ghost pad '" +:+ outer_name +:+ "' to " +:+ name self) ;;
   created <- call (Gst.GhostPadNew outer_name inner_pad)
                (fun h => Gst.ghost_pad_new F h outer_name inner_pad) ;;
   (if (created : bool) then
      n <- outer_pad_count direction ;;
      modify (set_count direction (n + 1))
    else
      raise (GetPadError ("could not create outer ghost pad " +:+ outer_name
                          +:+ " for inner pad " +:+ Gst.pad_name inner_pad))) ;;
   let outer_pad := {| Gst.pad_name := outer_name;
                       Gst.pad_direction := direction;
                       Gst.pad_parent := name self |} in
   call (Gst.SetActive outer_pad true) (fun _ => tt) ;;
   added <- call (Gst.AddPad (name self) outer_pad)
              (fun h => Gst.add_pad F h (name self) outer_pad) ;;
   if (added : bool) then ret outer_pad
   else raise (BinAddError ("could not add pad " +:+ outer_name +:+ " to bin "
                            +:+ name self)))%py.

(** [Gst.Bin.remove], inherited: it takes an element out of the bin and
    does not touch the fields [GhostBin] adds. *)
Definition remove (element : string) : M t bool :=
  (self <- get ;;
   call (Gst.BinRemove (name self) element)
     (fun h => Gst.bin_remove F h (name self) element))%py.

End WithFramework.

End GhostBin.

(** ** [InferenceBin] *)

Module InferenceBin.

(** An [InferenceBin] is a [GhostBin] with the name of its stream muxer
    and two counters. *)
Record t : Type := {
  ghost_bin : GhostBin.t;
  stream_muxer : string;
  _pad_counter : Z;
  _source_counter : Z;
}.

(** The fields as [__init__] sets them; [count] is [next(self._count)]. *)
Definition new (count : Z) : t :=
  {| ghost_bin := GhostBin.new "InferenceBin" ("inference_" +:+ pretty count);
     stream_muxer := "stream-muxer";
     _pad_counter := 0;
     _source_counter := 0 |}.

Definition name (self : t) : string := GhostBin.name (ghost_bin self).

Definition set_ghost_bin (g : GhostBin.t) (self : t) : t :=
  {| ghost_bin := g;
     stream_muxer := stream_muxer self;
     _pad_counter := _pad_counter self;
     _source_counter := _source_counter self |}.

Definition set_pad_counter (n : Z) (self : t) : t :=
  {| ghost_bin := ghost_bin self;
     stream_muxer := stream_muxer self;
     _pad_counter := n;
     _source_counter := _source_counter self |}.

(** The setter of the property [source_counter]. *)
Definition set_source_counter (count : Z) (self : t) : t :=
  {| ghost_bin := ghost_bin self;
     stream_muxer := stream_muxer self;
     _pad_counter := _pad_counter self;
     _source_counter := count |}.

Section WithFramework.
Context (F : Gst.Framework).

(** [self.make_ghost(...)], the method of the base class. *)
Definition make_ghost (direction : option Gst.PadDirection)
    (inner_pad : option Gst.Pad) : M t Gst.Pad :=
  lift ghost_bin set_ghost_bin (GhostBin.make_ghost F direction inner_pad).

Definition get_sink_pad : M t Gst.Pad :=
  (self <- get ;;
   log Logging.DEBUG ("finding unlinked pad on " +:+ name self) ;;
   inner_pad <- call (Gst.FindUnlinkedPad (name self) Gst.SINK)
                  (fun h => Gst.find_unlinked_pad F h (name self) Gst.SINK) ;;
   let request : M t (option Gst.Pad) :=
     log Logging.DEBUG ("unlinked pad not found on " +:+ name self +:+ ". "
                +:+ "requesting new sink pad from " +:+ stream_muxer self) ;;
     let pad_name := "sink_" +:+ pretty (_pad_counter self) in
     call (Gst.GetRequestPad (stream_muxer self) pad_name)
       (fun h => Gst.get_request_pad F h (stream_muxer self) pad_name) in
   inner_pad <-
     match inner_pad with
     | None => request
     | Some p =>
       if bool_decide (Gst.pad_parent p = stream_muxer self)
       then ret (Some p) else request
     end ;;
   match inner_pad with
   | Some _ => modify (fun self => set_pad_counter (_pad_counter self + 1) self)
   | None =>
     raise (GetPadError ("Could not find or request sink pad from " +:+ name self
                         +:+ ".muxer"))
   end ;;
   make_ghost None inner_pad)%py.

(** The body of the [try] in [link_source]. *)
Definition acquire_and_link (src_pad : Gst.Pad) : M t unit :=
  (sink_pad <- get_sink_pad ;;
   Linker.link F (Linker.APad src_pad) (Linker.APad sink_pad))%py.

Definition link_source (source : string) (src_pad : Gst.Pad) : M t unit :=
  (self <- get ;;
   log Logging.DEBUG ("linking " +:+ source +:+ " to " +:+ name self +:+ " by "
              +:+ Gst.pad_name src_pad) ;;
   video <- Linker.is_video_pad F src_pad ;;
   if negb video then
     caps <- ask (fun h => Gst.query_caps F h src_pad) ;;
     log Logging.DEBUG ("ignoring non-video pad from " +:+ source +:+ " (CAPS: " +:+ caps +:+ ")")
   else
     modify (fun self => set_source_counter (_source_counter self + 1) self) ;;
     try_except (acquire_and_link src_pad)
       (fun e =>
          modify (fun self => set_source_counter (_source_counter self - 1) self) ;;
          log Logging.ERROR ("failed to link " +:+ source +:+ " to stream muxer:") ;;
          raise e))%py.

End WithFramework.

End InferenceBin.

(** ** [StateSetter] and [DeepStreamApp] *)

Module StateSetter.

(** A pipeline object: its name and the names of the attributes it has,
    which is what [hasattr] looks at. *)
Record t : Type := {
  name : string;
  attributes : gset string;
}.

Definition hasattr (self : t) (attribute : string) : bool :=
  bool_decide (attribute ∈ attributes self).

Section WithFramework.
Context (F : Gst.Framework).

(** [bin_to_pdf] writes a picture of the bin when the environment asks
    for it; it is kept as one call. *)
Definition bin_to_pdf (bin filename : string) : M t unit :=
  call (Gst.BinToPdf bin filename) (fun _ => tt).

(** [self._loop.is_running()] *)
Definition _loop_is_running : M t bool :=
  (self <- get ;;
   if hasattr self "_loop" then ask (Gst.loop_is_running F)
   else raise (AttributeError "_loop"))%py.

Definition set_state (state : Gst.State) (async_ : bool) (timeout : Z)
    (pdf : bool) : M t Gst.StateChangeReturn :=
  (self <- get ;;
   (if pdf then
      bin_to_pdf (name self)
        (name self +:+ "." +:+ Gst.state_value_name state +:+ ".start")
    else ret tt) ;;
   r <- call (Gst.SetState (name self) state)
          (fun h => Gst.set_state F h (name self) state) ;;
   (if negb (bool_decide (r = Gst.ASYNC)) then
      if negb async_ then
        log Logging.DEBUG ("waiting " +:+ pretty timeout +:+ " seconds for "
                   +:+ Gst.state_value_name state) ;;
        call (Gst.GetState (name self) timeout) (fun _ => tt)
      else ret tt
    else if bool_decide (r = Gst.FAILURE) then
      log Logging.ERROR ("failed to set " +:+ name self +:+ " state to "
                 +:+ Gst.state_value_name state)
    else ret tt) ;;
   (if pdf then
      bin_to_pdf (name self)
        (name self +:+ "." +:+ Gst.state_value_name state +:+ ".end")
    else ret tt) ;;
   ret r)%py.

Definition ready (async_ : bool) (timeout : Z) (pdf : bool) :=
  set_state Gst.READY async_ timeout pdf.

Definition play (loop_also : bool) (async_ : bool) (timeout : Z) (pdf : bool)
    : M t Gst.StateChangeReturn :=
  (r <- set_state Gst.PLAYING async_ timeout pdf ;;
   self <- get ;;
   (if loop_also && hasattr self "_loop" then
      running <- _loop_is_running ;;
      if negb running then call Gst.LoopRun (fun _ => tt) else ret tt
    else ret tt) ;;
   ret r)%py.

Definition pause (async_ : bool) (timeout : Z) (pdf : bool) :=
  set_state Gst.PAUSED async_ timeout pdf.

Definition null (async_ : bool) (timeout : Z) (pdf : bool) :=
  set_state Gst.NULL async_ timeout pdf.

(** [quit]: the attribute tested is ['loop'], the one used is [_loop]. *)
Definition quit (loop_also : bool) (async_ : bool) (timeout : Z) (pdf : bool)
    : M t Gst.StateChangeReturn :=
  (r <- null async_ timeout pdf ;;
   self <- get ;;
   (if loop_also && hasattr self "loop" then
      running <- _loop_is_running ;;
      if (running : bool) then call Gst.LoopQuit (fun _ => tt) else ret tt
    else ret tt) ;;
   ret r)%py.

End WithFramework.

End StateSetter.

Module DeepStreamApp.

(** The attributes a [DeepStreamApp] object has after [__init__]: those
    of every [Gst.Pipeline], the methods and class variables of
    [StateSetter] and [DeepStreamApp], and the fields [__init__] sets. *)
Definition own_attributes : gset string :=
  {[ "set_state"; "ready"; "play"; "pause"; "null"; "quit";
     "_muxer"; "_inference_bin"; "_source_counter";
     "_on_decode_bin_child_added"; "_add_source";
     "_pie_config"; "_uris"; "_loop"; "_bus_cb"; "_on_buffer" ]}.

Definition new (F : Gst.Framework) : StateSetter.t :=
  {| StateSetter.name := Gst.pipeline_name F;
     StateSetter.attributes := Gst.pipeline_attributes F ∪ own_attributes |}.

End DeepStreamApp.

(** ** [mce.bus] *)

Module Bus.

(** [mce.DEBUG] *)
Definition mce_DEBUG : bool := true.

(** A bus message, by its [type], with what the handler reads of it. *)
Inductive Message : Type :=
  | TAG
  | DURATION_CHANGED
  | STREAM_STATUS (owner status : string)
  | STATE_CHANGED (src : string) (old new pending : Gst.State)
  | EOS
  | ERROR (err errmsg : string)
  | WARNING (err errmsg : string)
  | OTHER (src type_name : string).

Section WithFramework.
Context (F : Gst.Framework).

(** [app.quit()], with the defaults of [quit] and [set_state]. *)
Definition app_quit : M StateSetter.t Gst.StateChangeReturn :=
  StateSetter.quit F true false 10 true.

Definition on_message (message : Message) : M StateSetter.t bool :=
  (match message with
   | TAG => ret tt
   | DURATION_CHANGED => ret tt
   | STREAM_STATUS owner status =>
     log Logging.DEBUG (owner +:+ ":status:" +:+ status)
   | STATE_CHANGED src old new pending =>
     log Logging.DEBUG (src +:+ ":state-change:" +:+ Gst.state_value_name old +:+ "->"
                +:+ Gst.state_value_name new)
   | EOS =>
     log Logging.DEBUG "Got EOS" ;;
     app_quit ;;
     ret tt
   | ERROR err errmsg =>
     log Logging.ERROR (err +:+ ": " +:+ errmsg) ;;
     app_quit ;;
     ret tt
   | WARNING err errmsg =>
     log Logging.WARNING (err +:+ ": " +:+ errmsg)
   | OTHER src type_name =>
     if mce_DEBUG then log Logging.DEBUG (src +:+ ":" +:+ type_name) else ret tt
   end ;;
   ret true)%py.

End WithFramework.

End Bus.

(** ** Sequences of operations on a [GhostBin] *)

Module GhostOps.

(** What a caller can do to a bin that bears on ghost pads: ask for a
    ghost pad, or take an element out.  A caller may go on after a call
    that raised, so only the state is carried along. *)
Inductive Op : Type :=
  | MakeGhost (direction : option Gst.PadDirection) (inner_pad : option Gst.Pad)
  | Remove (element : string).

Definition step (F : Gst.Framework) (s : Sys GhostBin.t) (op : Op) : Sys GhostBin.t :=
  match op with
  | MakeGhost direction inner_pad => (GhostBin.make_ghost F direction inner_pad s).2
  | Remove element => (GhostBin.remove F element s).2
  end.

Definition steps (F : Gst.Framework) (ops : list Op) (s : Sys GhostBin.t) : Sys GhostBin.t :=
  fold_left (step F) ops s.

(** The counter of a direction; a direction the dict does not have counts
    for nothing. *)
Definition count (direction : Gst.PadDirection) (self : GhostBin.t) : Z :=
  default 0 (GhostBin._outer_pad_count self !! direction).

Definition outer_prefix (direction : Gst.PadDirection) : string :=
  match direction with
  | Gst.SRC => "src_"
  | Gst.SINK => "sink_"
  | Gst.UNKNOWN => ""
  end.

End GhostOps.

(** ** Frameworks to run the code against *)

Module Scenario.

(** Whether the main loop runs after the given calls. *)
Definition loop_running (h : list Gst.Call) : bool :=
  fold_left (fun running c =>
               match c with
               | Gst.LoopRun => true
               | Gst.LoopQuit => false
               | _ => running
               end) h false.

(** Some attributes of a [Gst.Pipeline]; there is none called [loop]. *)
Definition pipeline_attributes : gset string :=
  {[ "name"; "parent"; "props"; "add"; "remove"; "get_by_name"; "get_bus";
     "get_state"; "set_state"; "find_unlinked_pad"; "add_pad"; "link";
     "children"; "numchildren"; "get_clock"; "set_name"; "get_name" ]}.

(** A framework with a free variable for each answer the scenarios
    change: what a pad link returns, what a state change returns, and
    the caps of every pad.  Nothing is found unlinked, the muxer grants
    every request pad, ghost pads are made and added, and no pad is
    linked. *)
Definition framework (link_return : Gst.PadLinkReturn)
    (state_return : Gst.StateChangeReturn) (caps : string) : Gst.Framework :=
  {| Gst.find_unlinked_pad := fun _ _ _ => None;
     Gst.get_request_pad := fun _ element name =>
       Some {| Gst.pad_name := name; Gst.pad_direction := Gst.SINK;
               Gst.pad_parent := element |};
     Gst.ghost_pad_new := fun _ _ _ => true;
     Gst.add_pad := fun _ _ _ => true;
     Gst.pad_link := fun _ _ _ => link_return;
     Gst.element_link := fun _ _ _ => true;
     Gst.bin_remove := fun _ _ _ => true;
     Gst.is_linked := fun _ _ => false;
     Gst.get_peer := fun _ p => p;
     Gst.query_caps := fun _ _ => caps;
     Gst.get_current_caps := fun _ _ => None;
     Gst.set_state := fun _ _ _ => state_return;
     Gst.loop_is_running := loop_running;
     Gst.pipeline_attributes := pipeline_attributes;
     Gst.pipeline_name := "pipeline0" |}.

Definition video_caps : string := "video/x-raw(memory:NVMM), format=(string)NV12".
Definition audio_caps : string := "audio/x-raw, format=(string)F32LE".

(** Everything works. *)
Definition working : Gst.Framework := framework Gst.OK Gst.SUCCESS video_caps.

(** Pads do not agree on a format. *)
Definition no_format : Gst.Framework := framework Gst.NOFORMAT Gst.SUCCESS video_caps.

(** State changes stay pending. *)
Definition pending : Gst.Framework := framework Gst.OK Gst.ASYNC video_caps.

(** Every pad is linked already. *)
Definition all_linked : Gst.Framework :=
  {| Gst.find_unlinked_pad := Gst.find_unlinked_pad working;
     Gst.get_request_pad := Gst.get_request_pad working;
     Gst.ghost_pad_new := Gst.ghost_pad_new working;
     Gst.add_pad := Gst.add_pad working;
     Gst.pad_link := fun _ _ _ => Gst.WAS_LINKED;
     Gst.element_link := Gst.element_link working;
     Gst.bin_remove := Gst.bin_remove working;
     Gst.is_linked := fun _ _ => true;
     Gst.get_peer := Gst.get_peer working;
     Gst.query_caps := Gst.query_caps working;
     Gst.get_current_caps := Gst.get_current_caps working;
     Gst.set_state := Gst.set_state working;
     Gst.loop_is_running := Gst.loop_is_running working;
     Gst.pipeline_attributes := Gst.pipeline_attributes working;
     Gst.pipeline_name := Gst.pipeline_name working |}.

(** A state to start from: an object, no call made, nothing logged. *)
Definition start {Self} (self : Self) : Sys Self := Build_Sys self [] [].

(** An inference bin to which [n] sources are attached already. *)
Definition inference_bin (n : Z) : InferenceBin.t :=
  InferenceBin.set_source_counter n (InferenceBin.new 0).

Definition src_pad (source : string) : Gst.Pad :=
  {| Gst.pad_name := "src_0"; Gst.pad_direction := Gst.SRC; Gst.pad_parent := source |}.

(** An application whose main loop runs: [play] has been called. *)
Definition playing (F : Gst.Framework) : Sys StateSetter.t :=
  (StateSetter.play F true false 10 true (start (DeepStreamApp.new F))).2.

End Scenario.

(** ** The tiling geometry with rows and columns computed apart *)

Module Geometry.
Import Description.





End Geometry.

(** ** Relations between the object before and after a method *)

(** [respects R m]: whatever [m] returns or raises, the object it leaves is
    related by [R] to the object it found. *)
Definition respects {Self A} (R : relation Self) (m : M Self A) : Prop :=
  forall s r s', m s = (r, s') -> R (self s) (self s').


(** The field has the same value in both objects. *)
Definition same {Self X} (field : Self -> X) : relation Self :=
  fun x y => field y = field x.


(** The state in which the [try] of [link_source] starts: the call is
    logged and the source counted. *)
Definition counted (source : string) (src_pad : Gst.Pad) (s : Sys InferenceBin.t)
    : Sys InferenceBin.t :=
  Build_Sys
    (InferenceBin.set_source_counter (InferenceBin._source_counter (self s) + 1) (self s))
    (calls s)
    (logged s ++ [(Logging.DEBUG,
                   "linking " +:+ source +:+ " to " +:+ InferenceBin.name (self s)
                   +:+ " by " +:+ Gst.pad_name src_pad)]).

(** One bin has at least the ghost pads of another, direction by
    direction. *)
Definition grows (x y : GhostBin.t) : Prop :=
  forall direction, GhostOps.count direction x <= GhostOps.count direction y.

(** ** Waiting for a state change *)

Module Waiting.




End Waiting.

(** ** What is added to a state *)

(** The one call [link] makes for its two arguments: elements are linked
    as elements, pads as pads, and nothing is asked for one of each. *)
Definition link_attempt (a b : Linker.ElementOrPad) : list Gst.Call :=
  match a, b with
  | Linker.AnElement ea, Linker.AnElement eb => [Gst.ElementLink ea eb]
  | Linker.APad pa, Linker.APad pb => [Gst.PadLink pa pb]
  | _, _ => []
  end.

(** A [GhostBin] as [__init__] leaves it has a counter for each of the
    two directions a ghost pad can have. *)
Definition has_counters (self : GhostBin.t) : Prop :=
  is_Some (GhostBin._outer_pad_count self !! Gst.SRC) /\
  is_Some (GhostBin._outer_pad_count self !! Gst.SINK).

(** The exceptions [make_ghost] raises itself. *)
Definition ghost_error (e : exn) : Prop :=
  exists msg, e = BinAddError msg \/ e = LinkError msg \/ e = GetPadError msg.

Module Scenario2.

(** A framework in which the bin refuses every pad: [add_pad] returns
    [False]. *)
Definition no_add : Gst.Framework :=
  {| Gst.find_unlinked_pad := Gst.find_unlinked_pad Scenario.working;
     Gst.get_request_pad := Gst.get_request_pad Scenario.working;
     Gst.ghost_pad_new := Gst.ghost_pad_new Scenario.working;
     Gst.add_pad := fun _ _ _ => false;
     Gst.pad_link := Gst.pad_link Scenario.working;
     Gst.element_link := Gst.element_link Scenario.working;
     Gst.bin_remove := Gst.bin_remove Scenario.working;
     Gst.is_linked := Gst.is_linked Scenario.working;
     Gst.get_peer := Gst.get_peer Scenario.working;
     Gst.query_caps := Gst.query_caps Scenario.working;
     Gst.get_current_caps := Gst.get_current_caps Scenario.working;
     Gst.set_state := Gst.set_state Scenario.working;
     Gst.loop_is_running := Gst.loop_is_running Scenario.working;
     Gst.pipeline_attributes := Gst.pipeline_attributes Scenario.working;
     Gst.pipeline_name := Gst.pipeline_name Scenario.working |}.

(** A pad of an element inside a bin, linked to nothing. *)
Definition inner_pad (direction : Gst.PadDirection) : Gst.Pad :=
  {| Gst.pad_name := match direction with Gst.SRC => "src" | _ => "sink" end;
     Gst.pad_direction := direction;
     Gst.pad_parent := "inner" |}.

(** A framework in which every bin has an unlinked pad in each
    direction. *)
Definition unlinked : Gst.Framework :=
  {| Gst.find_unlinked_pad := fun _ _ direction => Some (inner_pad direction);
     Gst.get_request_pad := Gst.get_request_pad Scenario.working;
     Gst.ghost_pad_new := Gst.ghost_pad_new Scenario.working;
     Gst.add_pad := Gst.add_pad Scenario.working;
     Gst.pad_link := Gst.pad_link Scenario.working;
     Gst.element_link := Gst.element_link Scenario.working;
     Gst.bin_remove := Gst.bin_remove Scenario.working;
     Gst.is_linked := Gst.is_linked Scenario.working;
     Gst.get_peer := Gst.get_peer Scenario.working;
     Gst.query_caps := Gst.query_caps Scenario.working;
     Gst.get_current_caps := Gst.get_current_caps Scenario.working;
     Gst.set_state := Gst.set_state Scenario.working;
     Gst.loop_is_running := Gst.loop_is_running Scenario.working;
     Gst.pipeline_attributes := Gst.pipeline_attributes Scenario.working;
     Gst.pipeline_name := Gst.pipeline_name Scenario.working |}.

(** A new bin, with nothing done to it yet. *)
Definition bin0 : Sys GhostBin.t := Scenario.start (GhostBin.new "GhostBin" "bin0").

End Scenario2.

(** [emits P m]: whatever [m] returns or raises, the calls made before it
    are still there, in their order, and each call it added is a [P]. *)
Definition emits {Self A} (P : Gst.Call -> Prop) (m : M Self A) : Prop :=
  forall s r s', m s = (r, s') -> exists new, calls s' = calls s ++ new /\ Forall P new.

(** The calls of [make_ghost]. *)
Definition ghost_call (c : Gst.Call) : Prop :=
  match c with
  | Gst.FindUnlinkedPad _ _ | Gst.GhostPadNew _ _ | Gst.SetActive _ _ | Gst.AddPad _ _ => True
  | _ => False
  end.

(** The calls made since an earlier state. *)
Definition calls_since {Self} (s s' : Sys Self) : list Gst.Call :=
  drop (length (calls s)) (calls s').

(** ** Sequences of operations on an [InferenceBin] *)

Module SourceOps.

(** What a caller can do to an inference bin that bears on its pads:
    attach a source, ask for a sink pad, or ask for a ghost pad.  A caller
    may go on after a call that raised, so only the state is carried
    along. *)
Inductive Op : Type :=
  | LinkSource (source : string) (src_pad : Gst.Pad)
  | GetSinkPad
  | MakeGhost (direction : option Gst.PadDirection) (inner_pad : option Gst.Pad).

Definition step (F : Gst.Framework) (s : Sys InferenceBin.t) (op : Op)
    : Sys InferenceBin.t :=
  match op with
  | LinkSource source src_pad => (InferenceBin.link_source F source src_pad s).2
  | GetSinkPad => (InferenceBin.get_sink_pad F s).2
  | MakeGhost direction inner_pad => (InferenceBin.make_ghost F direction inner_pad s).2
  end.

Definition steps (F : Gst.Framework) (ops : list Op) (s : Sys InferenceBin.t)
    : Sys InferenceBin.t :=
  fold_left (step F) ops s.

(** The muxer is the same and the pad counter is no lower. *)
Definition pads_counted (x y : InferenceBin.t) : Prop :=
  InferenceBin.stream_muxer y = InferenceBin.stream_muxer x /\
  InferenceBin._pad_counter x <= InferenceBin._pad_counter y.

End SourceOps.

Module Scenario3.

(** The muxer refuses every request pad. *)
Definition no_request : Gst.Framework :=
  {| Gst.find_unlinked_pad := Gst.find_unlinked_pad Scenario.working;
     Gst.get_request_pad := fun _ _ _ => None;
     Gst.ghost_pad_new := Gst.ghost_pad_new Scenario.working;
     Gst.add_pad := Gst.add_pad Scenario.working;
     Gst.pad_link := Gst.pad_link Scenario.working;
     Gst.element_link := Gst.element_link Scenario.working;
     Gst.bin_remove := Gst.bin_remove Scenario.working;
     Gst.is_linked := Gst.is_linked Scenario.working;
     Gst.get_peer := Gst.get_peer Scenario.working;
     Gst.query_caps := Gst.query_caps Scenario.working;
     Gst.get_current_caps := Gst.get_current_caps Scenario.working;
     Gst.set_state := Gst.set_state Scenario.working;
     Gst.loop_is_running := Gst.loop_is_running Scenario.working;
     Gst.pipeline_attributes := Gst.pipeline_attributes Scenario.working;
     Gst.pipeline_name := Gst.pipeline_name Scenario.working |}.

(** A sink pad of the muxer that is linked to nothing. *)
Definition muxer_pad : Gst.Pad :=
  {| Gst.pad_name := "sink_7"; Gst.pad_direction := Gst.SINK;
     Gst.pad_parent := "stream-muxer" |}.

(** The bin finds that pad unlinked. *)
Definition spare_pad : Gst.Framework :=
  {| Gst.find_unlinked_pad := fun _ _ _ => Some muxer_pad;
     Gst.get_request_pad := Gst.get_request_pad Scenario.working;
     Gst.ghost_pad_new := Gst.ghost_pad_new Scenario.working;
     Gst.add_pad := Gst.add_pad Scenario.working;
     Gst.pad_link := Gst.pad_link Scenario.working;
     Gst.element_link := Gst.element_link Scenario.working;
     Gst.bin_remove := Gst.bin_remove Scenario.working;
     Gst.is_linked := Gst.is_linked Scenario.working;
     Gst.get_peer := Gst.get_peer Scenario.working;
     Gst.query_caps := Gst.query_caps Scenario.working;
     Gst.get_current_caps := Gst.get_current_caps Scenario.working;
     Gst.set_state := Gst.set_state Scenario.working;
     Gst.loop_is_running := Gst.loop_is_running Scenario.working;
     Gst.pipeline_attributes := Gst.pipeline_attributes Scenario.working;
     Gst.pipeline_name := Gst.pipeline_name Scenario.working |}.

(** An inference bin with two sources attached, and nothing called yet. *)
Definition two_sources : Sys InferenceBin.t :=
  Scenario.start (Scenario.inference_bin 2).

End Scenario3.

Module Scenario4.

(** The state after a sink pad was got for a third source. *)
Definition got_pad : Sys InferenceBin.t :=
  (InferenceBin.get_sink_pad Scenario.working Scenario3.two_sources).2.

(** Another source is attached after that. *)
Definition attached : Sys InferenceBin.t :=
  SourceOps.steps Scenario.working
    [SourceOps.LinkSource "source_3" (Scenario.src_pad "source_3")] got_pad.

End Scenario4.

Module Waiting2.


End Waiting2.

(** ** Leaving the [with] block of a [DeepStreamApp] *)

Module Lifecycle.

(** The [exc_type] that [__exit__] is given when the block raised:
    [KeyboardInterrupt] or any other class. *)
Inductive ExcType : Type := KeyboardInterrupt | OtherException.

Section WithFramework.
Context (F : Gst.Framework).

(** [__exit__] returns [True] or falls off its end, which returns
    [None]. *)
Definition __exit__ (exc_type : option ExcType) : M StateSetter.t (option bool) :=
  (self <- get ;;
   log Logging.DEBUG (StateSetter.name self +:+ ".__exit__") ;;
   StateSetter.bin_to_pdf (StateSetter.name self)
     (StateSetter.name self +:+ ".__exit__.begin") ;;
   StateSetter.quit F true false 10 true ;;
   match exc_type with
   | Some KeyboardInterrupt =>
     log Logging.DEBUG "successfully handled SIGINT" ;;
     ret (Some true)
   | _ => ret None
   end)%py.

End WithFramework.

(** The state in which [__exit__] calls [quit]. *)
Definition leaving (s : Sys StateSetter.t) : Sys StateSetter.t :=
  Build_Sys (self s)
    (calls s ++ [Gst.BinToPdf (StateSetter.name (self s))
                   (StateSetter.name (self s) +:+ ".__exit__.begin")])
    (logged s ++ [(Logging.DEBUG, StateSetter.name (self s) +:+ ".__exit__")]).

End Lifecycle.

(** ** Making, adding and linking the elements of a description *)

(** A [for] loop over a list whose body may raise, which ends the loop. *)
Fixpoint for_each {Self A} (items : list A) (body : A -> M Self unit) : M Self unit :=
  match items with
  | [] => ret tt
  | item :: rest => (body item ;; for_each rest body)%py
  end.

(** An argument typed [Iterable]: a list or a tuple, which can be gone
    through any number of times, or an iterator such as a generator,
    which is used up by the first loop over it. *)
Inductive Iterable (A : Type) : Type :=
  | Sequence (items : list A)
  | Iterator (items : list A).
Arguments Sequence {A} items.
Arguments Iterator {A} items.

(** What a loop over the whole of an iterable goes through, and the
    iterable after that loop. *)
Definition items_of {A} (iterable : Iterable A) : list A :=
  match iterable with Sequence items | Iterator items => items end.

Definition used_up {A} (iterable : Iterable A) : Iterable A :=
  match iterable with
  | Sequence items => Sequence items
  | Iterator _ => Iterator []
  end.

Module Factory.
Import Description.

(** What is asked of [Gst.ElementFactory], of an element and of a bin
    while elements are made and put together.  An element is given by its
    name, a handler by the name of the method. *)
Inductive Event : Type :=
  | Make (type_name name : string)
  | SetProperty (element key : string) (value : PropValue)
  | Add (bin element : string)
  | Connect (element signal handler : string)
  | AddProbe (element pad handler : string).

Global Instance PropValue_eq_dec : EqDecision PropValue.
Proof. solve_decision. Defined.

Global Instance Event_eq_dec : EqDecision Event.
Proof. solve_decision. Defined.

(** What the framework answers, from everything asked before: whether
    [Gst.ElementFactory.make] returns an element rather than [None], what
    [Gst.Bin.add] returns, and whether [get_static_pad] returns a pad
    rather than [None].  Setting a property, connecting a handler and
    adding a probe are taken to work. *)
Record Answers : Type := {
  make : list Event -> list Gst.Call -> string -> string -> bool;
  add : list Event -> list Gst.Call -> string -> string -> bool;
  get_static_pad : list Event -> list Gst.Call -> string -> string -> bool;
}.

(** The functions of the module run on the events so far, which take the
    place of an object. *)
Definition event {A} (e : Event) (answer : list Event -> list Gst.Call -> A)
    : M (list Event) A :=
  fun s => (Ok (answer (self s) (calls s)), Build_Sys (self s ++ [e]) (calls s) (logged s)).


Section WithFramework.
Context (F : Gst.Framework) (W : Answers).

Definition make_element (type_name name : string) : M (list Event) string :=
  (log Logging.DEBUG ("creating element: " +:+ type_name +:+ " with name: " +:+ name) ;;
   element <- event (Make type_name name) (fun h c => make W h c type_name name) ;;
   if (element : bool) then ret name
   else
     let err := "failed to create " +:+ type_name +:+ " with name: " +:+ name in
     log Logging.ERROR err ;;
     raise (ElementCreationError err))%py.

(** [for k, v in ed.properties.items(): element.set_property(k, v)],
    skipped for [None] and for an empty dict alike. *)
Definition set_properties (element : string)
    (properties : option (gmap string PropValue)) : M (list Event) unit :=
  match properties with
  | Some properties =>
    for_each (map_to_list properties)
      (fun kv => event (SetProperty element kv.1 kv.2) (fun _ _ => tt))
  | None => ret tt
  end.

(** The loop of [make_elements], from the elements made so far. *)
Fixpoint make_elements_from (elements : list string) (bin_description : BinDescription)
    : M (list Event) (list string) :=
  match bin_description with
  | [] => ret elements
  | None :: rest => make_elements_from elements rest
  | Some ed :: rest =>
    (element <- make_element (ed_type ed) (ed_name ed) ;;
     set_properties element (ed_properties ed) ;;
     (if bool_decide (ed_name ed ∈ elements) then
        log Logging.WARNING ("DUPLICATE ELEMENT NAME: " +:+ ed_name ed +:+ " "
                             +:+ "this may lead to unexpected behavior.")
      else ret tt) ;;
     make_elements_from (elements ++ [element]) rest)%py
  end.

Definition make_elements (bin_description : BinDescription) : M (list Event) (list string) :=
  make_elements_from [] bin_description.

(** The loop of [auto_link], from the element before. *)
Fixpoint auto_link_from {Self} (prev : option string) (elements : list string)
    : M Self unit :=
  match elements with
  | [] => ret tt
  | element :: rest =>
    (match prev with
     | Some prev => Linker.link F (Linker.AnElement prev) (Linker.AnElement element)
     | None => ret tt
     end ;;
     auto_link_from (Some element) rest)%py
  end.

Definition auto_link {Self} (elements : Iterable string) : M Self unit :=
  auto_link_from None (items_of elements).

(** [add_iterable]: one loop over [elements] to add them, and a second
    one, in [auto_link], to link them. *)
Definition add_iterable (bin_ : string) (elements : Iterable string) (link_ : bool)
    : M (list Event) unit :=
  (for_each (items_of elements)
     (fun element =>
        added <- event (Add bin_ element) (fun h c => add W h c bin_ element) ;;
        if (added : bool) then ret tt
        else raise (BinAddError ("could not add " +:+ element +:+ " to " +:+ bin_))) ;;
   if link_ then auto_link (used_up elements) else ret tt)%py.



End WithFramework.

End Factory.

(** ** What [make_elements] and [auto_link] come to *)

Module Built.
Import Description Factory.

(** The entries of a description that are not [None]. *)
Definition present (bd : BinDescription) : list ElementDescription := omap id bd.

(** The messages of [make_element] and of the warning of [make_elements]. *)
Definition creating (ed : ElementDescription) : LogRecord :=
  (Logging.DEBUG, "creating element: " +:+ ed_type ed +:+ " with name: " +:+ ed_name ed).

Definition failed (ed : ElementDescription) : string :=
  "failed to create " +:+ ed_type ed +:+ " with name: " +:+ ed_name ed.

Definition duplicate (ed : ElementDescription) : LogRecord :=
  (Logging.WARNING, "DUPLICATE ELEMENT NAME: " +:+ ed_name ed +:+ " "
                    +:+ "this may lead to unexpected behavior.").

(** Making one described element: it is made, and each of its properties
    is set. *)
Definition element_events (ed : ElementDescription) : list Event :=
  Make (ed_type ed) (ed_name ed)
  :: map (fun kv => SetProperty (ed_name ed) kv.1 kv.2)
       (map_to_list (default ∅ (ed_properties ed))).

(** The lines logged when the described elements are made after elements
    of the names [elements]. *)
Fixpoint element_lines (elements : list string) (eds : list ElementDescription)
    : list LogRecord :=
  match eds with
  | [] => []
  | ed :: rest =>
    creating ed
    :: (if bool_decide (ed_name ed ∈ elements) then [duplicate ed] else [])
    ++ element_lines (elements ++ [ed_name ed]) rest
  end.

(** The links of a chain: each element to the next. *)
Definition links (elements : list string) : list Gst.Call :=
  zip_with Gst.ElementLink elements (tail elements).

(** The chain [auto_link] has in hand: the element before, if any, and
    the elements to come. *)
Definition chain_from (prev : option string) (elements : list string) : list string :=
  match prev with Some prev => prev :: elements | None => elements end.


(** The events since an earlier state. *)
Definition events_since (s s' : Sys (list Event)) : list Event :=
  drop (length (self s)) (self s').

Definition lines_since {Self} (s s' : Sys Self) : list LogRecord :=
  drop (length (logged s)) (logged s').

End Built.

Module Scenario5.
Import Description Factory.

(** The framework makes and adds whatever it is asked to, and every
    element has the static pads asked for. *)
Definition willing : Answers :=
  {| make := fun _ _ _ _ => true;
     add := fun _ _ _ _ => true;
     get_static_pad := fun _ _ _ _ => true |}.


(** A bin refuses one element. *)
Definition refusing (unwanted : string) : Answers :=
  {| make := fun _ _ _ _ => true;
     add := fun _ _ _ element => negb (bool_decide (element = unwanted));
     get_static_pad := fun _ _ _ _ => true |}.

(** The [osd] element has no sink pad. *)
Definition no_osd_pad : Answers :=
  {| make := fun _ _ _ _ => true;
     add := fun _ _ _ _ => true;
     get_static_pad := fun _ _ _ _ => false |}.


(** Two elements under one name. *)
Definition same_name : BinDescription :=
  [ Some {| ed_type := "queue"; ed_name := "q"; ed_properties := None |};
    Some {| ed_type := "queue"; ed_name := "q"; ed_properties := None |} ].

(** Nothing made or asked yet. *)
Definition nothing : Sys (list Event) := Scenario.start [].

End Scenario5.

(** ** [mce.osd]: the text drawn on every frame *)

Module Osd.

Definition VEHICLE : Z := 0.
Definition BICYCLE : Z := 1.
Definition PERSON : Z := 2.
Definition ROADSIGN : Z := 3.

(** What [on_buffer] reads of the metadata of a batch: the class of
    every object, and the number of a frame and its count of objects as
    the frame carries them. *)
Record ObjectMeta : Type := { class_id : Z }.

Record FrameMeta : Type := {
  frame_num : Z;
  num_obj_meta : Z;
  obj_meta_list : list ObjectMeta;
}.

(** The batch metadata of a buffer: its list of frames. *)
Definition BatchMeta : Type := list FrameMeta.

(** The display metadata [on_buffer] fills in; the colours are
    (red, green, blue, alpha), each 0.0 or 1.0. *)
Record DisplayMeta : Type := {
  num_labels : Z;
  display_text : string;
  x_offset : Z;
  y_offset : Z;
  font_name : string;
  font_size : Z;
  font_color : Z * Z * Z * Z;
  set_bg_clr : Z;
  text_bg_clr : Z * Z * Z * Z;
}.

(** What [on_buffer] raises. *)
Inductive Raised : Type :=
  | BufferError (msg : string)
  | KeyError (key : Z).

Inductive PadProbeReturn : Type := DROP | OK | REMOVE | PASS | HANDLED.

(** [obj_counter[obj_meta.class_id] += 1] *)
Definition count_object (obj_counter : gmap Z Z) (obj_meta : ObjectMeta)
    : Raised + gmap Z Z :=
  match obj_counter !! class_id obj_meta with
  | Some n => inr (<[class_id obj_meta := n + 1]> obj_counter)
  | None => inl (KeyError (class_id obj_meta))
  end.

(** The inner loop, over the objects of a frame. *)
Fixpoint count_objects (obj_counter : gmap Z Z) (objects : list ObjectMeta)
    : Raised + gmap Z Z :=
  match objects with
  | [] => inr obj_counter
  | obj_meta :: rest =>
    match count_object obj_counter obj_meta with
    | inr obj_counter => count_objects obj_counter rest
    | inl e => inl e
    end
  end.

(** The display metadata with its text and the fixed settings. *)
Definition display (frame_meta : FrameMeta) (vehicles people : Z) : DisplayMeta :=
  {| num_labels := 1;
     display_text := "Frame=" +:+ pretty (frame_num frame_meta) +:+ " "
                     +:+ "Objects=" +:+ pretty (num_obj_meta frame_meta) +:+ " "
                     +:+ "Vehicles=" +:+ pretty vehicles +:+ " "
                     +:+ "People=" +:+ pretty people;
     x_offset := 10;
     y_offset := 12;
     font_name := "Serif";
     font_size := 10;
     font_color := (1, 1, 1, 1);
     set_bg_clr := 1;
     text_bg_clr := (0, 0, 0, 1) |}.

(** The outer loop, over the frames of the batch.  [obj_counter] is set
    up before the loop and goes from frame to frame; [added] are the
    display metadata added to frames so far. *)
Fixpoint each_frame (obj_counter : gmap Z Z) (added : list (FrameMeta * DisplayMeta))
    (frames : list FrameMeta) : (Raised + unit) * list (FrameMeta * DisplayMeta) :=
  match frames with
  | [] => (inr tt, added)
  | frame_meta :: rest =>
    match count_objects obj_counter (obj_meta_list frame_meta) with
    | inl e => (inl e, added)
    | inr obj_counter =>
      match obj_counter !! VEHICLE, obj_counter !! PERSON with
      | Some vehicles, Some people =>
        each_frame obj_counter (added ++ [(frame_meta, display frame_meta vehicles people)])
          rest
      | None, _ => (inl (KeyError VEHICLE), added)
      | _, None => (inl (KeyError PERSON), added)
      end
    end
  end.

(** [on_buffer]: what it returns or raises, and the display metadata it
    added to frames.  The buffer of the probe info may be missing. *)
Definition on_buffer (gst_buffer : option BatchMeta)
    : (Raised + PadProbeReturn) * list (FrameMeta * DisplayMeta) :=
  match gst_buffer with
  | None => (inl (BufferError "Could not get Gst.Buffer"), [])
  | Some batch_meta =>
    let obj_counter : gmap Z Z :=
      <[VEHICLE := 0]> (<[PERSON := 0]> (<[BICYCLE := 0]> (<[ROADSIGN := 0]> ∅))) in
    match each_frame obj_counter [] batch_meta with
    | (inr _, added) => (inr OK, added)
    | (inl e, added) => (inl e, added)
    end
  end.

(** The number of objects of a class among some objects, and in some
    frames. *)
Definition tally (class : Z) (objects : list ObjectMeta) : Z :=
  Z.of_nat (length (filter (fun obj_meta => class_id obj_meta = class) objects)).

Definition objects_of (frames : list FrameMeta) : list ObjectMeta :=
  concat (map obj_meta_list frames).

Definition seen (class : Z) (frames : list FrameMeta) : Z :=
  tally class (objects_of frames).

(** A class [on_buffer] counts. *)
Definition known (class : Z) : Prop := 0 <= class <= 3.

(** The texts of frames that come after the frames [before] in a batch:
    each shows the vehicles and the people seen in the batch so far, its
    own among them. *)
Fixpoint texts (before frames : list FrameMeta) : list (FrameMeta * DisplayMeta) :=
  match frames with
  | [] => []
  | frame_meta :: rest =>
    (frame_meta,
     display frame_meta (seen VEHICLE (before ++ [frame_meta]))
       (seen PERSON (before ++ [frame_meta])))
    :: texts (before ++ [frame_meta]) rest
  end.

(** The counter after [objects] were counted: the tally of each class
    that is counted, and no other key. *)
Definition counted (obj_counter : gmap Z Z) (objects : list ObjectMeta) : Prop :=
  forall class,
    obj_counter !! class
    = if decide (known class) then Some (tally class objects) else None.

(** All the objects of a frame are of classes that are counted. *)
Definition all_known (frame_meta : FrameMeta) : Prop :=
  Forall (fun obj_meta => known (class_id obj_meta)) (obj_meta_list frame_meta).

(** Two frames of a batch: a car and a person, then a car. *)
Definition street : BatchMeta :=
  [ {| frame_num := 7; num_obj_meta := 2;
       obj_meta_list := [ {| class_id := VEHICLE |}; {| class_id := PERSON |} ] |};
    {| frame_num := 7; num_obj_meta := 1;
       obj_meta_list := [ {| class_id := VEHICLE |} ] |} ].

(** A frame with an object of a class the model was not trained for. *)
Definition odd_frame : FrameMeta :=
  {| frame_num := 8; num_obj_meta := 2;
     obj_meta_list := [ {| class_id := BICYCLE |}; {| class_id := 4 |} ] |}.

End Osd.

(** ** Adding a source to a [DeepStreamApp] *)

Module Sources.
Import Description Factory.

(** What [_add_source] reads and writes of the application: its name,
    the inference bin once [__enter__] has made it, and the counter of
    sources; with them, what was asked of the framework so far. *)
Record App : Type := {
  name : string;
  _inference_bin : option string;
  _source_counter : Z;
  events : list Event;
}.

Definition set_events (events : list Event) (self : App) : App :=
  {| name := name self;
     _inference_bin := _inference_bin self;
     _source_counter := _source_counter self;
     events := events |}.

Definition set_source_counter (count : Z) (self : App) : App :=
  {| name := name self;
     _inference_bin := _inference_bin self;
     _source_counter := count;
     events := events self |}.

Section WithFramework.
Context (W : Answers).

(** Something asked of the framework from a method of the application. *)
Definition asked {A} (e : Event) (answer : list Event -> list Gst.Call -> A) : M App A :=
  lift events set_events (event e answer).

(** [_add_source].  [Gst.ElementFactory.make] may return [None], and
    [_inference_bin] is [None] until [__enter__] sets it: an attribute of
    [None] is then asked for.  What [self.add] returns is not looked
    at. *)
Definition _add_source (uri : string) : M App unit :=
  (self <- get ;;
   let source := "source_" +:+ pretty (_source_counter self) in
   uridecodebin <- asked (Make "uridecodebin" source)
                     (fun h c => make W h c "uridecodebin" source) ;;
   (if (uridecodebin : bool) then ret tt else raise (AttributeError "set_property")) ;;
   asked (SetProperty source "uri" (VStr uri)) (fun _ _ => tt) ;;
   asked (SetProperty source "caps" (VStr "video/x-raw(ANY)")) (fun _ _ => tt) ;;
   asked (SetProperty source "expose-all-streams" (VBool false)) (fun _ _ => tt) ;;
   asked (SetProperty source "async-handling" (VBool true)) (fun _ _ => tt) ;;
   match _inference_bin self with
   | Some _ => asked (Connect source "pad-added" "link_source") (fun _ _ => tt)
   | None => raise (AttributeError "link_source")
   end ;;
   asked (Connect source "element-added" "_on_decode_bin_child_added") (fun _ _ => tt) ;;
   asked (Add (name self) source) (fun h c => add W h c (name self) source) ;;
   modify (fun self => set_source_counter (_source_counter self + 1) self))%py.

(** [_on_decode_bin_child_added], the handler of [element-added]. *)
Definition _on_decode_bin_child_added (bin_ element : string) : M App unit :=
  (log Logging.DEBUG (bin_ +:+ " child added: " +:+ element) ;;
   if String.prefix "decodebin" element then
     log Logging.DEBUG ("adding element-added callback to " +:+ element) ;;
     asked (Connect element "element-added" "_on_decode_bin_child_added") (fun _ _ => tt)
   else if String.prefix "nvv4l2decoder" element then
     log Logging.DEBUG ("setting properties on decoder: " +:+ element) ;;
     asked (SetProperty element "enable-max-performance" (VBool true)) (fun _ _ => tt) ;;
     asked (SetProperty element "bufapi-version" (VBool true)) (fun _ _ => tt) ;;
     asked (SetProperty element "drop-frame-interval" (VInt 0)) (fun _ _ => tt) ;;
     asked (SetProperty element "num-extra-surfaces" (VInt 0)) (fun _ _ => tt)
   else ret tt)%py.

(** The events of a source that was set up, connected and added. *)
Definition source_events (self : App) (uri : string) : list Event :=
  let source := "source_" +:+ pretty (_source_counter self) in
  [ Make "uridecodebin" source;
    SetProperty source "uri" (VStr uri);
    SetProperty source "caps" (VStr "video/x-raw(ANY)");
    SetProperty source "expose-all-streams" (VBool false);
    SetProperty source "async-handling" (VBool true);
    Connect source "pad-added" "link_source";
    Connect source "element-added" "_on_decode_bin_child_added";
    Add (name self) source ].

(** Adding sources one after the other, going on after a failure. *)
Definition add_sources (uris : list string) (s : Sys App) : Sys App :=
  fold_left (fun s uri => (_add_source uri s).2) uris s.

End WithFramework.

(** An application after [__enter__] made its inference bin, with no
    source yet, and one the pipeline of which takes nothing. *)
Definition entered : Sys App :=
  Scenario.start {| name := "pipeline0"; _inference_bin := Some "inference_0";
                    _source_counter := 0; events := [] |}.

Definition full_pipeline : Answers :=
  {| make := fun _ _ _ _ => true;
     add := fun _ _ _ _ => false;
     get_static_pad := fun _ _ _ _ => true |}.

End Sources.

(** ** [convert_uris] *)

Module Uris.

Definition YOUTUBE_HOSTNAMES : list string := ["www.youtube.com"; "youtu.be"].

(** What [extract_info] returns, as far as it is read: a dict with
    [entries], each a dict that may have a [url], or a dict that may have
    a [title] and a [url]. *)
Inductive Info : Type :=
  | Playlist (entries : list (option string))
  | Video (title url : option string).

(** A [YoutubeDL] instance, by its [extract_info]. *)
Definition YoutubeDL : Type := string -> Info.

(** What the function asks of the system: [os.path.isfile],
    [os.path.abspath] and the [hostname] of [urllib.parse.urlparse],
    which may be [None]; and the global [youtube_dl], [None] when the
    module could not be imported, by the instance its [YoutubeDL]
    makes. *)
Record World : Type := {
  isfile : string -> bool;
  abspath : string -> string;
  hostname : string -> option string;
  youtube_dl : option YoutubeDL;
}.

(** How the body of a generator ends: it comes to its end, or it raises
    [StopIteration] itself. *)
Inductive Ending : Type := Exhausted | RaisedStopIteration.

(** A generator runs on the list of what it yielded so far. *)
Definition yield (uri : string) : M (list string) unit :=
  modify (fun yielded => yielded ++ [uri]).

Section WithWorld.
Context (W : World).

Definition is_youtube (uri : string) : bool :=
  match hostname W uri with
  | Some host => bool_decide (host ∈ YOUTUBE_HOSTNAMES)
  | None => false
  end.

Definition youtube_in_uris (uris : list string) : bool := existsb is_youtube uris.

(** The body of the loop of [convert_uris]. *)
Definition convert (ydl : option YoutubeDL) (uri : string) : M (list string) unit :=
  (if isfile W uri then yield ("file://" +:+ abspath W uri)
   else if is_youtube uri then
     match ydl with
     | None =>
       log Logging.WARNING (uri +:+ " looks like a youtube uri but no youtube-dl found. "
                            +:+ "Try 'pip3 install youtube-dl'")
     | Some ydl =>
       match ydl uri with
       | Playlist entries =>
         for_each entries
           (fun video => match video with Some url => yield url | None => ret tt end)
       | Video title url =>
         match title with
         | Some title => log Logging.DEBUG ("Adding youtube video: " +:+ title)
         | None => ret tt
         end ;;
         match url with
         | Some url => log Logging.DEBUG ("youtube video uri: " +:+ url) ;; yield url
         | None => ret tt
         end
       end
     end
   else yield uri)%py.

(** [convert_uris].  The call of itself is made with a list and with a
    [ydl], so that it goes straight to the loop, over that list.  The
    loop at the end is over [uris] as given, after [list(uris)] went
    through it. *)
Definition convert_uris (uris : Iterable string) (ydl : option YoutubeDL)
    : M (list string) Ending :=
  let _uris := items_of uris in
  match youtube_dl W, ydl with
  | Some make_ydl, None =>
    if youtube_in_uris _uris then
      (for_each _uris (convert (Some make_ydl)) ;;
       ret RaisedStopIteration)%py
    else
      (for_each (items_of (used_up uris)) (convert ydl) ;; ret Exhausted)%py
  | _, _ =>
    (for_each (items_of (used_up uris)) (convert ydl) ;; ret Exhausted)%py
  end.

(** A uri that is not of YouTube, as it is yielded: a file by its
    [file://] uri, anything else as it is. *)
Definition plain (uri : string) : string :=
  if isfile W uri then "file://" +:+ abspath W uri else uri.

(** What a [ydl] gives for a YouTube uri. *)
Definition extracted (ydl : YoutubeDL) (uri : string) : list string :=
  match ydl uri with
  | Playlist entries => omap id entries
  | Video _ url => match url with Some url => [url] | None => [] end
  end.

(** What the loop yields for one uri. *)
Definition converted (ydl : option YoutubeDL) (uri : string) : list string :=
  if isfile W uri then ["file://" +:+ abspath W uri]
  else if is_youtube uri then
    match ydl with Some ydl => extracted ydl uri | None => [] end
  else [uri].

End WithWorld.

(** A system with one file, [/tmp/a.mp4], and [youtube-dl] installed,
    for which every YouTube uri is a playlist of two videos, one of them
    without a [url]. *)
Definition laptop : World :=
  {| isfile := fun uri => bool_decide (uri = "a.mp4");
     abspath := fun uri => "/tmp/" +:+ uri;
     hostname := fun uri =>
       if String.prefix "https://youtu.be/" uri then Some "youtu.be" else None;
     youtube_dl := Some (fun uri => Playlist [Some (uri +:+ "?v=1"); None]) |}.

End Uris.

(** * Properties *)

(** ** The inference bin description *)

Section DescriptionFacts.
Import Description Geometry.

Lemma sqrt_up_is_ceil_sqrt (n : Z) : 0 < n -> is_ceil_sqrt n (Z.sqrt_up n).
Proof.
  intros Hn. split; [apply Z.sqrt_up_nonneg|].
  pose proof (Z.sqrt_up_spec n Hn) as H.
  replace (Z.pred (Z.sqrt_up n)) with (Z.sqrt_up n - 1) in H by lia.
  exact H.
Qed.


Lemma calc_rows_and_columns_pos (n : Z) :
  0 < n -> calc_rows_and_columns n = Ok (Z.sqrt_up n).
Proof.
  intros Hn. unfold calc_rows_and_columns.
  rewrite bool_decide_eq_false_2 by lia.
  rewrite bool_decide_eq_false_2 by lia. reflexivity.
Qed.



End DescriptionFacts.






(** ** The square root of the machine *)

Section FloatFacts.
Import FloatCheck.

(** The number of binary digits of a positive number. *)
Lemma digits2_pos_bounds (p : positive) :
  2 ^ (Z.pos (digits2_pos p) - 1) <= Z.pos p < 2 ^ Z.pos (digits2_pos p).
Proof.
  induction p as [p IH|p IH|]; simpl digits2_pos; [| |simpl; lia];
    rewrite Pos2Z.inj_succ;
    replace (Z.succ (Z.pos (digits2_pos p)) - 1)
      with (Z.succ (Z.pos (digits2_pos p) - 1)) by lia;
    rewrite !Z.pow_succ_r by lia; lia.
Qed.

Lemma digits2_pos_unique (p : positive) (d : Z) :
  2 ^ (d - 1) <= Z.pos p < 2 ^ d -> Z.pos (digits2_pos p) = d.
Proof.
  intros [Hlo Hhi]. pose proof (digits2_pos_bounds p) as [Hlo' Hhi'].
  assert (0 < d).
  { destruct (Z.lt_trichotomy d 0) as [Hd|[->|Hd]]; [|simpl in Hhi; lia|lia].
    rewrite Z.pow_neg_r in Hhi by lia. lia. }
  destruct (Z.lt_trichotomy (Z.pos (digits2_pos p)) d) as [Hlt|[Heq|Hgt]]; [|exact Heq|].
  - assert (2 ^ Z.pos (digits2_pos p) <= 2 ^ (d - 1)) by (apply Z.pow_le_mono_r; lia). lia.
  - assert (2 ^ d <= 2 ^ (Z.pos (digits2_pos p) - 1)) by (apply Z.pow_le_mono_r; lia). lia.
Qed.

Lemma iter_xO_mul (p k : positive) : Z.pos (Pos.iter xO p k) = Z.pos p * 2 ^ Z.pos k.
Proof.
  revert p. induction k as [|k IH] using Pos.peano_ind; intros p.
  - simpl. lia.
  - rewrite Pos.iter_succ, Pos2Z.inj_succ, Z.pow_succ_r by lia.
    rewrite Pos2Z.inj_xO, IH. lia.
Qed.

Lemma fexp_small (e : Z) : -1021 <= e -> fexp prec emax e = e - 53.
Proof. intros He. unfold fexp, emin, prec, emax. lia. Qed.

Lemma loc_of_shr_record_of_loc m l : loc_of_shr_record (shr_record_of_loc m l) = l.
Proof. destruct l as [|[]]; reflexivity. Qed.

Lemma shr_m_of_loc m l : shr_m (shr_record_of_loc m l) = m.
Proof. destruct l as [|[]]; reflexivity. Qed.

(** A mantissa of 53 digits with a small exponent is not shifted. *)
Lemma shr_fexp_53 (m : positive) (e : Z) l :
  Z.pos (digits2_pos m) = 53 -> -1074 <= e ->
  shr_fexp prec emax (Z.pos m) e l = (shr_record_of_loc (Z.pos m) l, e).
Proof.
  intros Hd He. unfold shr_fexp. simpl Zdigits2. rewrite Hd.
  rewrite fexp_small by lia. replace (53 + e - 53 - e) with 0 by lia. reflexivity.
Qed.

Lemma binary_round_aux_53 (m : positive) (e : Z) :
  Z.pos (digits2_pos m) = 53 -> -1074 <= e <= 971 ->
  binary_round_aux prec emax false (Z.pos m) e loc_Exact = S754_finite false m e.
Proof.
  intros Hd He. unfold binary_round_aux.
  rewrite (shr_fexp_53 m e loc_Exact Hd) by lia. simpl.
  rewrite (shr_fexp_53 m e loc_Exact Hd) by lia. simpl.
  replace (e <=? emax - prec) with true; [reflexivity|].
  symmetry. apply Z.leb_le. unfold emax, prec. lia.
Qed.

Lemma float_of_int_small (p : positive) (d : Z) :
  2 ^ (d - 1) <= Z.pos p < 2 ^ d -> d <= 52 ->
  float_of_int (Z.pos p)
    = Some (S754_finite false (Pos.iter xO p (Z.to_pos (53 - d))) (d - 53)).
Proof.
  intros Hp Hd.
  pose proof (digits2_pos_unique p d Hp) as Hdig.
  assert (0 < d) by lia.
  unfold float_of_int, binary_normalize, binary_round.
  rewrite Hdig, fexp_small by lia.
  assert (Hneg : Z.neg (Z.to_pos (53 - d)) = d - 53)
    by (rewrite <- Pos2Z.opp_pos, Z2Pos.id; lia).
  unfold shl_align.
  replace (d + 0 - 53 - 0) with (Z.neg (Z.to_pos (53 - d))) by (rewrite Hneg; lia).
  replace (d + 0 - 53) with (d - 53) by lia.
  rewrite binary_round_aux_53; [reflexivity| |lia].
  apply digits2_pos_unique. rewrite iter_xO_mul.
  rewrite Z2Pos.id by lia.
  assert (E1 : 2 ^ (53 - 1) = 2 ^ (d - 1) * 2 ^ (53 - d))
    by (rewrite <- Z.pow_add_r by lia; f_equal; lia).
  assert (E2 : 2 ^ 53 = 2 ^ d * 2 ^ (53 - d))
    by (rewrite <- Z.pow_add_r by lia; f_equal; lia).
  assert (0 < 2 ^ (53 - d)) by (apply Z.pow_pos_nonneg; lia).
  rewrite E1, E2.
  split; [apply Z.mul_le_mono_nonneg_r|apply Z.mul_lt_mono_pos_r]; lia.
Qed.

(** The square root of a number of 53 digits with exponent [d - 53]. *)
Lemma math_sqrt_small (m : positive) (d : Z) :
  Z.pos (digits2_pos m) = 53 -> 1 <= d <= 52 ->
  let K := 53 - (d + 1) / 2 in
  let m' := Z.pos m * 2 ^ (d - 53 + 2 * K) in
  let q := Z.sqrt m' in
  let r := m' - q * q in
  math_sqrt (S754_finite false m (d - 53))
    = binary_round_aux prec emax false q (- K)
        (if r =? 0 then loc_Exact else loc_Inexact (if r <=? q then Lt else Gt)).
Proof.
  intros Hdig Hd K m' q r.
  unfold math_sqrt, SFsqrt, SFsqrt_core_binary. simpl Zdigits2. rewrite Hdig.
  rewrite !Z.div2_div.
  rewrite fexp_small
    by (assert (0 <= (53 + (d - 53) + 1) / 2) by (apply Z.div_pos; lia); lia).
  replace (53 + (d - 53) + 1) with (d + 1) by lia.
  assert (HK : Z.min ((d + 1) / 2 - 53) ((d - 53) / 2) = - K).
  { unfold K. replace (d - 53) with ((d + 1) + (-27) * 2) by lia.
    rewrite Z.div_add by lia. lia. }
  rewrite HK.
  assert (Hs : 0 < d - 53 - 2 * - K).
  { unfold K. pose proof (Z.mul_div_le (d + 1) 2). lia. }
  destruct (d - 53 - 2 * - K) as [|s|s] eqn:Es; try lia.
  rewrite Z.shiftl_mul_pow2 by lia.
  assert (Hm' : Z.pos m * 2 ^ Z.pos s = m').
  { unfold m'. f_equal. f_equal. lia. }
  rewrite Hm'.
  pose proof (Z.sqrtrem_spec m') as Hspec.
  assert (0 <= m').
  { unfold m'. apply Z.mul_nonneg_nonneg; [lia|]. apply Z.pow_nonneg. lia. }
  pose proof (Z.sqrtrem_sqrt m') as Hsq.
  destruct (Z.sqrtrem m') as [q0 r0]. simpl in Hsq. subst q0.
  specialize (Hspec ltac:(lia)). destruct Hspec as [Hspec _].
  fold q in Hspec |- *.
  assert (r0 = r) as -> by (unfold r; nia).
  reflexivity.
Qed.

Lemma shr_fexp_2_53 (K : Z) :
  1 <= K <= 1074 ->
  shr_fexp prec emax (Z.pos (2 ^ 53)%positive) (- K) loc_Exact
    = ({| shr_m := Z.pos (2 ^ 52)%positive; shr_r := false; shr_s := false |}, - K + 1).
Proof.
  intros HK. unfold shr_fexp.
  change (Zdigits2 (Z.pos (2 ^ 53)%positive)) with 54.
  rewrite fexp_small by lia.
  replace (54 + - K - 53 - - K) with 1 by lia. reflexivity.
Qed.

(** Rounding an integer square root of 53 digits, and the ceiling of what
    comes out. *)
Lemma ceil_of_rounded (q K : Z) l :
  2 ^ 52 <= q < 2 ^ 53 -> 1 <= K <= 1074 -> l <> loc_Inexact Eq ->
  exists M,
    (M = q \/ M = q + 1) /\
    (l = loc_Exact -> M = q) /\
    math_ceil (binary_round_aux prec emax false q (- K) l) = Some (- ((- M) / 2 ^ K)).
Proof.
  intros Hq HK Hl.
  destruct q as [|qp|qp]; try lia.
  assert (Hdig : Z.pos (digits2_pos qp) = 53) by (apply digits2_pos_unique; exact Hq).
  unfold binary_round_aux.
  rewrite (shr_fexp_53 qp (- K) l Hdig) by lia.
  rewrite loc_of_shr_record_of_loc, shr_m_of_loc.
  set (M := round_nearest_even (Z.pos qp) l).
  assert (HM : (M = Z.pos qp \/ M = Z.pos qp + 1) /\ (l = loc_Exact -> M = Z.pos qp)).
  { unfold M. destruct l as [|[]]; simpl;
      first [ exfalso; apply Hl; reflexivity
            | split; [tauto|intros ?; try discriminate; reflexivity] ]. }
  exists M. split; [apply HM|]. split; [apply HM|].
  destruct HM as [HM _].
  destruct M as [|Mp|Mp] eqn:EM; try lia.
  destruct (Z_lt_le_dec (Z.pos Mp) (2 ^ 53)) as [Hlt|Hge].
  - assert (HdigM : Z.pos (digits2_pos Mp) = 53) by (apply digits2_pos_unique; lia).
    rewrite (shr_fexp_53 Mp (- K) loc_Exact HdigM) by lia. simpl shr_m.
    replace (- K <=? emax - prec) with true
      by (symmetry; apply Z.leb_le; unfold emax, prec; lia).
    unfold math_ceil. replace (0 <=? - K) with false by (symmetry; apply Z.leb_gt; lia).
    rewrite Z.opp_involutive. reflexivity.
  - assert (HMp : Z.pos Mp = Z.pos (2 ^ 53)%positive)
      by (change (Z.pos (2 ^ 53)%positive) with (2 ^ 53); lia).
    rewrite HMp, (shr_fexp_2_53 K HK). cbv beta iota. simpl shr_m. cbv beta iota.
    replace (- K + 1 <=? emax - prec) with true
      by (symmetry; apply Z.leb_le; unfold emax, prec; lia).
    unfold math_ceil. f_equal.
    change (Z.pos (2 ^ 52)%positive) with (2 ^ 52).
    change (Z.pos (2 ^ 53)%positive) with (2 * 2 ^ 52).
    destruct (Z.leb_spec 0 (- K + 1)) as [H0|H0].
    + assert (K = 1) as -> by lia. reflexivity.
    + f_equal.
      replace (- (- K + 1)) with (K - 1) by lia.
      replace (- (2 * 2 ^ 52)) with (2 * - 2 ^ 52) by lia.
      replace (2 ^ K) with (2 * 2 ^ (K - 1))
        by (rewrite <- Z.pow_succ_r by lia; f_equal; lia).
      rewrite Z.div_mul_cancel_l; [reflexivity| |lia].
      apply Z.pow_nonzero; lia.
Qed.

Lemma ceil_div_unique (M P S : Z) :
  0 < P -> (S - 1) * P < M <= S * P -> - ((- M) / P) = S.
Proof.
  intros HP HM.
  assert (- M / P = - S); [|lia].
  symmetry. apply (Z.div_unique_pos _ _ _ (S * P - M)); lia.
Qed.

Lemma square_lt_inv (a b : Z) : 0 <= a -> 0 <= b -> a * a < b * b -> a < b.
Proof. nia. Qed.

Lemma square_le_inv (a b : Z) : 0 <= a -> 0 <= b -> a * a <= b * b -> a <= b.
Proof. nia. Qed.

Lemma pow_twice (k : Z) : 0 <= k -> 2 ^ (2 * k) = 2 ^ k * 2 ^ k.
Proof. intros Hk. rewrite <- Z.pow_add_r by lia. f_equal. lia. Qed.

(** The arithmetic of the last step: [q] is the integer root of
    [n * P * P] with remainder [r], [S] is the ceiling of the root of [n],
    and [P] is large enough for the root of [n], when it is not an
    integer, to be told from the integer below it. *)
Lemma rounded_root_between (n P q r S M : Z) :
  0 < P -> 1 <= S -> (S - 1) * (S - 1) < n <= S * S -> 2 * (S - 1) < P ->
  0 <= q -> q * q + r = n * (P * P) -> 0 <= r <= 2 * q ->
  (M = q \/ M = q + 1) -> (r = 0 -> M = q) ->
  (S - 1) * P < M <= S * P.
Proof.
  intros HP HS Hn HSP Hq Hqr Hr HM Hexact.
  set (a := (S - 1) * P). set (b := S * P).
  assert (Ha0 : 0 <= a) by (unfold a; apply Z.mul_nonneg_nonneg; lia).
  assert (Hb0 : 0 <= b) by (unfold b; apply Z.mul_nonneg_nonneg; lia).
  assert (HPP : 0 < P * P) by (apply Z.mul_pos_pos; lia).
  assert (Haa : a * a + P * P <= n * (P * P)).
  { replace (a * a + P * P) with (((S - 1) * (S - 1) + 1) * (P * P)) by (unfold a; ring).
    apply Z.mul_le_mono_nonneg_r; lia. }
  assert (Hbb : n * (P * P) <= b * b).
  { replace (b * b) with ((S * S) * (P * P)) by (unfold b; ring).
    apply Z.mul_le_mono_nonneg_r; lia. }
  assert (Ha : a < q).
  { destruct (Z_lt_le_dec a q) as [|Hle]; [assumption|exfalso].
    assert (q * q <= a * a) by (apply Z.mul_le_mono_nonneg; lia).
    assert (2 * a < P * P).
    { replace (2 * a) with ((2 * (S - 1)) * P) by (unfold a; ring).
      apply Z.mul_lt_mono_pos_r; lia. }
    lia. }
  assert (Hb : q <= b).
  { apply square_le_inv; lia. }
  split.
  - destruct HM as [->| ->]; lia.
  - destruct HM as [->| ->]; [exact Hb|].
    destruct (Z.eq_dec q b) as [Heq|]; [|lia].
    assert (r = 0) by (rewrite Heq in Hqr; lia).
    specialize (Hexact ltac:(assumption)). lia.
Qed.

(** Up to [2 ^ 52], the ceiling of the machine's square root is the
    ceiling of the square root. *)
Lemma ceil_sqrt_small (n : Z) :
  1 <= n < 2 ^ 52 ->
  exists x, float_of_int n = Some x /\ math_ceil (math_sqrt x) = Some (Z.sqrt_up n).
Proof.
  intros Hn. destruct n as [|p|p]; try lia.
  set (d := Z.pos (digits2_pos p)).
  pose proof (digits2_pos_bounds p) as Hp. fold d in Hp.
  assert (Hd : 1 <= d <= 52).
  { split; [unfold d; lia|].
    destruct (Z_le_gt_dec d 52) as [|Hgt]; [assumption|].
    assert (2 ^ 52 <= 2 ^ (d - 1)) by (apply Z.pow_le_mono_r; lia). lia. }
  rewrite (float_of_int_small p d Hp) by lia.
  eexists; split; [reflexivity|].
  set (m := Pos.iter xO p (Z.to_pos (53 - d))).
  assert (Hm : Z.pos m = Z.pos p * 2 ^ (53 - d)).
  { unfold m. rewrite iter_xO_mul, Z2Pos.id by lia. reflexivity. }
  assert (Hpow : 0 < 2 ^ (53 - d)) by (apply Z.pow_pos_nonneg; lia).
  assert (Hdigm : Z.pos (digits2_pos m) = 53).
  { apply digits2_pos_unique. rewrite Hm.
    assert (E1 : 2 ^ (53 - 1) = 2 ^ (d - 1) * 2 ^ (53 - d))
      by (rewrite <- Z.pow_add_r by lia; f_equal; lia).
    assert (E2 : 2 ^ 53 = 2 ^ d * 2 ^ (53 - d))
      by (rewrite <- Z.pow_add_r by lia; f_equal; lia).
    rewrite E1, E2.
    split; [apply Z.mul_le_mono_nonneg_r|apply Z.mul_lt_mono_pos_r]; lia. }
  rewrite (math_sqrt_small m d Hdigm Hd).
  set (c := (d + 1) / 2).
  assert (Hc : 1 <= c <= 26 /\ d <= 2 * c <= d + 1).
  { unfold c. pose proof (Z.mul_div_le (d + 1) 2).
    pose proof (Z.mul_succ_div_gt (d + 1) 2). lia. }
  set (K := 53 - c).
  set (P := 2 ^ K).
  assert (HP : 0 < P) by (apply Z.pow_pos_nonneg; lia).
  assert (Hm' : Z.pos m * 2 ^ (d - 53 + 2 * K) = Z.pos p * (P * P)).
  { rewrite Hm. unfold P. rewrite <- pow_twice by lia.
    rewrite <- Z.mul_assoc, <- Z.pow_add_r by lia. f_equal. f_equal. lia. }
  rewrite Hm'.
  set (m' := Z.pos p * (P * P)).
  set (q := Z.sqrt m').
  set (r := m' - q * q).
  assert (Hm'0 : 0 <= m') by (unfold m'; nia).
  pose proof (Z.sqrt_spec m' Hm'0) as Hq. cbv zeta in Hq. fold q in Hq.
  replace (Z.succ q * Z.succ q) with ((q + 1) * (q + 1)) in Hq by lia.
  assert (Hq0 : 0 <= q) by apply Z.sqrt_nonneg.
  (* the root has 53 digits *)
  assert (HPP : 2 ^ d * (P * P) <= 2 ^ 53 * 2 ^ 53 /\
                2 ^ 52 * 2 ^ 52 <= 2 ^ (d - 1) * (P * P)).
  { unfold P. rewrite <- pow_twice by lia. rewrite <- !Z.pow_add_r by lia.
    split; apply Z.pow_le_mono_r; lia. }
  assert (Hq53 : 2 ^ 52 <= q < 2 ^ 53).
  { destruct HPP as (Hhi & Hlo).
    assert (H52 : 0 < 2 ^ 52) by (apply Z.pow_pos_nonneg; lia).
    assert (H53 : 0 < 2 ^ 53) by (apply Z.pow_pos_nonneg; lia).
    assert (Hlo' : 2 ^ 52 * 2 ^ 52 <= m').
    { unfold m'. apply (Z.le_trans _ _ _ Hlo), Z.mul_le_mono_nonneg_r; lia. }
    assert (Hhi' : m' < 2 ^ 53 * 2 ^ 53).
    { unfold m'. apply (Z.lt_le_trans _ (2 ^ d * (P * P))); [|exact Hhi].
      apply Z.mul_lt_mono_pos_r; lia. }
    split.
    - destruct (Z_le_gt_dec (2 ^ 52) q) as [|Hgt]; [assumption|].
      assert ((q + 1) * (q + 1) <= 2 ^ 52 * 2 ^ 52) by (apply Z.mul_le_mono_nonneg; lia).
      lia.
    - apply square_lt_inv; lia. }
  destruct (ceil_of_rounded q K
              (if r =? 0 then loc_Exact else loc_Inexact (if r <=? q then Lt else Gt)))
    as (M & HM & Hexact & Hceil); [exact Hq53|lia| |].
  { destruct (r =? 0); [discriminate|]. destruct (r <=? q); discriminate. }
  rewrite Hceil. f_equal. fold P.
  (* the ceiling of the root *)
  set (S := Z.sqrt_up (Z.pos p)).
  pose proof (Z.sqrt_up_spec (Z.pos p) ltac:(lia)) as HS. fold S in HS.
  replace (Z.pred S) with (S - 1) in HS by lia.
  assert (HS0 : 1 <= S) by (pose proof (Z.sqrt_up_pos (Z.pos p)); unfold S; lia).
  assert (HSP : 2 * (S - 1) < P).
  { assert (S - 1 < 2 ^ c).
    { apply square_lt_inv; [lia|apply Z.pow_nonneg; lia|].
      rewrite <- pow_twice by lia.
      assert (2 ^ d <= 2 ^ (2 * c)) by (apply Z.pow_le_mono_r; lia). lia. }
    assert (2 * 2 ^ c <= P).
    { unfold P. rewrite <- Z.pow_succ_r by lia. apply Z.pow_le_mono_r; lia. }
    lia. }
  apply ceil_div_unique; [exact HP|].
  apply (rounded_root_between (Z.pos p) P q r S M); try assumption; try lia.
  intros Hr0. apply Hexact. rewrite Hr0. reflexivity.
Qed.

(** Up to [2 ^ 52] sources, the grid size computed with the square root of
    the machine is the one computed with the exact square root. *)
Lemma float_agrees (n : Z) :
  0 <= n <= 2 ^ 52 ->
  FloatCheck.calc_rows_and_columns n = Description.calc_rows_and_columns n.
Proof.
  intros Hn.
  destruct (Z.eq_dec n (2 ^ 52)) as [->|Hne]; [vm_compute; reflexivity|].
  unfold FloatCheck.calc_rows_and_columns, Description.calc_rows_and_columns.
  case_bool_decide; [reflexivity|]. case_bool_decide; [reflexivity|].
  destruct (ceil_sqrt_small n) as (x & Hx & Hceil); [lia|].
  rewrite Hx, Hceil. reflexivity.
Qed.

End FloatFacts.

(** Past [2 ^ 52] the two part: the double nearest to the root of
    [2 ^ 52 + 1] is [2 ^ 26], an integer, and the ceiling does not move
    it. *)
Lemma float_differs_past_2_52 :
  FloatCheck.calc_rows_and_columns (2 ^ 52 + 1) = Ok (2 ^ 26) /\
  Description.calc_rows_and_columns (2 ^ 52 + 1) = Ok (2 ^ 26 + 1).
Proof. split; vm_compute; reflexivity. Qed.

(** ** What a method may do to its object *)

Section Respects.
Context {Self : Type} (R : relation Self) `{!PreOrder R}.

Lemma respects_ret {A} (a : A) : respects R (ret a).
Proof. intros s r s' [= <- <-]. reflexivity. Qed.

Lemma respects_raise {A} (e : exn) : respects R (raise (A:=A) e).
Proof. intros s r s' [= <- <-]. reflexivity. Qed.

Lemma respects_get : respects R get.
Proof. intros s r s' [= <- <-]. reflexivity. Qed.

Lemma respects_ask {A} (answer : list Gst.Call -> A) : respects R (ask answer).
Proof. intros s r s' [= <- <-]. reflexivity. Qed.

Lemma respects_call {A} c (answer : list Gst.Call -> A) : respects R (call c answer).
Proof. intros s r s' [= <- <-]. reflexivity. Qed.

Lemma respects_log lvl msg : respects R (log lvl msg).
Proof. intros s r s' [= <- <-]. reflexivity. Qed.

Lemma respects_modify (f : Self -> Self) :
  (forall x, R x (f x)) -> respects R (modify f).
Proof. intros Hf s r s' [= <- <-]. apply Hf. Qed.

Lemma respects_bind {A B} (m : M Self A) (k : A -> M Self B) :
  respects R m -> (forall a, respects R (k a)) -> respects R (bind m k).
Proof.
  intros Hm Hk s r s'. unfold bind.
  destruct (m s) as [[a|e] s1] eqn:Hms.
  - intros Hks. transitivity (self s1); [eapply Hm, Hms | eapply Hk, Hks].
  - intros [= <- <-]. eapply Hm, Hms.
Qed.

Lemma respects_try_except {A} (m : M Self A) (handler : exn -> M Self A) :
  respects R m -> (forall e, respects R (handler e)) -> respects R (try_except m handler).
Proof.
  intros Hm Hh s r s'. unfold try_except.
  destruct (m s) as [[a|e] s1] eqn:Hms.
  - intros [= <- <-]. eapply Hm, Hms.
  - intros Hhs. transitivity (self s1); [eapply Hm, Hms | eapply Hh, Hhs].
Qed.

Lemma respects_lift {Base A} (Rb : relation Base) (proj : Self -> Base)
    (upd : Base -> Self -> Self) (m : M Base A) :
  respects Rb m ->
  (forall x b, Rb (proj x) b -> R x (upd b x)) ->
  respects R (lift proj upd m).
Proof.
  intros Hm Hupd s r s'. unfold lift.
  destruct (m _) as [r0 b] eqn:Hms.
  intros [= <- <-]. simpl. apply Hupd. apply Hm in Hms. exact Hms.
Qed.

End Respects.

(** Take a method apart along its binds and its case distinctions. *)
Ltac respects_step :=
  lazymatch goal with
  | |- respects _ (bind _ _) => refine (respects_bind _ _ _ _ _); [|intros ?]
  | |- respects _ (ret _) => refine (respects_ret _ _)
  | |- respects _ (raise _) => refine (respects_raise _ _)
  | |- respects _ get => refine (respects_get _)
  | |- respects _ (ask _) => refine (respects_ask _ _)
  | |- respects _ (call _ _) => refine (respects_call _ _ _)
  | |- respects _ (log _ _) => refine (respects_log _ _ _)
  | |- respects _ (try_except _ _) => refine (respects_try_except _ _ _ _ _); [|intros ?]
  | |- respects _ (match ?x with _ => _ end) => destruct x
  | |- respects _ _ => progress cbv beta zeta
  end.

(** Keeping the value of a field is a preorder on objects. *)
Global Instance same_preorder {Self X} (field : Self -> X) : PreOrder (same field).
Proof.
  split.
  - intros x. reflexivity.
  - intros x y z Hxy Hyz. unfold same in *. congruence.
Qed.

(** ** Linking *)

(** C9: [link] of an element and a pad, in either order, logs the attempt
    and returns: it asks nothing of the framework and raises nothing. *)
Theorem link_mixed_kinds_does_nothing (F : Gst.Framework) (Self : Type)
    (element : string) (pad : Gst.Pad) (s : Sys Self) :
  Linker.link F (Linker.AnElement element) (Linker.APad pad) s
    = (Ok tt,
       Build_Sys (self s) (calls s)
         (logged s ++ [(Logging.DEBUG,
                        "linking " +:+ element +:+ " to pad " +:+ Gst.pad_name pad)])) /\
  Linker.link F (Linker.APad pad) (Linker.AnElement element) s
    = (Ok tt,
       Build_Sys (self s) (calls s)
         (logged s ++ [(Logging.DEBUG,
                        "linking pad " +:+ Gst.pad_name pad +:+ " to " +:+ element)])).
Proof. split; reflexivity. Qed.

(** ** Ghost pads *)

(** C6: [make_ghost] on an inner pad that is linked raises the [LinkError]
    saying so; the bin, its counters among it, is as before and no call
    was made to the framework, so no ghost pad was made or added. *)
Theorem make_ghost_of_linked_pad (F : Gst.Framework)
    (direction : option Gst.PadDirection) (inner_pad : Gst.Pad) (s : Sys GhostBin.t) :
  Gst.is_linked F (calls s) inner_pad = true ->
  GhostBin.make_ghost F direction (Some inner_pad) s
    = (Raise (LinkError ("pad " +:+ Gst.pad_name inner_pad +:+ " is already linked")),
       Build_Sys (self s) (calls s)
         (logged s ++ [(Logging.DEBUG,
                        "creating ghost pad for " +:+ GhostBin.class_name (self s) +:+ ": "
                        +:+ GhostBin.name (self s))])).
Proof.
  intros Hlinked. unfold GhostBin.make_ghost, bind, ret, get, log, ask, raise. simpl.
  rewrite Hlinked. reflexivity.
Qed.

Lemma make_ghost_of_linked_pad_example :
  GhostBin.make_ghost Scenario.all_linked None (Some (Scenario.src_pad "decoder"))
    (Scenario.start (GhostBin.new "GhostBin" "bin0"))
  = (Raise (LinkError "pad src_0 is already linked"),
     Build_Sys (GhostBin.new "GhostBin" "bin0") []
       [(Logging.DEBUG, "creating ghost pad for GhostBin: bin0")]).
Proof.
  apply (make_ghost_of_linked_pad Scenario.all_linked None (Scenario.src_pad "decoder")
           (Scenario.start (GhostBin.new "GhostBin" "bin0"))).
  reflexivity.
Defined.

(** ** Attaching sources *)

Section SourceFacts.
Context (F : Gst.Framework).

(** Linking does not touch the object it is called from. *)
Lemma link_pads_respects {Self} (R : relation Self) `{!PreOrder R} a b :
  respects R (Linker._link_pads F a b).
Proof. unfold Linker._link_pads. repeat respects_step. Qed.

Lemma link_respects {Self} (R : relation Self) `{!PreOrder R} a b :
  respects R (Linker.link F a b).
Proof.
  unfold Linker.link. repeat respects_step; apply link_pads_respects; assumption.
Qed.

(** [make_ghost] run from an [InferenceBin] writes the [GhostBin] part of
    it only, and the rest of [get_sink_pad] writes [_pad_counter]. *)
Lemma get_sink_pad_source_counter :
  respects (same InferenceBin._source_counter) (InferenceBin.get_sink_pad F).
Proof.
  unfold InferenceBin.get_sink_pad, InferenceBin.make_ghost.
  repeat respects_step;
    try (apply respects_modify; intros x; reflexivity);
    apply (respects_lift _ (fun _ _ => True)); try (intros ? ? ? ?; exact I);
    intros x b _; reflexivity.
Qed.

Lemma acquire_and_link_source_counter src_pad :
  respects (same InferenceBin._source_counter) (InferenceBin.acquire_and_link F src_pad).
Proof.
  unfold InferenceBin.acquire_and_link. respects_step.
  - apply get_sink_pad_source_counter.
  - apply link_respects, _.
Qed.

Lemma link_source_video source src_pad (s : Sys InferenceBin.t) :
  String.prefix "video/x-raw" (Gst.query_caps F (calls s) src_pad) = true ->
  InferenceBin.link_source F source src_pad s =
    match InferenceBin.acquire_and_link F src_pad (counted source src_pad s) with
    | (Ok tt, s') => (Ok tt, s')
    | (Raise e, s') =>
      (Raise e,
       Build_Sys
         (InferenceBin.set_source_counter (InferenceBin._source_counter (self s') - 1)
            (self s'))
         (calls s')
         (logged s' ++ [(Logging.ERROR,
                         "failed to link " +:+ source +:+ " to stream muxer:")]))
    end.
Proof.
  intros Hvideo.
  unfold InferenceBin.link_source, Linker.is_video_pad, Linker.caps_start_with,
    try_except, bind, get, log, ask, modify, raise, ret. simpl.
  rewrite Hvideo. simpl. fold (counted source src_pad s).
  destruct (InferenceBin.acquire_and_link F src_pad (counted source src_pad s))
    as [[[]|e] s']; reflexivity.
Qed.

End SourceFacts.

(** C8: for a pad whose caps are not video, [link_source] returns with the
    bin as it was, [source_counter] among it, and without a call to the
    framework: no sink pad is looked for or requested and nothing is
    linked.  It writes two lines to the log. *)
Theorem link_source_ignores_non_video (F : Gst.Framework) (source : string)
    (src_pad : Gst.Pad) (s : Sys InferenceBin.t) :
  String.prefix "video/x-raw" (Gst.query_caps F (calls s) src_pad) = false ->
  InferenceBin.link_source F source src_pad s
    = (Ok tt,
       Build_Sys (self s) (calls s)
         (logged s ++
          [(Logging.DEBUG,
            "linking " +:+ source +:+ " to " +:+ InferenceBin.name (self s) +:+ " by "
            +:+ Gst.pad_name src_pad);
           (Logging.DEBUG,
            "ignoring non-video pad from " +:+ source +:+ " (CAPS: "
            +:+ Gst.query_caps F (calls s) src_pad +:+ ")")])).
Proof.
  intros Hcaps.
  unfold InferenceBin.link_source, Linker.is_video_pad, Linker.caps_start_with,
    bind, get, log, ask, ret. simpl.
  rewrite Hcaps. simpl. rewrite <- app_assoc. reflexivity.
Qed.

Lemma link_source_ignores_audio :
  InferenceBin.link_source (Scenario.framework Gst.OK Gst.SUCCESS Scenario.audio_caps)
    "source_0" (Scenario.src_pad "source_0") (Scenario.start (Scenario.inference_bin 2))
  = (Ok tt,
     Build_Sys (Scenario.inference_bin 2) []
       [(Logging.DEBUG, "linking source_0 to inference_0 by src_0");
        (Logging.DEBUG,
         "ignoring non-video pad from source_0 (CAPS: audio/x-raw, format=(string)F32LE)")]).
Proof.
  apply (link_source_ignores_non_video
           (Scenario.framework Gst.OK Gst.SUCCESS Scenario.audio_caps)
           "source_0" (Scenario.src_pad "source_0")
           (Scenario.start (Scenario.inference_bin 2))).
  reflexivity.
Defined.

(** C3: when the pad is video and getting the sink pad or linking raises
    [e], [link_source] raises the same [e] and leaves [source_counter] at
    the value it had before the call. *)
Theorem link_source_rolls_back (F : Gst.Framework) (source : string)
    (src_pad : Gst.Pad) (s s1 : Sys InferenceBin.t) (e : exn) :
  String.prefix "video/x-raw" (Gst.query_caps F (calls s) src_pad) = true ->
  InferenceBin.acquire_and_link F src_pad (counted source src_pad s) = (Raise e, s1) ->
  exists s',
    InferenceBin.link_source F source src_pad s = (Raise e, s') /\
    InferenceBin._source_counter (self s') = InferenceBin._source_counter (self s).
Proof.
  intros Hvideo Hfail.
  rewrite (link_source_video F source src_pad s Hvideo), Hfail.
  eexists; split; [reflexivity|]. simpl.
  apply acquire_and_link_source_counter in Hfail. unfold same in Hfail.
  rewrite Hfail. simpl. lia.
Qed.

Lemma link_source_rolls_back_third_source :
  exists s',
    InferenceBin.link_source Scenario.no_format "source_2" (Scenario.src_pad "source_2")
      (Scenario.start (Scenario.inference_bin 2))
    = (Raise (LinkError "could not link pads src_0 and sink_0 because caps are incompatible:
src_0: None
sink_0: None"), s') /\
    InferenceBin._source_counter (self s') = 2.
Proof.
  eapply (link_source_rolls_back Scenario.no_format "source_2" (Scenario.src_pad "source_2")
            (Scenario.start (Scenario.inference_bin 2))).
  - reflexivity.
  - vm_compute. reflexivity.
Defined.

(** When nothing raises, the source stays counted. *)
Lemma link_source_counts (F : Gst.Framework) (source : string)
    (src_pad : Gst.Pad) (s s1 : Sys InferenceBin.t) :
  String.prefix "video/x-raw" (Gst.query_caps F (calls s) src_pad) = true ->
  InferenceBin.acquire_and_link F src_pad (counted source src_pad s) = (Ok tt, s1) ->
  InferenceBin.link_source F source src_pad s = (Ok tt, s1) /\
  InferenceBin._source_counter (self s1) = InferenceBin._source_counter (self s) + 1.
Proof.
  intros Hvideo Hok.
  rewrite (link_source_video F source src_pad s Hvideo), Hok.
  split; [reflexivity|].
  apply acquire_and_link_source_counter in Hok. exact Hok.
Qed.

(** ** The ghost pad counters *)

Global Instance grows_preorder : PreOrder grows.
Proof.
  split.
  - intros x d. lia.
  - intros x y z Hxy Hyz d. specialize (Hxy d). specialize (Hyz d). lia.
Qed.

Section GhostFacts.
Context (F : Gst.Framework).

Lemma count_set_count d d' n (self : GhostBin.t) :
  GhostOps.count d' (GhostBin.set_count d n self)
    = if decide (d = d') then n else GhostOps.count d' self.
Proof.
  unfold GhostOps.count, GhostBin.set_count. simpl.
  rewrite lookup_insert. destruct (decide (d = d')); reflexivity.
Qed.

(** [self._outer_pad_count[direction] += 1] *)
Lemma increment_grows direction :
  respects grows
    (bind (GhostBin.outer_pad_count direction)
       (fun n => modify (GhostBin.set_count direction (n + 1)))).
Proof.
  intros s r s'. unfold GhostBin.outer_pad_count.
  unfold bind, get, modify, raise, ret. simpl.
  destruct (GhostBin._outer_pad_count (self s) !! direction) as [n|] eqn:Hn.
  - intros [= <- <-]. simpl. intros d. rewrite count_set_count.
    destruct (decide (direction = d)) as [<-|]; [|lia].
    unfold GhostOps.count. rewrite Hn. simpl. lia.
  - intros [= <- <-]. reflexivity.
Qed.

Lemma outer_pad_count_respects (R : relation GhostBin.t) `{!PreOrder R} direction :
  respects R (GhostBin.outer_pad_count direction).
Proof. unfold GhostBin.outer_pad_count. repeat respects_step. Qed.

(** The counters only go up, whatever [make_ghost] returns or raises. *)
Lemma make_ghost_grows direction inner_pad :
  respects grows (GhostBin.make_ghost F direction inner_pad).
Proof.
  unfold GhostBin.make_ghost.
  repeat (first [ apply increment_grows
                | apply outer_pad_count_respects; apply _
                | respects_step ]).
Qed.

Lemma remove_grows element : respects grows (GhostBin.remove F element).
Proof. unfold GhostBin.remove. repeat respects_step. Qed.

Lemma step_grows (s : Sys GhostBin.t) (op : GhostOps.Op) :
  grows (self s) (self (GhostOps.step F s op)).
Proof.
  destruct op as [direction inner_pad|element]; unfold GhostOps.step.
  - destruct (GhostBin.make_ghost F direction inner_pad s) as [r s'] eqn:H.
    apply make_ghost_grows in H. exact H.
  - destruct (GhostBin.remove F element s) as [r s'] eqn:H.
    apply remove_grows in H. exact H.
Qed.

Lemma steps_grows (ops : list GhostOps.Op) (s : Sys GhostBin.t) :
  grows (self s) (self (GhostOps.steps F ops s)).
Proof.
  unfold GhostOps.steps. revert s.
  induction ops as [|op ops IH]; intros s; simpl.
  - reflexivity.
  - transitivity (self (GhostOps.step F s op)); [apply step_grows | apply IH].
Qed.

(** A call of [make_ghost] that returns a pad: the pad is named after
    the counter of its direction, which the call moves up by one. *)
Lemma make_ghost_ok direction inner_pad s pad s' :
  GhostBin.make_ghost F direction inner_pad s = (Ok pad, s') ->
  exists n,
    (Gst.pad_direction pad = Gst.SRC \/ Gst.pad_direction pad = Gst.SINK) /\
    GhostBin._outer_pad_count (self s) !! Gst.pad_direction pad = Some n /\
    Gst.pad_name pad = GhostOps.outer_prefix (Gst.pad_direction pad) +:+ pretty n /\
    GhostOps.count (Gst.pad_direction pad) (self s') = n + 1.
Proof.
  unfold GhostBin.make_ghost, GhostBin.outer_pad_count.
  unfold bind, get, log, ask, call, modify, raise, ret.
  destruct inner_pad as [p|], direction as [d|]; simpl.
  all: repeat (case_match; simpl in *; try discriminate).
  all: intros [= <- <-]; simplify_eq/=.
  all: eexists; split; [auto|]; split; [eassumption|]; split; [reflexivity|].
  all: rewrite count_set_count, decide_True by reflexivity; reflexivity.
Qed.

End GhostFacts.

(** C7: the counters of a bin only go up, whatever is done to it.  So when
    [make_ghost] returns a pad, and returns another of the same direction
    later, with elements removed and other ghost pads asked for in
    between, the two are named by the direction and two numbers of which
    the second is the greater, the very next one when nothing came in
    between; the names differ. *)
Theorem ghost_pad_names_increase (F : Gst.Framework) (s s1 s2 : Sys GhostBin.t)
    direction1 inner_pad1 direction2 inner_pad2 (between : list GhostOps.Op)
    (pad1 pad2 : Gst.Pad) :
  GhostBin.make_ghost F direction1 inner_pad1 s = (Ok pad1, s1) ->
  GhostBin.make_ghost F direction2 inner_pad2 (GhostOps.steps F between s1) = (Ok pad2, s2) ->
  Gst.pad_direction pad1 = Gst.pad_direction pad2 ->
  (forall ops s0, grows (self s0) (self (GhostOps.steps F ops s0))) /\
  exists i j,
    Gst.pad_name pad1 = GhostOps.outer_prefix (Gst.pad_direction pad1) +:+ pretty i /\
    Gst.pad_name pad2 = GhostOps.outer_prefix (Gst.pad_direction pad1) +:+ pretty j /\
    i < j /\
    (between = [] -> j = i + 1) /\
    Gst.pad_name pad1 <> Gst.pad_name pad2.
Proof.
  intros H1 H2 Hdir. split; [intros ops s0; apply steps_grows|].
  apply make_ghost_ok in H1 as (i & _ & _ & Hname1 & Hcount1).
  apply make_ghost_ok in H2 as (j & _ & Hj & Hname2 & _).
  rewrite <- Hdir in Hj, Hname2.
  assert (Hcount2 : GhostOps.count (Gst.pad_direction pad1)
                      (self (GhostOps.steps F between s1)) = j).
  { unfold GhostOps.count. rewrite Hj. reflexivity. }
  pose proof (steps_grows F between s1 (Gst.pad_direction pad1)) as Hgrow.
  exists i, j. split; [exact Hname1|]. split; [exact Hname2|].
  assert (Hlt : i < j) by lia.
  split; [exact Hlt|]. split.
  - intros ->. simpl in Hcount2. lia.
  - rewrite Hname1, Hname2. intros Heq.
    apply (inj (String.app _)), (inj pretty) in Heq. lia.
Qed.

Lemma ghost_pad_names_increase_after_removal :
  (forall ops s0, grows (self s0) (self (GhostOps.steps Scenario.working ops s0))) /\
  exists i j,
    "src_0" = "src_" +:+ pretty i /\
    "src_1" = "src_" +:+ pretty j /\
    i < j /\
    ([GhostOps.Remove "decoder0"] = [] -> j = i + 1) /\
    "src_0" <> "src_1".
Proof.
  eapply (ghost_pad_names_increase Scenario.working
            (Scenario.start (GhostBin.new "GhostBin" "bin0")) _ _
            None (Some (Scenario.src_pad "decoder0"))
            None (Some (Scenario.src_pad "decoder1"))
            [GhostOps.Remove "decoder0"]
            {| Gst.pad_name := "src_0"; Gst.pad_direction := Gst.SRC;
               Gst.pad_parent := "bin0" |}
            {| Gst.pad_name := "src_1"; Gst.pad_direction := Gst.SRC;
               Gst.pad_parent := "bin0" |}).
  - vm_compute. reflexivity.
  - vm_compute. reflexivity.
  - reflexivity.
Defined.

(** ** Changing state and quitting *)

(** A call is not among a given few when it differs from each. *)
Ltac not_among :=
  repeat (apply not_elem_of_cons; split; [discriminate|]); apply not_elem_of_nil.

Section StateFacts.
Context (F : Gst.Framework).

(** [set_state] returns what the framework answered and leaves the
    object as it was. *)
Lemma set_state_returns state async_ timeout pdf (s : Sys StateSetter.t) :
  exists r s',
    StateSetter.set_state F state async_ timeout pdf s = (Ok r, s') /\
    self s' = self s.
Proof.
  unfold StateSetter.set_state, StateSetter.bin_to_pdf, bind, get, call, log, ret.
  destruct pdf; simpl;
    destruct (Gst.set_state F _ _ _); simpl; destruct async_; simpl; eauto.
Qed.

Lemma set_state_calls state async_ timeout pdf (s s' : Sys StateSetter.t) r :
  StateSetter.set_state F state async_ timeout pdf s = (r, s') ->
  exists new, calls s' = calls s ++ new /\ Gst.LoopQuit ∉ new.
Proof.
  unfold StateSetter.set_state, StateSetter.bin_to_pdf, bind, get, call, log, ret.
  destruct pdf; simpl;
    destruct (Gst.set_state F _ _ _); simpl; destruct async_; simpl;
    intros [= <- <-]; simpl; rewrite <- ?app_assoc;
    eexists; (split; [reflexivity|]); not_among.
Qed.

(** Without an attribute called [loop], [quit] is [null]. *)
Lemma quit_is_null async_ timeout pdf (s : Sys StateSetter.t) :
  StateSetter.hasattr (self s) "loop" = false ->
  StateSetter.quit F true async_ timeout pdf s = StateSetter.null F async_ timeout pdf s.
Proof.
  intros Hloop. unfold StateSetter.quit, StateSetter.null.
  destruct (set_state_returns Gst.NULL async_ timeout pdf s) as (r & s' & Hset & Hself).
  unfold bind, get, ret. rewrite Hset. simpl. rewrite Hself, Hloop. reflexivity.
Qed.

(** With a [_loop], [quit] returns. *)
Lemma quit_returns loop_also async_ timeout pdf (s : Sys StateSetter.t) :
  StateSetter.hasattr (self s) "_loop" = true ->
  exists r s', StateSetter.quit F loop_also async_ timeout pdf s = (Ok r, s').
Proof.
  intros Hloop. unfold StateSetter.quit, StateSetter.null.
  destruct (set_state_returns Gst.NULL async_ timeout pdf s) as (r & s' & Hset & Hself).
  unfold StateSetter._loop_is_running. unfold bind, get, ret, ask, call, raise.
  rewrite Hset. simpl. rewrite Hself.
  destruct (loop_also && StateSetter.hasattr (self s) "loop"); simpl; [|eauto].
  rewrite Hself, Hloop.
  destruct (Gst.loop_is_running F (calls s')); simpl; eauto.
Qed.

(** [quit] leaves the object as it was, so it can be called again: with a
    [_loop], a second call returns as the first did. *)
Lemma quit_keeps_object loop_also async_ timeout pdf :
  respects (same (fun self : StateSetter.t => self))
    (StateSetter.quit F loop_also async_ timeout pdf).
Proof.
  unfold StateSetter.quit, StateSetter.null, StateSetter.set_state,
    StateSetter._loop_is_running, StateSetter.bin_to_pdf.
  repeat respects_step.
Qed.

Lemma quit_twice loop_also async_ timeout pdf (s : Sys StateSetter.t) :
  StateSetter.hasattr (self s) "_loop" = true ->
  exists r1 s1 r2 s2,
    StateSetter.quit F loop_also async_ timeout pdf s = (Ok r1, s1) /\
    StateSetter.quit F loop_also async_ timeout pdf s1 = (Ok r2, s2) /\
    self s2 = self s.
Proof.
  intros Hloop.
  destruct (quit_returns loop_also async_ timeout pdf s Hloop) as (r1 & s1 & H1).
  pose proof (quit_keeps_object loop_also async_ timeout pdf s _ _ H1) as Hs1.
  unfold same in Hs1.
  destruct (quit_returns loop_also async_ timeout pdf s1) as (r2 & s2 & H2).
  { rewrite Hs1. exact Hloop. }
  pose proof (quit_keeps_object loop_also async_ timeout pdf s1 _ _ H2) as Hs2.
  unfold same in Hs2.
  exists r1, s1, r2, s2. split; [exact H1|]. split; [exact H2|]. congruence.
Qed.

(** A [DeepStreamApp] has a [_loop], and an attribute [loop] only if
    every pipeline has. *)
Lemma own_attributes_loop :
  "_loop" ∈ DeepStreamApp.own_attributes /\ "loop" ∉ DeepStreamApp.own_attributes.
Proof.
  split.
  - apply (bool_decide_unpack ("_loop" ∈ DeepStreamApp.own_attributes)).
    vm_compute. exact I.
  - apply (bool_decide_unpack ("loop" ∉ DeepStreamApp.own_attributes)).
    vm_compute. exact I.
Qed.

Lemma app_has__loop : StateSetter.hasattr (DeepStreamApp.new F) "_loop" = true.
Proof.
  unfold StateSetter.hasattr. apply bool_decide_eq_true. simpl.
  apply elem_of_union_r, own_attributes_loop.
Qed.

Lemma app_has_no_loop :
  "loop" ∉ Gst.pipeline_attributes F ->
  StateSetter.hasattr (DeepStreamApp.new F) "loop" = false.
Proof.
  intros Hno. unfold StateSetter.hasattr. apply bool_decide_eq_false. simpl.
  rewrite elem_of_union. intros [Hin|Hin]; [exact (Hno Hin)|].
  exact (proj2 own_attributes_loop Hin).
Qed.

End StateFacts.




(** The other half of the same slip: when the framework answers
    [FAILURE], [set_state] waits all the same, and the error is not
    logged. *)
Lemma set_state_failure_is_not_logged (F : Gst.Framework) (state : Gst.State)
    (timeout : Z) (s : Sys StateSetter.t) :
  Gst.set_state F (calls s) (StateSetter.name (self s)) state = Gst.FAILURE ->
  StateSetter.set_state F state false timeout false s
    = (Ok Gst.FAILURE,
       Build_Sys (self s)
         (calls s ++ [Gst.SetState (StateSetter.name (self s)) state;
                      Gst.GetState (StateSetter.name (self s)) timeout])
         (logged s ++ [(Logging.DEBUG,
                        "waiting " +:+ pretty timeout +:+ " seconds for "
                        +:+ Gst.state_value_name state)])).
Proof.
  intros Hfail.
  unfold StateSetter.set_state, bind, get, call, log, ret. simpl.
  rewrite Hfail. simpl. rewrite <- app_assoc. reflexivity.
Qed.

(** C4, what the code does: on an object with no attribute called [loop],
    as a [DeepStreamApp] is, [quit] does what [null] does and never calls
    [quit] on the main loop. *)
Theorem quit_does_not_stop_loop (F : Gst.Framework) (async_ : bool) (timeout : Z)
    (pdf : bool) (s : Sys StateSetter.t) :
  StateSetter.hasattr (self s) "loop" = false ->
  StateSetter.quit F true async_ timeout pdf s = StateSetter.null F async_ timeout pdf s /\
  exists new,
    calls (StateSetter.quit F true async_ timeout pdf s).2 = calls s ++ new /\
    Gst.LoopQuit ∉ new.
Proof.
  intros Hloop. split; [apply quit_is_null, Hloop|].
  rewrite (quit_is_null F async_ timeout pdf s Hloop). unfold StateSetter.null.
  destruct (StateSetter.set_state F Gst.NULL async_ timeout pdf s) as [r s'] eqn:Hset.
  apply set_state_calls in Hset. exact Hset.
Qed.

Lemma quit_does_not_stop_running_loop :
  Gst.loop_is_running Scenario.working (calls (Scenario.playing Scenario.working)) = true /\
  Gst.loop_is_running Scenario.working
    (calls (StateSetter.quit Scenario.working true false 10 true
              (Scenario.playing Scenario.working)).2) = true /\
  StateSetter.quit Scenario.working true false 10 true (Scenario.playing Scenario.working)
    = StateSetter.null Scenario.working false 10 true (Scenario.playing Scenario.working).
Proof.
  split; [reflexivity|]. split; [reflexivity|].
  apply (quit_does_not_stop_loop Scenario.working false 10 true
           (Scenario.playing Scenario.working)).
  reflexivity.
Defined.

(** ** The bus callback *)

(** C5: [on_message] keeps nothing between calls: what it does is a
    function of the message and of the application.  For an application
    with a [_loop], as a [DeepStreamApp] is, it returns [True] for every
    message, and
    - on [EOS] it logs and runs [quit] on the application;
    - on [ERROR] it logs the error and runs [quit] on the application;
    - on [WARNING] it logs the warning and does nothing else;
    - on any other message it leaves the application alone, makes no call
      and logs at most one line, at the level [DEBUG]. *)
Theorem on_message_dispatch (F : Gst.Framework) (message : Bus.Message)
    (s : Sys StateSetter.t) :
  StateSetter.hasattr (self s) "_loop" = true ->
  exists s',
    Bus.on_message F message s = (Ok true, s') /\
    match message with
    | Bus.EOS =>
      exists r,
        Bus.app_quit F
          (Build_Sys (self s) (calls s) (logged s ++ [(Logging.DEBUG, "Got EOS")]))
        = (Ok r, s')
    | Bus.ERROR err errmsg =>
      exists r,
        Bus.app_quit F
          (Build_Sys (self s) (calls s)
             (logged s ++ [(Logging.ERROR, err +:+ ": " +:+ errmsg)]))
        = (Ok r, s')
    | Bus.WARNING err errmsg =>
      s' = Build_Sys (self s) (calls s)
             (logged s ++ [(Logging.WARNING, err +:+ ": " +:+ errmsg)])
    | _ =>
      self s' = self s /\ calls s' = calls s /\
      exists lines,
        logged s' = logged s ++ lines /\
        (length lines <= 1)%nat /\
        Forall (fun line => line.1 = Logging.DEBUG) lines
    end.
Proof.
  intros Hloop.
  assert (Hnone : forall s0 : Sys StateSetter.t,
            self s0 = self s0 /\ calls s0 = calls s0 /\
            exists lines, logged s0 = logged s0 ++ lines /\ (length lines <= 1)%nat /\
                          Forall (fun line : LogRecord => line.1 = Logging.DEBUG) lines).
  { intros s0. split; [reflexivity|]. split; [reflexivity|].
    exists []. rewrite app_nil_r. repeat constructor. }
  assert (Hone : forall msg,
            exists lines, logged s ++ [(Logging.DEBUG, msg)] = logged s ++ lines /\
                          (length lines <= 1)%nat /\
                          Forall (fun line : LogRecord => line.1 = Logging.DEBUG) lines).
  { intros msg. exists [(Logging.DEBUG, msg)]. repeat constructor. }
  destruct message as [| |owner status|src old new pending| |err errmsg|err errmsg|src type_name];
    unfold Bus.on_message, bind, log, ret; simpl.
  - eexists; split; [reflexivity|]. apply Hnone.
  - eexists; split; [reflexivity|]. apply Hnone.
  - eexists; split; [reflexivity|]. simpl. repeat (split; [reflexivity|]). apply Hone.
  - eexists; split; [reflexivity|]. simpl. repeat (split; [reflexivity|]). apply Hone.
  - destruct (quit_returns F true false 10 true
                (Build_Sys (self s) (calls s) (logged s ++ [(Logging.DEBUG, "Got EOS")])) Hloop)
      as (r & s' & Hquit).
    unfold Bus.app_quit. rewrite Hquit. eauto.
  - destruct (quit_returns F true false 10 true
                (Build_Sys (self s) (calls s)
                   (logged s ++ [(Logging.ERROR, err +:+ ": " +:+ errmsg)])) Hloop)
      as (r & s' & Hquit).
    unfold Bus.app_quit. rewrite Hquit. eauto.
  - eexists; split; reflexivity.
  - eexists; split; [reflexivity|]. simpl. repeat (split; [reflexivity|]). apply Hone.
Qed.

Lemma on_message_dispatch_eos :
  exists s',
    Bus.on_message Scenario.working Bus.EOS (Scenario.playing Scenario.working)
      = (Ok true, s') /\
    exists r,
      Bus.app_quit Scenario.working
        (Build_Sys (self (Scenario.playing Scenario.working))
           (calls (Scenario.playing Scenario.working))
           (logged (Scenario.playing Scenario.working) ++ [(Logging.DEBUG, "Got EOS")]))
      = (Ok r, s').
Proof.
  apply (on_message_dispatch Scenario.working Bus.EOS (Scenario.playing Scenario.working)).
  reflexivity.
Defined.

(** ** The calls a method may make *)

Section Emits.
Context {Self : Type} (P : Gst.Call -> Prop).

Lemma emits_nothing {A} (m : M Self A) :
  (forall s r s', m s = (r, s') -> calls s' = calls s) -> emits P m.
Proof.
  intros Hm s r s' Hrun. exists []. rewrite app_nil_r. split; [eauto|constructor].
Qed.

Lemma emits_ret {A} (a : A) : emits P (ret (Self:=Self) a).
Proof. apply emits_nothing. intros s r s' [= <- <-]. reflexivity. Qed.

Lemma emits_raise {A} (e : exn) : emits P (raise (Self:=Self) (A:=A) e).
Proof. apply emits_nothing. intros s r s' [= <- <-]. reflexivity. Qed.

Lemma emits_get : emits P (get (Self:=Self)).
Proof. apply emits_nothing. intros s r s' [= <- <-]. reflexivity. Qed.

Lemma emits_ask {A} (answer : list Gst.Call -> A) : emits P (ask (Self:=Self) answer).
Proof. apply emits_nothing. intros s r s' [= <- <-]. reflexivity. Qed.

Lemma emits_log lvl msg : emits P (log (Self:=Self) lvl msg).
Proof. apply emits_nothing. intros s r s' [= <- <-]. reflexivity. Qed.

Lemma emits_modify (f : Self -> Self) : emits P (modify f).
Proof. apply emits_nothing. intros s r s' [= <- <-]. reflexivity. Qed.

Lemma emits_call {A} c (answer : list Gst.Call -> A) :
  P c -> emits P (call (Self:=Self) c answer).
Proof. intros Hc s r s' [= <- <-]. exists [c]. split; [reflexivity|]. repeat constructor. exact Hc. Qed.

Lemma emits_bind {A B} (m : M Self A) (k : A -> M Self B) :
  emits P m -> (forall a, emits P (k a)) -> emits P (bind m k).
Proof.
  intros Hm Hk s r s'. unfold bind.
  destruct (m s) as [[a|e] s1] eqn:Hms.
  - intros Hks. apply Hm in Hms as (new1 & E1 & H1).
    apply Hk in Hks as (new2 & E2 & H2).
    exists (new1 ++ new2). rewrite E2, E1, app_assoc. split; [reflexivity|].
    apply Forall_app; auto.
  - intros [= <- <-]. eapply Hm, Hms.
Qed.

Lemma emits_try_except {A} (m : M Self A) (handler : exn -> M Self A) :
  emits P m -> (forall e, emits P (handler e)) -> emits P (try_except m handler).
Proof.
  intros Hm Hh s r s'. unfold try_except.
  destruct (m s) as [[a|e] s1] eqn:Hms.
  - intros [= <- <-]. eapply Hm, Hms.
  - intros Hhs. apply Hm in Hms as (new1 & E1 & H1).
    apply Hh in Hhs as (new2 & E2 & H2).
    exists (new1 ++ new2). rewrite E2, E1, app_assoc. split; [reflexivity|].
    apply Forall_app; auto.
Qed.

Lemma emits_lift {Base A} (proj : Self -> Base) (upd : Base -> Self -> Self)
    (m : M Base A) :
  emits P m -> emits P (lift proj upd m).
Proof.
  intros Hm s r s'. unfold lift.
  destruct (m _) as [r0 b] eqn:Hms.
  intros [= <- <-]. simpl. apply Hm in Hms. exact Hms.
Qed.

Lemma emits_weaken {A} (Q : Gst.Call -> Prop) (m : M Self A) :
  (forall c, Q c -> P c) -> emits Q m -> emits P m.
Proof.
  intros HQP Hm s r s' Hrun. apply Hm in Hrun as (new & E & Hnew).
  exists new. split; [exact E|]. eapply Forall_impl; eauto.
Qed.

End Emits.

(** Take a method apart along its binds and its case distinctions. *)
Ltac emits_step :=
  lazymatch goal with
  | |- emits _ (bind _ _) => refine (emits_bind _ _ _ _ _); [|intros ?]
  | |- emits _ (ret _) => refine (emits_ret _ _)
  | |- emits _ (raise _) => refine (emits_raise _ _)
  | |- emits _ get => refine (emits_get _)
  | |- emits _ (ask _) => refine (emits_ask _ _)
  | |- emits _ (modify _) => refine (emits_modify _ _)
  | |- emits _ (call _ _) => refine (emits_call _ _ _ _)
  | |- emits _ (log _ _) => refine (emits_log _ _ _)
  | |- emits _ (try_except _ _) => refine (emits_try_except _ _ _ _ _); [|intros ?]
  | |- emits _ (lift _ _ _) => refine (emits_lift _ _ _ _ _)
  | |- emits _ (match ?x with _ => _ end) => destruct x
  | |- emits _ _ => progress cbv beta zeta
  end.

Lemma make_ghost_emits (F : Gst.Framework) direction inner_pad :
  emits ghost_call (GhostBin.make_ghost F direction inner_pad).
Proof.
  unfold GhostBin.make_ghost, GhostBin.outer_pad_count.
  repeat (first [emits_step | exact I]).
Qed.

(** ** What linking does, and what it raises *)

(** [_link_pads] of two pads: one call, the object left alone, and a
    [LinkError] unless the answer is [OK], or [WAS_LINKED] with neither
    pad linked. *)
Lemma link_pads_of_two (F : Gst.Framework) (Self : Type) (a b : Gst.Pad) (s : Sys Self) :
  let h := calls s ++ [Gst.PadLink a b] in
  exists res lines,
    Linker._link_pads F (Some a) (Some b) s
      = (res, Build_Sys (self s) h (logged s ++ lines)) /\
    (res = Ok tt <->
       Gst.pad_link F (calls s) a b = Gst.OK \/
       (Gst.pad_link F (calls s) a b = Gst.WAS_LINKED /\
        Gst.is_linked F h a = false /\ Gst.is_linked F h b = false)) /\
    (forall e, res = Raise e -> exists msg, e = LinkError msg).
Proof.
  intros h. unfold Linker._link_pads, bind, call, ask, log, raise, ret.
  cbn [self calls logged fst snd]. fold h.
  destruct (Gst.pad_link F (calls s) a b) eqn:Hlink;
    [| |destruct (Gst.is_linked F h a) eqn:Ha;
         [|destruct (Gst.is_linked F h b) eqn:Hb]| | | |].
  all: cbn [self calls logged fst snd]; rewrite ?Ha; cbn [self calls logged fst snd];
       rewrite ?Hb; cbn [self calls logged fst snd].
  all: try (exists (Ok tt); eexists; split;
            [first [reflexivity | rewrite app_nil_r; reflexivity]|];
            split; [split; [intros _|reflexivity]|intros e [=]];
            first [left; reflexivity | right; auto]).
  all: eexists; exists []; rewrite app_nil_r; split; [reflexivity|];
       (split; [split; [intros [=]|]|intros e [= <-]; eauto]);
       intros [[=]|([=] & Ha' & Hb')]; congruence.
Qed.

(** X1: [_link_pads] with a pad missing raises a [LinkError] and asks
    nothing of the framework.  With two pads it asks for the link once and
    leaves the object alone; it returns when the answer is [OK], and also
    when the answer is [WAS_LINKED] and neither pad says it is linked; for
    every other answer it raises a [LinkError]. *)
Theorem link_pads_outcome (F : Gst.Framework) (Self : Type) (a b : option Gst.Pad)
    (s : Sys Self) :
  match a, b with
  | Some a, Some b =>
    let h := calls s ++ [Gst.PadLink a b] in
    exists res lines,
      Linker._link_pads F (Some a) (Some b) s
        = (res, Build_Sys (self s) h (logged s ++ lines)) /\
      (res = Ok tt <->
         Gst.pad_link F (calls s) a b = Gst.OK \/
         (Gst.pad_link F (calls s) a b = Gst.WAS_LINKED /\
          Gst.is_linked F h a = false /\ Gst.is_linked F h b = false)) /\
      (forall e, res = Raise e -> exists msg, e = LinkError msg)
  | _, _ =>
    Linker._link_pads F a b s
      = (Raise (LinkError ("cannot link " +:+ Linker.str_pad a +:+ " to "
                           +:+ Linker.str_pad b +:+ " because one is None (null)")), s)
  end.
Proof.
  destruct a as [a|], b as [b|]; try reflexivity. apply link_pads_of_two.
Qed.

(** X2: [link] leaves the object alone, makes the one call that fits its
    arguments and no other, and either returns or raises a [LinkError]:
    no other exception comes out of it.  Two elements are linked exactly
    when the framework says so. *)
Theorem link_outcome (F : Gst.Framework) (Self : Type) (a b : Linker.ElementOrPad)
    (s : Sys Self) :
  exists res lines,
    Linker.link F a b s
      = (res, Build_Sys (self s) (calls s ++ link_attempt a b) (logged s ++ lines)) /\
    (res = Ok tt \/ exists msg, res = Raise (LinkError msg)) /\
    match a, b with
    | Linker.AnElement ea, Linker.AnElement eb =>
      res = if Gst.element_link F (calls s) ea eb then Ok tt
            else Raise (LinkError ("could not link " +:+ ea +:+ " to " +:+ eb))
    | _, _ => True
    end.
Proof.
  destruct a as [ea|pa], b as [eb|pb].
  - unfold Linker.link, bind, call, log, raise, ret. cbn.
    destruct (Gst.element_link F (calls s) ea eb); cbn;
      eexists; eexists; (split; [reflexivity|]); (split; [|reflexivity]); eauto.
  - eexists; eexists; split; [unfold link_attempt; rewrite app_nil_r; reflexivity|].
    split; [left; reflexivity|exact I].
  - eexists; eexists; split; [unfold link_attempt; rewrite app_nil_r; reflexivity|].
    split; [left; reflexivity|exact I].
  - assert (Hlink : Linker.link F (Linker.APad pa) (Linker.APad pb) s
             = Linker._link_pads F (Some pa) (Some pb)
                 (Build_Sys (self s) (calls s)
                    (logged s ++ [(Logging.DEBUG, "linking pad " +:+ Gst.pad_name pa
                                                  +:+ " to pad " +:+ Gst.pad_name pb)])))
      by reflexivity.
    rewrite Hlink.
    destruct (link_pads_of_two F Self pa pb
                (Build_Sys (self s) (calls s)
                   (logged s ++ [(Logging.DEBUG, "linking pad " +:+ Gst.pad_name pa
                                                 +:+ " to pad " +:+ Gst.pad_name pb)])))
      as (res & lines & Hrun & _ & Hres).
    cbn [self calls logged] in Hrun. rewrite Hrun.
    exists res. eexists. split; [rewrite <- app_assoc; reflexivity|].
    split; [|exact I].
    destruct res as [[]|e]; [left; reflexivity|right].
    destruct (Hres e eq_refl) as [msg ->]. eauto.
Qed.

(** ** How [make_ghost] fails *)

(** X3: when [make_ghost] raises, the bin is as it was, unless the
    exception is the [BinAddError] of a pad the bin would not take: by
    then the ghost pad was made and its number is used up, so the counter
    of its direction is one higher. *)
Theorem make_ghost_failure (F : Gst.Framework) (direction : option Gst.PadDirection)
    (inner_pad : option Gst.Pad) (s s' : Sys GhostBin.t) (e : exn) :
  GhostBin.make_ghost F direction inner_pad s = (Raise e, s') ->
  self s' = self s \/
  exists d n,
    GhostBin._outer_pad_count (self s) !! d = Some n /\
    self s' = GhostBin.set_count d (n + 1) (self s) /\
    e = BinAddError ("could not add pad " +:+ GhostOps.outer_prefix d +:+ pretty n
                     +:+ " to bin " +:+ GhostBin.name (self s)).
Proof.
  unfold GhostBin.make_ghost, GhostBin.outer_pad_count.
  unfold bind, get, log, ask, call, modify, raise, ret.
  destruct inner_pad as [p|], direction as [d|]; simpl.
  all: repeat (case_match; simpl in *; try discriminate).
  all: intros [= <- <-]; simplify_eq/=; auto.
  all: right; eexists _, _; (split; [eassumption|]); split; reflexivity.
Qed.

Lemma make_ghost_failure_pad_refused :
  self (GhostBin.make_ghost Scenario2.no_add None (Some (Scenario.src_pad "decoder"))
          Scenario2.bin0).2
    = self Scenario2.bin0 \/
  exists d n,
    GhostBin._outer_pad_count (GhostBin.new "GhostBin" "bin0") !! d = Some n /\
    self (GhostBin.make_ghost Scenario2.no_add None (Some (Scenario.src_pad "decoder"))
            Scenario2.bin0).2
      = GhostBin.set_count d (n + 1) (GhostBin.new "GhostBin" "bin0") /\
    BinAddError "could not add pad src_0 to bin bin0"
      = BinAddError ("could not add pad " +:+ GhostOps.outer_prefix d +:+ pretty n
                     +:+ " to bin " +:+ "bin0").
Proof.
  apply (make_ghost_failure Scenario2.no_add None (Some (Scenario.src_pad "decoder"))
           Scenario2.bin0 _
           (BinAddError "could not add pad src_0 to bin bin0")).
  vm_compute. reflexivity.
Defined.

(** X4: a bin that has its two counters keeps them, and keeps its name,
    whatever [make_ghost] does; on such a bin [make_ghost] returns a pad
    or raises one of its own three exceptions, never a [KeyError] from
    the dict of counters. *)
Theorem make_ghost_keeps_counters (F : Gst.Framework)
    (direction : option Gst.PadDirection) (inner_pad : option Gst.Pad)
    (s s' : Sys GhostBin.t) (r : result Gst.Pad) :
  has_counters (self s) ->
  GhostBin.make_ghost F direction inner_pad s = (r, s') ->
  has_counters (self s') /\
  GhostBin.name (self s') = GhostBin.name (self s) /\
  GhostBin.class_name (self s') = GhostBin.class_name (self s) /\
  match r with
  | Ok pad => Gst.pad_parent pad = GhostBin.name (self s)
  | Raise e => ghost_error e
  end.
Proof.
  intros [[src Hsrc] [sink Hsink]].
  unfold GhostBin.make_ghost, GhostBin.outer_pad_count.
  unfold bind, get, log, ask, call, modify, raise, ret.
  destruct inner_pad as [p|], direction as [d|]; simpl.
  all: repeat (case_match; simpl in *; try discriminate).
  all: intros [= <- <-]; simplify_eq/=.
  all: split; [split; simpl; rewrite ?lookup_insert; repeat case_decide; eauto|].
  all: split; [reflexivity|]; split; [reflexivity|].
  all: try reflexivity; unfold ghost_error; eauto.
Qed.

Lemma make_ghost_keeps_counters_of_new_bin :
  has_counters
    (self (GhostBin.make_ghost Scenario.working None (Some (Scenario.src_pad "decoder"))
             Scenario2.bin0).2) /\
  GhostBin.name
    (self (GhostBin.make_ghost Scenario.working None (Some (Scenario.src_pad "decoder"))
             Scenario2.bin0).2) = "bin0" /\
  GhostBin.class_name
    (self (GhostBin.make_ghost Scenario.working None (Some (Scenario.src_pad "decoder"))
             Scenario2.bin0).2) = "GhostBin" /\
  "bin0" = "bin0".
Proof.
  apply (make_ghost_keeps_counters Scenario.working None (Some (Scenario.src_pad "decoder"))
           Scenario2.bin0 _
           (Ok {| Gst.pad_name := "src_0"; Gst.pad_direction := Gst.SRC;
                  Gst.pad_parent := "bin0" |})).
  - split; eexists; reflexivity.
  - vm_compute. reflexivity.
Defined.

(** X5: [make_ghost] given a direction and no pad asks the bin once for
    an unlinked pad of that direction.  When there is none it raises
    [GetPadError] and the bin is as before; when there is one and a pad is
    returned, that pad is a ghost of the one found, it is named after the
    direction asked for and the counter of that direction, and it was
    made, set active and added to the bin, in this order. *)
Theorem make_ghost_by_direction (F : Gst.Framework) (direction : Gst.PadDirection)
    (s s' : Sys GhostBin.t) (r : result Gst.Pad) :
  GhostBin.make_ghost F (Some direction) None s = (r, s') ->
  exists rest,
    calls s' = calls s ++ Gst.FindUnlinkedPad (GhostBin.name (self s)) direction :: rest /\
    match Gst.find_unlinked_pad F (calls s) (GhostBin.name (self s)) direction with
    | None =>
      r = Raise (GetPadError "Unlinked pad not found. Perhaps request one?") /\
      rest = [] /\ self s' = self s
    | Some found =>
      forall pad, r = Ok pad ->
        (exists n,
           GhostBin._outer_pad_count (self s) !! direction = Some n /\
           Gst.pad_name pad = GhostOps.outer_prefix direction +:+ pretty n) /\
        rest = [Gst.GhostPadNew (Gst.pad_name pad) found;
                Gst.SetActive pad true;
                Gst.AddPad (GhostBin.name (self s)) pad]
    end.
Proof.
  unfold GhostBin.make_ghost, GhostBin.outer_pad_count.
  unfold bind, get, log, ask, call, modify, raise, ret. simpl.
  destruct (Gst.find_unlinked_pad F (calls s) (GhostBin.name (self s)) direction)
    as [found|]; simpl.
  2: { intros [= <- <-]. exists []. simpl. auto. }
  repeat (case_match; simpl in *; try discriminate).
  all: intros [= <- <-]; simplify_eq/=.
  all: eexists; (split; [rewrite <- ?app_assoc; reflexivity|]).
  all: intros pad Hpad; try discriminate Hpad; injection Hpad as <-.
  all: split; [eexists; split; reflexivity|reflexivity].
Qed.

Lemma make_ghost_by_direction_found :
  exists rest,
    calls (GhostBin.make_ghost Scenario2.unlinked (Some Gst.SRC) None Scenario2.bin0).2
      = calls Scenario2.bin0 ++ Gst.FindUnlinkedPad "bin0" Gst.SRC :: rest /\
    forall pad : Gst.Pad,
      Ok {| Gst.pad_name := "src_0"; Gst.pad_direction := Gst.SRC;
            Gst.pad_parent := "bin0" |} = Ok pad ->
      (exists n,
         GhostBin._outer_pad_count (self Scenario2.bin0) !! Gst.SRC = Some n /\
         Gst.pad_name pad = GhostOps.outer_prefix Gst.SRC +:+ pretty n) /\
      rest = [Gst.GhostPadNew (Gst.pad_name pad) (Scenario2.inner_pad Gst.SRC);
              Gst.SetActive pad true;
              Gst.AddPad "bin0" pad].
Proof.
  apply (make_ghost_by_direction Scenario2.unlinked Gst.SRC Scenario2.bin0 _
           (Ok {| Gst.pad_name := "src_0"; Gst.pad_direction := Gst.SRC;
                  Gst.pad_parent := "bin0" |})).
  vm_compute. reflexivity.
Defined.

(** ** Sink pads for sources *)

(** X6: when the bin has no unlinked pad of the muxer to offer and the
    muxer refuses the request pad, [get_sink_pad] raises [GetPadError].
    The pad asked for was [sink_] and the value of [_pad_counter]; the
    bin is as before, [_pad_counter] among it, and no ghost pad was
    made. *)
Theorem get_sink_pad_refused (F : Gst.Framework) (s : Sys InferenceBin.t) :
  match Gst.find_unlinked_pad F (calls s) (InferenceBin.name (self s)) Gst.SINK with
  | Some p => Gst.pad_parent p <> InferenceBin.stream_muxer (self s)
  | None => True
  end ->
  Gst.get_request_pad F
    (calls s ++ [Gst.FindUnlinkedPad (InferenceBin.name (self s)) Gst.SINK])
    (InferenceBin.stream_muxer (self s))
    ("sink_" +:+ pretty (InferenceBin._pad_counter (self s))) = None ->
  InferenceBin.get_sink_pad F s
    = (Raise (GetPadError ("Could not find or request sink pad from "
                           +:+ InferenceBin.name (self s) +:+ ".muxer")),
       Build_Sys (self s)
         (calls s ++
          [Gst.FindUnlinkedPad (InferenceBin.name (self s)) Gst.SINK;
           Gst.GetRequestPad (InferenceBin.stream_muxer (self s))
             ("sink_" +:+ pretty (InferenceBin._pad_counter (self s)))])
         (logged s ++
          [(Logging.DEBUG, "finding unlinked pad on " +:+ InferenceBin.name (self s));
           (Logging.DEBUG,
            "unlinked pad not found on " +:+ InferenceBin.name (self s) +:+ ". "
            +:+ "requesting new sink pad from " +:+ InferenceBin.stream_muxer (self s))])).
Proof.
  intros Hfound Hrefused.
  unfold InferenceBin.get_sink_pad, bind, get, log, call, modify, raise, ret.
  cbn [self calls logged].
  destruct (Gst.find_unlinked_pad F (calls s) (InferenceBin.name (self s)) Gst.SINK)
    as [p|].
  - rewrite bool_decide_eq_false_2 by exact Hfound.
    cbn [self calls logged]. rewrite Hrefused. rewrite <- !app_assoc. reflexivity.
  - cbn [self calls logged]. rewrite Hrefused. rewrite <- !app_assoc. reflexivity.
Qed.

Lemma get_sink_pad_refused_by_muxer :
  InferenceBin.get_sink_pad Scenario3.no_request Scenario3.two_sources
    = (Raise (GetPadError "Could not find or request sink pad from inference_0.muxer"),
       Build_Sys (Scenario.inference_bin 2)
         [Gst.FindUnlinkedPad "inference_0" Gst.SINK;
          Gst.GetRequestPad "stream-muxer" "sink_0"]
         [(Logging.DEBUG, "finding unlinked pad on inference_0");
          (Logging.DEBUG,
           "unlinked pad not found on inference_0. requesting new sink pad from stream-muxer")]).
Proof.
  apply (get_sink_pad_refused Scenario3.no_request Scenario3.two_sources).
  - exact I.
  - reflexivity.
Defined.

(** A pad [make_ghost] returns for an inner pad it was given: it was
    made for that pad, set active and added to the bin, and nothing else
    was asked of the framework. *)
Lemma make_ghost_of_pad_ok (F : Gst.Framework) direction (p pad : Gst.Pad)
    (s s' : Sys GhostBin.t) :
  GhostBin.make_ghost F direction (Some p) s = (Ok pad, s') ->
  calls s' = calls s ++ [Gst.GhostPadNew (Gst.pad_name pad) p;
                         Gst.SetActive pad true;
                         Gst.AddPad (GhostBin.name (self s)) pad] /\
  Gst.pad_direction pad = Gst.pad_direction p.
Proof.
  unfold GhostBin.make_ghost, GhostBin.outer_pad_count.
  unfold bind, get, log, ask, call, modify, raise, ret.
  destruct direction as [d|]; simpl.
  all: repeat (case_match; simpl in *; try discriminate).
  all: intros [= <- <-]; simplify_eq/=.
  all: rewrite <- ?app_assoc; split; [reflexivity|]; simpl; congruence.
Qed.

(** The calls [make_ghost] makes for an inner pad it was given are among
    these three kinds, whatever comes of it. *)
Lemma make_ghost_of_pad_emits (F : Gst.Framework) direction (p : Gst.Pad) :
  emits (fun c => match c with
                  | Gst.GhostPadNew _ _ | Gst.SetActive _ _ | Gst.AddPad _ _ => True
                  | _ => False
                  end)
    (GhostBin.make_ghost F direction (Some p)).
Proof.
  unfold GhostBin.make_ghost, GhostBin.outer_pad_count.
  destruct direction; repeat (first [emits_step | exact I]).
Qed.

(** X7: when the bin finds an unlinked pad of the muxer, [get_sink_pad]
    makes the ghost pad for that one and asks the muxer for nothing.
    [_pad_counter] goes up by one all the same, whether the ghost pad
    could be made or not. *)
Theorem get_sink_pad_reuses (F : Gst.Framework) (s s' : Sys InferenceBin.t)
    (p : Gst.Pad) (r : result Gst.Pad) :
  Gst.find_unlinked_pad F (calls s) (InferenceBin.name (self s)) Gst.SINK = Some p ->
  Gst.pad_parent p = InferenceBin.stream_muxer (self s) ->
  InferenceBin.get_sink_pad F s = (r, s') ->
  InferenceBin._pad_counter (self s') = InferenceBin._pad_counter (self s) + 1 /\
  exists new,
    calls s' = calls s ++ Gst.FindUnlinkedPad (InferenceBin.name (self s)) Gst.SINK :: new /\
    (forall element name, Gst.GetRequestPad element name ∉ new) /\
    (forall pad, r = Ok pad ->
       new = [Gst.GhostPadNew (Gst.pad_name pad) p;
              Gst.SetActive pad true;
              Gst.AddPad (InferenceBin.name (self s)) pad]).
Proof.
  intros Hfound Hparent.
  unfold InferenceBin.get_sink_pad, bind, get, log, call, modify, raise, ret.
  cbn [self calls logged]. rewrite Hfound.
  rewrite bool_decide_eq_true_2 by exact Hparent.
  cbn [self calls logged].
  unfold InferenceBin.make_ghost, lift. cbn [self calls logged].
  destruct (GhostBin.make_ghost F None (Some p) _) as [r0 b] eqn:Hghost.
  intros [= <- <-]. cbn [self calls logged]. split; [reflexivity|].
  pose proof (make_ghost_of_pad_emits F None p _ _ _ Hghost) as (new & Hcalls & Hnew).
  cbn [self calls logged] in Hcalls.
  exists new. split; [rewrite Hcalls, <- app_assoc; reflexivity|]. split.
  - intros element name Hin. rewrite Forall_forall in Hnew.
    exact (Hnew _ Hin).
  - intros pad ->. apply make_ghost_of_pad_ok in Hghost as [Hcalls' _].
    cbn [self calls logged] in Hcalls'. rewrite Hcalls in Hcalls'.
    apply app_inv_head in Hcalls'. exact Hcalls'.
Qed.

Lemma get_sink_pad_reuses_spare_pad :
  InferenceBin._pad_counter
    (self (InferenceBin.get_sink_pad Scenario3.spare_pad Scenario3.two_sources).2)
    = InferenceBin._pad_counter (self Scenario3.two_sources) + 1 /\
  exists new,
    calls (InferenceBin.get_sink_pad Scenario3.spare_pad Scenario3.two_sources).2
      = calls Scenario3.two_sources ++ Gst.FindUnlinkedPad "inference_0" Gst.SINK :: new /\
    (forall element name, Gst.GetRequestPad element name ∉ new) /\
    (forall pad,
       Ok {| Gst.pad_name := "sink_0"; Gst.pad_direction := Gst.SINK;
             Gst.pad_parent := "inference_0" |} = Ok pad ->
       new = [Gst.GhostPadNew (Gst.pad_name pad) Scenario3.muxer_pad;
              Gst.SetActive pad true;
              Gst.AddPad "inference_0" pad]).
Proof.
  apply (get_sink_pad_reuses Scenario3.spare_pad Scenario3.two_sources _
           Scenario3.muxer_pad).
  - reflexivity.
  - reflexivity.
  - vm_compute. reflexivity.
Defined.

(** A method of the base class run on the subclass: what the method did
    to the base part. *)
Lemma lift_run {Base Self A} (proj : Self -> Base) (upd : Base -> Self -> Self)
    (m : M Base A) (s s' : Sys Self) (r : result A) :
  lift proj upd m s = (r, s') ->
  exists b,
    m (Build_Sys (proj (self s)) (calls s) (logged s)) = (r, b) /\
    s' = Build_Sys (upd (self b) (self s)) (calls b) (logged b).
Proof.
  unfold lift. destruct (m _) as [r0 b] eqn:Hm. intros [= <- <-]. eauto.
Qed.

(** [get_sink_pad] in two halves: it comes by a pad of the muxer, found
    or requested under the name [sink_] and [_pad_counter], or raises;
    with a pad, it counts it and runs [make_ghost] on it. *)
Lemma get_sink_pad_run (F : Gst.Framework) (s s' : Sys InferenceBin.t)
    (r : result Gst.Pad) :
  InferenceBin.get_sink_pad F s = (r, s') ->
  exists requested lines,
    (requested = [] \/
     requested = [Gst.GetRequestPad (InferenceBin.stream_muxer (self s))
                    ("sink_" +:+ pretty (InferenceBin._pad_counter (self s)))]) /\
    let sought := calls s ++ Gst.FindUnlinkedPad (InferenceBin.name (self s)) Gst.SINK
                    :: requested in
    ((exists msg, r = Raise (GetPadError msg)) /\
     s' = Build_Sys (self s) sought (logged s ++ lines) \/
     exists p,
       InferenceBin.make_ghost F None (Some p)
         (Build_Sys
            (InferenceBin.set_pad_counter (InferenceBin._pad_counter (self s) + 1) (self s))
            sought (logged s ++ lines)) = (r, s')).
Proof.
  unfold InferenceBin.get_sink_pad, bind, get, log, call, modify, raise, ret.
  cbn [self calls logged].
  destruct (Gst.find_unlinked_pad F (calls s) (InferenceBin.name (self s)) Gst.SINK)
    as [p|]; [case_bool_decide|].
  all: cbn [self calls logged].
  2,3: destruct (Gst.get_request_pad F _ _ _) as [q|]; cbn [self calls logged].
  all: intros Hrun; eexists _, _.
  1: split; [left; reflexivity|].
  2,3,4,5: split; [right; reflexivity|].
  all: cbn zeta; rewrite <- ?app_assoc in Hrun; cbn [app] in Hrun.
  all: first [ right; eexists; exact Hrun
             | left; injection Hrun as <- <-; split; [eauto|reflexivity] ].
Qed.

(** [make_ghost] does not rename the bin. *)
Lemma make_ghost_keeps_name (F : Gst.Framework) direction inner_pad
    (s s' : Sys GhostBin.t) (r : result Gst.Pad) :
  GhostBin.make_ghost F direction inner_pad s = (r, s') ->
  GhostBin.name (self s') = GhostBin.name (self s).
Proof.
  revert s r s'. change (respects (same GhostBin.name) (GhostBin.make_ghost F direction inner_pad)).
  unfold GhostBin.make_ghost, GhostBin.outer_pad_count.
  repeat (first [ respects_step | apply respects_modify; intros x; reflexivity ]).
Qed.

(** A pad [get_sink_pad] returns: [_pad_counter] and the counter of ghost
    pads of its direction went up by one, and the pad was added to the
    bin by the last call. *)
Lemma get_sink_pad_ok (F : Gst.Framework) (s s' : Sys InferenceBin.t) (pad : Gst.Pad) :
  InferenceBin.get_sink_pad F s = (Ok pad, s') ->
  InferenceBin._pad_counter (self s') = InferenceBin._pad_counter (self s) + 1 /\
  InferenceBin._source_counter (self s') = InferenceBin._source_counter (self s) /\
  InferenceBin.name (self s') = InferenceBin.name (self s) /\
  GhostOps.count (Gst.pad_direction pad) (InferenceBin.ghost_bin (self s'))
    = GhostOps.count (Gst.pad_direction pad) (InferenceBin.ghost_bin (self s)) + 1 /\
  exists before,
    calls s' = calls s ++ before ++ [Gst.AddPad (InferenceBin.name (self s)) pad].
Proof.
  intros Hrun. apply get_sink_pad_run in Hrun as (requested & lines & _ & Hrun).
  cbn zeta in Hrun. destruct Hrun as [[[msg [=]] _]|[p Hghost]].
  unfold InferenceBin.make_ghost in Hghost.
  apply lift_run in Hghost as (b & Hghost & ->). cbn [self calls logged] in *.
  pose proof (make_ghost_ok F _ _ _ _ _ Hghost) as (n & _ & Hn & _ & Hcount).
  pose proof (make_ghost_keeps_name F _ _ _ _ _ Hghost) as Hname.
  apply make_ghost_of_pad_ok in Hghost as [Hcalls _].
  cbn [self calls logged] in *. unfold InferenceBin.name.
  cbn [InferenceBin.ghost_bin InferenceBin.set_ghost_bin InferenceBin.set_pad_counter
       InferenceBin._pad_counter InferenceBin._source_counter] in *.
  split; [reflexivity|]. split; [reflexivity|].
  split; [exact Hname|]. split.
  - rewrite Hcount. unfold GhostOps.count. rewrite Hn. reflexivity.
  - rewrite Hcalls. eexists (_ :: requested ++ [_; _]).
    rewrite <- !app_assoc. cbn [app]. rewrite <- !app_assoc. reflexivity.
Qed.

(** [link] of two pads: the object is left alone and the one call is the
    link of the two. *)
Lemma link_of_pads_run (F : Gst.Framework) (Self : Type) (a b : Gst.Pad)
    (s s' : Sys Self) (r : result unit) :
  Linker.link F (Linker.APad a) (Linker.APad b) s = (r, s') ->
  self s' = self s /\ calls s' = calls s ++ [Gst.PadLink a b].
Proof.
  assert (Hlink : Linker.link F (Linker.APad a) (Linker.APad b) s
            = Linker._link_pads F (Some a) (Some b)
                (Build_Sys (self s) (calls s)
                   (logged s ++ [(Logging.DEBUG, "linking pad " +:+ Gst.pad_name a
                                                 +:+ " to pad " +:+ Gst.pad_name b)])))
    by reflexivity.
  rewrite Hlink.
  destruct (link_pads_of_two F Self a b
              (Build_Sys (self s) (calls s)
                 (logged s ++ [(Logging.DEBUG, "linking pad " +:+ Gst.pad_name a
                                               +:+ " to pad " +:+ Gst.pad_name b)])))
    as (res & lines & Hrun & _).
  rewrite Hrun. intros [= <- <-]. split; reflexivity.
Qed.

(** X8: what [link_source] does not take back.  When the sink pad was
    got and the link of the source's pad to it fails, [link_source]
    raises the error of the link with [source_counter] back at its value,
    but [_pad_counter] and the counter of ghost pads stay one higher, and
    the ghost pad stays on the bin: the failed link is the last thing
    asked of the framework. *)
Theorem link_source_keeps_pad (F : Gst.Framework) (source : string)
    (src_pad sink_pad : Gst.Pad) (s s1 s2 : Sys InferenceBin.t) (e : exn) :
  String.prefix "video/x-raw" (Gst.query_caps F (calls s) src_pad) = true ->
  InferenceBin.get_sink_pad F (counted source src_pad s) = (Ok sink_pad, s1) ->
  Linker.link F (Linker.APad src_pad) (Linker.APad sink_pad) s1 = (Raise e, s2) ->
  exists s',
    InferenceBin.link_source F source src_pad s = (Raise e, s') /\
    InferenceBin._source_counter (self s') = InferenceBin._source_counter (self s) /\
    InferenceBin._pad_counter (self s') = InferenceBin._pad_counter (self s) + 1 /\
    GhostOps.count (Gst.pad_direction sink_pad) (InferenceBin.ghost_bin (self s'))
      = GhostOps.count (Gst.pad_direction sink_pad) (InferenceBin.ghost_bin (self s)) + 1 /\
    exists before,
      calls s' = calls s ++ before ++ [Gst.AddPad (InferenceBin.name (self s)) sink_pad;
                                       Gst.PadLink src_pad sink_pad].
Proof.
  intros Hvideo Hget Hlink.
  rewrite (link_source_video F source src_pad s Hvideo).
  unfold InferenceBin.acquire_and_link, bind. rewrite Hget, Hlink.
  eexists; split; [reflexivity|]. cbn [self calls logged].
  apply link_of_pads_run in Hlink as [Hself Hcalls].
  apply get_sink_pad_ok in Hget as (Hpad & Hsource & Hname & Hcount & before & Hbefore).
  unfold counted in *. cbn [self calls logged] in *.
  unfold InferenceBin.name in *.
  cbn [InferenceBin.ghost_bin InferenceBin.set_source_counter
       InferenceBin._pad_counter InferenceBin._source_counter] in *.
  rewrite Hself. split; [lia|]. split; [exact Hpad|]. split; [exact Hcount|].
  exists before. rewrite Hcalls, Hbefore, <- !app_assoc. reflexivity.
Qed.

Lemma link_source_keeps_pad_of_third_source :
  exists s',
    InferenceBin.link_source Scenario.no_format "source_2" (Scenario.src_pad "source_2")
      Scenario3.two_sources
    = (Raise (LinkError "could not link pads src_0 and sink_0 because caps are incompatible:
src_0: None
sink_0: None"), s') /\
    InferenceBin._source_counter (self s')
      = InferenceBin._source_counter (self Scenario3.two_sources) /\
    InferenceBin._pad_counter (self s')
      = InferenceBin._pad_counter (self Scenario3.two_sources) + 1 /\
    GhostOps.count Gst.SINK (InferenceBin.ghost_bin (self s'))
      = GhostOps.count Gst.SINK (InferenceBin.ghost_bin (self Scenario3.two_sources)) + 1 /\
    exists before,
      calls s' = calls Scenario3.two_sources ++ before ++
        [Gst.AddPad "inference_0"
           {| Gst.pad_name := "sink_0"; Gst.pad_direction := Gst.SINK;
              Gst.pad_parent := "inference_0" |};
         Gst.PadLink (Scenario.src_pad "source_2")
           {| Gst.pad_name := "sink_0"; Gst.pad_direction := Gst.SINK;
              Gst.pad_parent := "inference_0" |}].
Proof.
  eapply (link_source_keeps_pad Scenario.no_format "source_2" (Scenario.src_pad "source_2")
            {| Gst.pad_name := "sink_0"; Gst.pad_direction := Gst.SINK;
               Gst.pad_parent := "inference_0" |}
            Scenario3.two_sources).
  - reflexivity.
  - vm_compute. reflexivity.
  - vm_compute. reflexivity.
Defined.

(** ** The names of request pads *)

Global Instance pads_counted_preorder : PreOrder SourceOps.pads_counted.
Proof.
  split.
  - intros x. split; [reflexivity|lia].
  - intros x y z [Hm1 Hc1] [Hm2 Hc2]. split; [congruence|lia].
Qed.

Section PadFacts.
Context (F : Gst.Framework).

Lemma inference_make_ghost_counted direction inner_pad :
  respects SourceOps.pads_counted (InferenceBin.make_ghost F direction inner_pad).
Proof.
  unfold InferenceBin.make_ghost.
  apply (respects_lift _ (fun _ _ => True)).
  - intros ? ? ? ?; exact I.
  - intros x b _. split; [reflexivity|simpl; lia].
Qed.

Lemma get_sink_pad_counted :
  respects SourceOps.pads_counted (InferenceBin.get_sink_pad F).
Proof.
  unfold InferenceBin.get_sink_pad.
  repeat (first [ apply inference_make_ghost_counted
                | respects_step
                | apply respects_modify; intros x; split; [reflexivity|simpl; lia] ]).
Qed.

Lemma link_source_counted source src_pad :
  respects SourceOps.pads_counted (InferenceBin.link_source F source src_pad).
Proof.
  unfold InferenceBin.link_source, InferenceBin.acquire_and_link,
    Linker.is_video_pad, Linker.caps_start_with.
  repeat (first [ apply get_sink_pad_counted
                | apply link_respects; apply _
                | respects_step
                | apply respects_modify; intros x; split; [reflexivity|simpl; lia] ]).
Qed.

Lemma source_step_counted (s : Sys InferenceBin.t) (op : SourceOps.Op) :
  SourceOps.pads_counted (self s) (self (SourceOps.step F s op)).
Proof.
  destruct op as [source src_pad| |direction inner_pad]; unfold SourceOps.step.
  - destruct (InferenceBin.link_source F source src_pad s) as [r s'] eqn:H.
    apply link_source_counted in H. exact H.
  - destruct (InferenceBin.get_sink_pad F s) as [r s'] eqn:H.
    apply get_sink_pad_counted in H. exact H.
  - destruct (InferenceBin.make_ghost F direction inner_pad s) as [r s'] eqn:H.
    apply inference_make_ghost_counted in H. exact H.
Qed.

Lemma source_steps_counted (ops : list SourceOps.Op) (s : Sys InferenceBin.t) :
  SourceOps.pads_counted (self s) (self (SourceOps.steps F ops s)).
Proof.
  unfold SourceOps.steps. revert s.
  induction ops as [|op ops IH]; intros s; simpl.
  - reflexivity.
  - transitivity (self (SourceOps.step F s op)); [apply source_step_counted | apply IH].
Qed.

(** Whatever [get_sink_pad] asks of the muxer, it asks under the name
    [sink_] and the value [_pad_counter] had. *)
Lemma get_sink_pad_requests (s s' : Sys InferenceBin.t) (r : result Gst.Pad) :
  InferenceBin.get_sink_pad F s = (r, s') ->
  forall element name,
    Gst.GetRequestPad element name ∈ calls_since s s' ->
    element = InferenceBin.stream_muxer (self s) /\
    name = "sink_" +:+ pretty (InferenceBin._pad_counter (self s)).
Proof.
  intros Hrun element name.
  apply get_sink_pad_run in Hrun as (requested & lines & Hrequested & Hrun).
  cbn zeta in Hrun.
  assert (Hsince : exists new,
            calls_since s s'
              = Gst.FindUnlinkedPad (InferenceBin.name (self s)) Gst.SINK :: requested ++ new /\
            forall element name, Gst.GetRequestPad element name ∉ new).
  { unfold calls_since. destruct Hrun as [[_ ->]|[p Hghost]].
    - exists []. cbn [calls]. rewrite drop_app_length, app_nil_r.
      split; [reflexivity|]. intros ? ?. apply not_elem_of_nil.
    - unfold InferenceBin.make_ghost in Hghost.
      apply lift_run in Hghost as (b & Hghost & ->). cbn [self calls logged] in *.
      apply make_ghost_of_pad_emits in Hghost as (new & -> & Hnew).
      cbn [calls]. exists new. rewrite <- app_assoc, drop_app_length.
      split; [reflexivity|]. intros el n Hin. rewrite Forall_forall in Hnew.
      exact (Hnew _ Hin). }
  destruct Hsince as (new & -> & Hnew).
  rewrite elem_of_cons, elem_of_app. intros [[=]|[Hin|Hin]].
  - destruct Hrequested as [->| ->].
    + apply elem_of_nil in Hin as [].
    + apply list_elem_of_singleton in Hin. injection Hin as -> ->. split; reflexivity.
  - destruct (Hnew _ _ Hin).
Qed.

End PadFacts.

(** X9: [_pad_counter] never goes down and the muxer stays the same,
    whatever is done to an inference bin.  So after a call of
    [get_sink_pad] that returned a pad, a later call, with sources
    attached and pads asked for in between, asks the muxer under a name
    with a greater number: a name under which a pad was got is not asked
    for again. *)
Theorem request_pad_names_increase (F : Gst.Framework) (s s1 s2 : Sys InferenceBin.t)
    (between : list SourceOps.Op) (pad1 : Gst.Pad) (r2 : result Gst.Pad) :
  InferenceBin.get_sink_pad F s = (Ok pad1, s1) ->
  InferenceBin.get_sink_pad F (SourceOps.steps F between s1) = (r2, s2) ->
  exists i j,
    i < j /\
    (forall element name,
       Gst.GetRequestPad element name ∈ calls_since s s1 ->
       element = InferenceBin.stream_muxer (self s) /\ name = "sink_" +:+ pretty i) /\
    (forall element name,
       Gst.GetRequestPad element name
         ∈ calls_since (SourceOps.steps F between s1) s2 ->
       element = InferenceBin.stream_muxer (self s) /\ name = "sink_" +:+ pretty j) /\
    "sink_" +:+ pretty i <> "sink_" +:+ pretty j.
Proof.
  intros H1 H2.
  exists (InferenceBin._pad_counter (self s)),
         (InferenceBin._pad_counter (self (SourceOps.steps F between s1))).
  pose proof (get_sink_pad_counted F _ _ _ H1) as [Hmuxer1 _].
  pose proof (source_steps_counted F between s1) as [Hmuxer Hle].
  pose proof (get_sink_pad_ok F _ _ _ H1) as (Hpad & _).
  assert (Hlt : InferenceBin._pad_counter (self s)
                < InferenceBin._pad_counter (self (SourceOps.steps F between s1))) by lia.
  split; [exact Hlt|]. split; [exact (get_sink_pad_requests F _ _ _ H1)|]. split.
  - intros element name Hin.
    destruct (get_sink_pad_requests F _ _ _ H2 _ _ Hin) as [-> ->].
    split; [congruence|reflexivity].
  - intros Heq. apply (inj (String.app _)), (inj pretty) in Heq. lia.
Qed.

Lemma request_pad_names_increase_after_source :
  exists i j,
    i < j /\
    (forall element name,
       Gst.GetRequestPad element name
         ∈ calls_since Scenario3.two_sources Scenario4.got_pad ->
       element = InferenceBin.stream_muxer (self Scenario3.two_sources) /\
       name = "sink_" +:+ pretty i) /\
    (forall element name,
       Gst.GetRequestPad element name
         ∈ calls_since
             (SourceOps.steps Scenario.working
                [SourceOps.LinkSource "source_3" (Scenario.src_pad "source_3")]
                Scenario4.got_pad)
             (InferenceBin.get_sink_pad Scenario.working Scenario4.attached).2 ->
       element = InferenceBin.stream_muxer (self Scenario3.two_sources) /\
       name = "sink_" +:+ pretty j) /\
    "sink_" +:+ pretty i <> "sink_" +:+ pretty j.
Proof.
  apply (request_pad_names_increase Scenario.working Scenario3.two_sources
           Scenario4.got_pad
           (InferenceBin.get_sink_pad Scenario.working Scenario4.attached).2
           [SourceOps.LinkSource "source_3" (Scenario.src_pad "source_3")]
           {| Gst.pad_name := "sink_0"; Gst.pad_direction := Gst.SINK;
              Gst.pad_parent := "inference_0" |}
           (Ok {| Gst.pad_name := "sink_2"; Gst.pad_direction := Gst.SINK;
                  Gst.pad_parent := "inference_0" |})).
  - vm_compute. reflexivity.
  - vm_compute. reflexivity.
Defined.

(** ** When [set_state] waits, and when [play] runs the loop *)


(** X11: [play] never raises.  It sets the state to [PLAYING] as
    [set_state] does and returns its answer; after that it runs the main
    loop exactly when [loop_also] is true, the object has a [_loop] and
    the loop is not running yet. *)
Theorem play_runs_loop (F : Gst.Framework) (loop_also async_ : bool) (timeout : Z)
    (pdf : bool) (s : Sys StateSetter.t) :
  exists r s1,
    StateSetter.set_state F Gst.PLAYING async_ timeout pdf s = (Ok r, s1) /\
    StateSetter.play F loop_also async_ timeout pdf s
      = (Ok r,
         Build_Sys (self s)
           (calls s1 ++
            if loop_also && StateSetter.hasattr (self s) "_loop"
               && negb (Gst.loop_is_running F (calls s1))
            then [Gst.LoopRun] else [])
           (logged s1)).
Proof.
  destruct (set_state_returns F Gst.PLAYING async_ timeout pdf s) as (r & s1 & Hset & Hself).
  exists r, s1. split; [exact Hset|].
  unfold StateSetter.play, StateSetter._loop_is_running.
  unfold bind, get, ret, ask, call, raise. rewrite Hset. cbn [self calls logged].
  rewrite Hself. destruct s1 as [x1 c1 l1]. cbn [self calls logged] in *. subst x1.
  destruct loop_also; cbn [andb];
    [destruct (StateSetter.hasattr (self s) "_loop") eqn:Hloop; cbn [andb]|].
  - cbn [self]. rewrite Hloop. cbn [self calls logged].
    destruct (Gst.loop_is_running F c1); cbn; rewrite ?app_nil_r; reflexivity.
  - rewrite app_nil_r. reflexivity.
  - rewrite app_nil_r. reflexivity.
Qed.

(** ** Quitting again, and leaving the [with] block *)

(** [set_state] asks the framework for the state. *)
Lemma set_state_asks (F : Gst.Framework) state async_ timeout pdf
    (s s' : Sys StateSetter.t) r :
  StateSetter.set_state F state async_ timeout pdf s = (r, s') ->
  Gst.SetState (StateSetter.name (self s)) state ∈ calls_since s s'.
Proof.
  unfold StateSetter.set_state, StateSetter.bin_to_pdf, bind, get, call, log, ret,
    calls_since.
  destruct pdf; simpl;
    destruct (Gst.set_state F _ _ _); simpl; destruct async_; simpl;
    intros [= <- <-]; simpl; rewrite <- ?app_assoc, drop_app_length; simpl;
    repeat first [apply list_elem_of_here | apply list_elem_of_further].
Qed.

(** [quit] makes the calls of [set_state] first. *)
Lemma quit_asks (F : Gst.Framework) loop_also async_ timeout pdf
    (s s' : Sys StateSetter.t) r :
  StateSetter.quit F loop_also async_ timeout pdf s = (r, s') ->
  Gst.SetState (StateSetter.name (self s)) Gst.NULL ∈ calls_since s s'.
Proof.
  unfold StateSetter.quit, StateSetter.null.
  destruct (StateSetter.set_state F Gst.NULL async_ timeout pdf s) as [r0 s0] eqn:Hset.
  pose proof (set_state_asks F _ _ _ _ _ _ _ Hset) as Hasks.
  pose proof (set_state_calls F _ _ _ _ _ _ _ Hset) as (new0 & Hnew0 & _).
  intros Hquit.
  assert (Hrest : exists new, calls s' = calls s0 ++ new).
  { unfold bind at 1 in Hquit. rewrite Hset in Hquit.
    destruct r0 as [r0|e];
      [|injection Hquit as <- <-; exists []; rewrite app_nil_r; reflexivity].
    cbv iota beta in Hquit.
    match type of Hquit with
    | ?k _ = _ => assert (Hem : emits (fun _ => True) k)
    end.
    { unfold StateSetter._loop_is_running. repeat (first [emits_step | exact I]). }
    apply Hem in Hquit as (new & Hnew & _). eauto. }
  destruct Hrest as (new & Hnew).
  unfold calls_since in *. rewrite Hnew, Hnew0, <- app_assoc, drop_app_length.
  rewrite Hnew0, drop_app_length in Hasks.
  apply elem_of_app. left. exact Hasks.
Qed.

(** X12: on an object with a [_loop], [quit] can be called again: both
    calls return and the object is as before.  The second call is no
    no-op for the framework, which is asked for [NULL] once more. *)
Theorem quit_again (F : Gst.Framework) (loop_also async_ : bool) (timeout : Z)
    (pdf : bool) (s : Sys StateSetter.t) :
  StateSetter.hasattr (self s) "_loop" = true ->
  exists r1 s1 r2 s2,
    StateSetter.quit F loop_also async_ timeout pdf s = (Ok r1, s1) /\
    StateSetter.quit F loop_also async_ timeout pdf s1 = (Ok r2, s2) /\
    self s2 = self s /\
    Gst.SetState (StateSetter.name (self s)) Gst.NULL ∈ calls_since s s1 /\
    Gst.SetState (StateSetter.name (self s)) Gst.NULL ∈ calls_since s1 s2.
Proof.
  intros Hloop.
  destruct (quit_twice F loop_also async_ timeout pdf s Hloop)
    as (r1 & s1 & r2 & s2 & H1 & H2 & Hself).
  exists r1, s1, r2, s2. split; [exact H1|]. split; [exact H2|]. split; [exact Hself|].
  split; [exact (quit_asks F _ _ _ _ _ _ _ H1)|].
  pose proof (quit_keeps_object F loop_also async_ timeout pdf s _ _ H1) as Hs1.
  unfold same in Hs1. rewrite <- Hs1.
  exact (quit_asks F _ _ _ _ _ _ _ H2).
Qed.

Lemma quit_again_while_playing :
  exists r1 s1 r2 s2,
    StateSetter.quit Scenario.working true false 10 true (Scenario.playing Scenario.working)
      = (Ok r1, s1) /\
    StateSetter.quit Scenario.working true false 10 true s1 = (Ok r2, s2) /\
    self s2 = self (Scenario.playing Scenario.working) /\
    Gst.SetState (StateSetter.name (self (Scenario.playing Scenario.working))) Gst.NULL
      ∈ calls_since (Scenario.playing Scenario.working) s1 /\
    Gst.SetState (StateSetter.name (self (Scenario.playing Scenario.working))) Gst.NULL
      ∈ calls_since s1 s2.
Proof.
  apply (quit_again Scenario.working true false 10 true (Scenario.playing Scenario.working)).
  reflexivity.
Defined.

(** X13: on an application object, which has its [_loop], [__exit__]
    writes the picture of the pipeline and runs [quit] with its defaults,
    whatever the block raised or did not raise, and asks nothing else of
    the framework.  It returns [True], which swallows the exception, for
    [KeyboardInterrupt] alone; for any other exception, and for none, it
    returns [None]. *)
Theorem exit_quits (F : Gst.Framework) (exc_type : option Lifecycle.ExcType)
    (s : Sys StateSetter.t) :
  StateSetter.hasattr (self s) "_loop" = true ->
  exists r s1,
    StateSetter.quit F true false 10 true (Lifecycle.leaving s) = (Ok r, s1) /\
    Lifecycle.__exit__ F exc_type s
      = (Ok (match exc_type with
             | Some Lifecycle.KeyboardInterrupt => Some true
             | _ => None
             end),
         Build_Sys (self s) (calls s1)
           (logged s1 ++
            match exc_type with
            | Some Lifecycle.KeyboardInterrupt =>
              [(Logging.DEBUG, "successfully handled SIGINT")]
            | _ => []
            end)).
Proof.
  intros Hloop.
  destruct (quit_returns F true false 10 true (Lifecycle.leaving s) Hloop)
    as (r & s1 & Hquit).
  pose proof (quit_keeps_object F true false 10 true _ _ _ Hquit) as Hself.
  unfold same in Hself. cbn [Lifecycle.leaving self] in Hself.
  exists r, s1. split; [exact Hquit|].
  unfold Lifecycle.__exit__, StateSetter.bin_to_pdf.
  unfold bind at 1 2 3. unfold get, log, call. cbn [self calls logged].
  fold (Lifecycle.leaving s). unfold bind. rewrite Hquit.
  destruct s1 as [x1 c1 l1]. cbn [self calls logged] in *. subst x1.
  destruct exc_type as [[]|]; unfold log, ret; cbn [self calls logged];
    rewrite ?app_nil_r; reflexivity.
Qed.

Lemma exit_quits_on_interrupt :
  exists r s1,
    StateSetter.quit Scenario.working true false 10 true
      (Lifecycle.leaving (Scenario.playing Scenario.working)) = (Ok r, s1) /\
    Lifecycle.__exit__ Scenario.working (Some Lifecycle.KeyboardInterrupt)
      (Scenario.playing Scenario.working)
      = (Ok (Some true),
         Build_Sys (self (Scenario.playing Scenario.working)) (calls s1)
           (logged s1 ++ [(Logging.DEBUG, "successfully handled SIGINT")])).
Proof.
  apply (exit_quits Scenario.working (Some Lifecycle.KeyboardInterrupt)
           (Scenario.playing Scenario.working)).
  reflexivity.
Defined.

(** ** The grid of tiles *)

(** X14: with the square root of the machine, a double rounded to
    nearest, [calc_rows_and_columns] returns the ceiling of the square
    root exactly for every number of sources from 1 to [2 ^ 52]. *)
Theorem machine_grid_size_exact (n : Z) :
  0 < n <= 2 ^ 52 ->
  exists r,
    FloatCheck.calc_rows_and_columns n = Ok r /\
    Description.is_ceil_sqrt n r.
Proof.
  intros Hn. exists (Z.sqrt_up n). split.
  - rewrite float_agrees by lia. apply calc_rows_and_columns_pos. lia.
  - apply sqrt_up_is_ceil_sqrt. lia.
Qed.

Lemma machine_grid_size_exact_for_17 :
  exists r,
    FloatCheck.calc_rows_and_columns 17 = Ok r /\
    Description.is_ceil_sqrt 17 r.
Proof. apply (machine_grid_size_exact 17). lia. Defined.



(** ** Making the elements of a description *)



Section FactoryFacts.
Import Description Factory Built.
Context (F : Gst.Framework) (W : Factory.Answers).

Lemma make_element_run (ed : ElementDescription) (s : Sys (list Event)) :
  make_element W (ed_type ed) (ed_name ed) s
  = if make W (self s) (calls s) (ed_type ed) (ed_name ed)
    then (Ok (ed_name ed),
          Build_Sys (self s ++ [Make (ed_type ed) (ed_name ed)]) (calls s)
            (logged s ++ [creating ed]))
    else (Raise (ElementCreationError (failed ed)),
          Build_Sys (self s ++ [Make (ed_type ed) (ed_name ed)]) (calls s)
            (logged s ++ [creating ed; (Logging.ERROR, failed ed)])).
Proof.
  unfold make_element, event, bind, log, raise, ret. cbn [self calls logged].
  destruct (make W _ _ _ _); cbn [self calls logged];
    rewrite <- ?app_assoc; reflexivity.
Qed.

Lemma set_events_run (element : string) (kvs : list (string * PropValue))
    (s : Sys (list Event)) :
  for_each kvs (fun kv => event (SetProperty element kv.1 kv.2) (fun _ _ => tt)) s
  = (Ok tt,
     Build_Sys (self s ++ map (fun kv => SetProperty element kv.1 kv.2) kvs)
       (calls s) (logged s)).
Proof.
  revert s. induction kvs as [|kv kvs IH]; intros s; cbn [for_each map].
  - unfold ret. rewrite app_nil_r. destruct s; reflexivity.
  - unfold bind, event at 1. rewrite IH. cbn [self calls logged].
    rewrite <- app_assoc. reflexivity.
Qed.

Lemma set_properties_run (ed : ElementDescription) (s : Sys (list Event)) :
  set_properties (ed_name ed) (ed_properties ed) s
  = (Ok tt,
     Build_Sys
       (self s ++ map (fun kv => SetProperty (ed_name ed) kv.1 kv.2)
                    (map_to_list (default ∅ (ed_properties ed))))
       (calls s) (logged s)).
Proof.
  unfold set_properties. destruct (ed_properties ed) as [props|]; cbn [default].
  - apply set_events_run.
  - rewrite map_to_list_empty. unfold ret. cbn [map]. rewrite app_nil_r.
    destruct s; reflexivity.
Qed.

(** The loop of [make_elements] in closed form. *)
Lemma make_elements_from_run (bd : BinDescription) (elements : list string)
    (s s' : Sys (list Event)) (r : result (list string)) :
  make_elements_from W elements bd s = (r, s') ->
  calls s' = calls s /\
  match r with
  | Ok made =>
    made = elements ++ map ed_name (present bd) /\
    self s' = self s ++ concat (map element_events (present bd)) /\
    logged s' = logged s ++ element_lines elements (present bd)
  | Raise e =>
    exists done ed rest,
      present bd = done ++ ed :: rest /\
      e = ElementCreationError (failed ed) /\
      make W (self s ++ concat (map element_events done)) (calls s)
        (ed_type ed) (ed_name ed) = false /\
      self s' = self s ++ concat (map element_events done)
                  ++ [Make (ed_type ed) (ed_name ed)] /\
      logged s' = logged s ++ element_lines elements done
                    ++ [creating ed; (Logging.ERROR, failed ed)]
  end.
Proof.
  revert elements s. induction bd as [|[ed|] bd IH]; intros elements s.
  - cbn. intros [= <- <-]. rewrite !app_nil_r. auto.
  - cbn [make_elements_from]. unfold bind at 1. rewrite make_element_run.
    destruct (make W (self s) (calls s) (ed_type ed) (ed_name ed)) eqn:Hmade.
    + unfold bind at 1. rewrite set_properties_run. cbn [self calls logged].
      unfold bind at 1.
      set (s1 := (if bool_decide (ed_name ed ∈ elements)
                  then log Logging.WARNING _ else ret tt) _).
      assert (Hs1 : s1 = (Ok tt,
                Build_Sys (self s ++ element_events ed) (calls s)
                  (logged s ++ creating ed
                     :: (if bool_decide (ed_name ed ∈ elements)
                         then [duplicate ed] else [])))).
      { subst s1. unfold element_events.
        destruct (bool_decide (ed_name ed ∈ elements)); unfold log, ret;
          cbn [self calls logged]; rewrite <- ?app_assoc; reflexivity. }
      rewrite Hs1. intros Hrest. apply IH in Hrest as [Hcalls Hrest].
      cbn [self calls logged] in *. split; [exact Hcalls|].
      destruct r as [made|e].
      * destruct Hrest as (-> & -> & ->).
        change (present (Some ed :: bd)) with (ed :: present bd).
        cbn [concat map element_lines].
        rewrite <- ?app_assoc. cbn [app]. rewrite <- ?app_assoc. auto.
      * destruct Hrest as (done & ed' & rest & Hpresent & -> & Hfalse & -> & ->).
        exists (ed :: done), ed', rest.
        change (present (Some ed :: bd)) with (ed :: present bd). rewrite Hpresent.
        split; [reflexivity|]. split; [reflexivity|].
        cbn [concat map element_lines].
        rewrite <- ?app_assoc in *. cbn [app]. rewrite <- ?app_assoc. auto.
    + intros [= <- <-]. cbn [self calls logged]. split; [reflexivity|].
      exists [], ed, (present bd). cbn [concat map element_lines app].
      rewrite app_nil_r.
      split; [reflexivity|]. split; [reflexivity|]. auto.
  - cbn [make_elements_from]. intros Hrest. apply IH in Hrest as [Hcalls Hrest].
    split; [exact Hcalls|]. exact Hrest.
Qed.


(** No warning is among the lines of elements whose names are new and
    different from each other, and only then. *)
Lemma element_lines_warning (elements : list string) (eds : list ElementDescription) :
  Forall (fun line : LogRecord => line.1 <> Logging.WARNING) (element_lines elements eds)
  <-> NoDup (map ed_name eds) /\ (forall name, name ∈ map ed_name eds -> name ∉ elements).
Proof.
  revert elements. induction eds as [|ed eds IH]; intros elements.
  - cbn. split; [intros _; split; [constructor|]|constructor].
    intros name Hin. apply elem_of_nil in Hin as [].
  - cbn [element_lines map]. rewrite Forall_cons, Forall_app, IH, NoDup_cons.
    split.
    + intros (_ & Hdup & Hnodup & Hnew). case_bool_decide as Hin.
      { apply Forall_cons in Hdup as [Hdup _]. contradiction Hdup. reflexivity. }
      split; [split; [|exact Hnodup]|].
      * intros Hin'. apply (Hnew _ Hin'). apply elem_of_app. right. constructor.
      * intros name [->|Hin']%elem_of_cons; [exact Hin|].
        intros Hold. apply (Hnew _ Hin'). apply elem_of_app. left. exact Hold.
    + intros [[Hfresh Hnodup] Hnew]. split; [discriminate|].
      rewrite bool_decide_eq_false_2 by (apply Hnew; constructor).
      split; [constructor|]. split; [exact Hnodup|].
      intros name Hin [Hold|Hlast%list_elem_of_singleton]%elem_of_app.
      * apply (Hnew name); [apply list_elem_of_further, Hin|exact Hold].
      * subst name. exact (Hfresh Hin).
Qed.

End FactoryFacts.





(** X18: two described elements of one name do not stop
    [make_elements]: both are made and returned.  A warning is logged for
    the later one; when the call returns, the log it wrote is free of
    warnings exactly when the names of the elements returned differ from
    each other. *)
Theorem make_elements_warns_of_duplicates (W : Factory.Answers)
    (bd : Description.BinDescription) (s s' : Sys (list Factory.Event))
    (made : list string) :
  Factory.make_elements W bd s = (Ok made, s') ->
  length made = length (Built.present bd) /\
  (NoDup made <->
   Forall (fun line : LogRecord => line.1 <> Logging.WARNING) (Built.lines_since s s')).
Proof.
  intros Hrun. apply make_elements_from_run in Hrun as (_ & -> & _ & Hlogged).
  cbn [app]. split; [apply length_map|].
  unfold Built.lines_since. rewrite Hlogged, drop_app_length, element_lines_warning.
  split; [intros Hnodup; split; [exact Hnodup|]|intros [Hnodup _]; exact Hnodup].
  intros name _. apply not_elem_of_nil.
Qed.

Lemma make_elements_warns_of_same_name :
  length ["q"; "q"] = length (Built.present Scenario5.same_name) /\
  (NoDup ["q"; "q"] <->
   Forall (fun line : LogRecord => line.1 <> Logging.WARNING)
     (Built.lines_since Scenario5.nothing
        (Factory.make_elements Scenario5.willing Scenario5.same_name Scenario5.nothing).2)).
Proof.
  apply (make_elements_warns_of_duplicates Scenario5.willing Scenario5.same_name
           Scenario5.nothing).
  vm_compute. reflexivity.
Defined.

(** ** Linking a chain and filling a bin *)

Section ChainFacts.
Import Description Factory Built.
Context (F : Gst.Framework) (W : Factory.Answers).

Lemma link_elements_run {Self} (a b : string) (s : Sys Self) :
  Linker.link F (Linker.AnElement a) (Linker.AnElement b) s
  = (if Gst.element_link F (calls s) a b then Ok tt
     else Raise (LinkError ("could not link " +:+ a +:+ " to " +:+ b)),
     Build_Sys (self s) (calls s ++ [Gst.ElementLink a b])
       (logged s ++ [(Logging.DEBUG, "linking " +:+ a +:+ " to " +:+ b)])).
Proof.
  unfold Linker.link, bind, call, log, raise, ret. cbn.
  destruct (Gst.element_link F (calls s) a b); reflexivity.
Qed.

(** The loop of [auto_link] in closed form. *)
Lemma auto_link_from_run {Self} (elements : list string) (prev : option string)
    (s s' : Sys Self) (r : result unit) :
  auto_link_from F prev elements s = (r, s') ->
  self s' = self s /\
  exists done,
    calls s' = calls s ++ done /\
    match r with
    | Ok _ => done = links (chain_from prev elements)
    | Raise e =>
      exists before a b after,
        links (chain_from prev elements) = before ++ Gst.ElementLink a b :: after /\
        done = before ++ [Gst.ElementLink a b] /\
        Gst.element_link F (calls s ++ before) a b = false /\
        e = LinkError ("could not link " +:+ a +:+ " to " +:+ b)
    end.
Proof.
  revert prev s. induction elements as [|element rest IH]; intros prev s.
  - cbn. intros [= <- <-]. split; [reflexivity|]. exists []. rewrite app_nil_r.
    split; [reflexivity|]. destruct prev; reflexivity.
  - cbn [auto_link_from]. destruct prev as [prev|].
    + unfold bind at 1. rewrite link_elements_run.
      destruct (Gst.element_link F (calls s) prev element) eqn:Hlinked.
      * intros Hrest. apply IH in Hrest as (Hself & done & Hcalls & Hrest).
        cbn [self calls logged] in *. split; [exact Hself|].
        exists (Gst.ElementLink prev element :: done).
        split; [rewrite Hcalls, <- app_assoc; reflexivity|].
        destruct r as [[]|e].
        -- rewrite Hrest. reflexivity.
        -- destruct Hrest as (before & a & b & after & Hlinks & -> & Hfalse & ->).
           exists (Gst.ElementLink prev element :: before), a, b, after.
           cbn [chain_from] in *. split; [|split; [reflexivity|split; [|reflexivity]]].
           ++ change (links (prev :: element :: rest))
                with (Gst.ElementLink prev element :: links (element :: rest)).
              rewrite Hlinks. reflexivity.
           ++ rewrite <- app_assoc in Hfalse. exact Hfalse.
      * intros [= <- <-]. cbn [self calls logged]. split; [reflexivity|].
        exists [Gst.ElementLink prev element]. split; [reflexivity|].
        exists [], prev, element, (links (element :: rest)).
        rewrite app_nil_r. auto.
    + unfold bind at 1, ret at 1. intros Hrest.
      apply IH in Hrest as (Hself & done & Hcalls & Hrest).
      split; [exact Hself|]. exists done. split; [exact Hcalls|]. exact Hrest.
Qed.

(** The loop of [add_iterable] in closed form. *)
Lemma add_each_run (bin_ : string) (elements : list string)
    (s s' : Sys (list Event)) (r : result unit) :
  for_each elements
    (fun element =>
       bind (event (Add bin_ element) (fun h c => add W h c bin_ element))
         (fun added : bool =>
            if added then ret tt
            else raise (BinAddError ("could not add " +:+ element +:+ " to " +:+ bin_)))) s
    = (r, s') ->
  calls s' = calls s /\ logged s' = logged s /\
  match r with
  | Ok _ => self s' = self s ++ map (Add bin_) elements
  | Raise e =>
    exists done element rest,
      elements = done ++ element :: rest /\
      self s' = self s ++ map (Add bin_) (done ++ [element]) /\
      add W (self s ++ map (Add bin_) done) (calls s) bin_ element = false /\
      e = BinAddError ("could not add " +:+ element +:+ " to " +:+ bin_)
  end.
Proof.
  revert s. induction elements as [|element rest IH]; intros s.
  - cbn. intros [= <- <-]. rewrite app_nil_r. auto.
  - cbn [for_each]. unfold bind at 1 2, event at 1. cbn [self calls logged].
    destruct (add W (self s) (calls s) bin_ element) eqn:Hadded.
    + unfold ret at 1. intros Hrest. apply IH in Hrest as (Hcalls & Hlogged & Hrest).
      cbn [self calls logged] in *. split; [exact Hcalls|]. split; [exact Hlogged|].
      destruct r as [[]|e].
      * rewrite Hrest, <- app_assoc. reflexivity.
      * destruct Hrest as (done & el & rest' & -> & -> & Hfalse & ->).
        exists (element :: done), el, rest'. cbn [map app]. rewrite <- !app_assoc in *.
        cbn [app map] in *. auto.
    + unfold raise. intros [= <- <-]. cbn [self calls logged].
      split; [reflexivity|]. split; [reflexivity|].
      exists [], element, rest. cbn [map app]. rewrite app_nil_r. auto.
Qed.

End ChainFacts.

(** X19: [auto_link] links each element to the next, in the order given,
    and leaves the object alone; for no element or one it asks nothing.
    It stops at the first link the framework refuses and raises the
    [LinkError] naming the two elements; the links made before stay. *)
Theorem auto_link_chain (F : Gst.Framework) (Self : Type) (elements : Iterable string)
    (s s' : Sys Self) (r : result unit) :
  Factory.auto_link F elements s = (r, s') ->
  self s' = self s /\
  match r with
  | Ok _ => calls_since s s' = Built.links (items_of elements)
  | Raise e =>
    exists before a b after,
      Built.links (items_of elements) = before ++ Gst.ElementLink a b :: after /\
      calls_since s s' = before ++ [Gst.ElementLink a b] /\
      Gst.element_link F (calls s ++ before) a b = false /\
      e = LinkError ("could not link " +:+ a +:+ " to " +:+ b)
  end.
Proof.
  intros Hrun. unfold Factory.auto_link in Hrun.
  apply auto_link_from_run in Hrun as (Hself & done & Hcalls & Hrun).
  split; [exact Hself|]. unfold calls_since. rewrite Hcalls, drop_app_length.
  destruct r as [[]|e]; [exact Hrun|].
  destruct Hrun as (before & a & b & after & Hlinks & -> & Hfalse & ->).
  exists before, a, b, after. auto.
Qed.

Lemma auto_link_chain_of_three :
  self (Factory.auto_link Scenario.working (Sequence ["src"; "filter"; "sink"])
          Scenario2.bin0).2 = self Scenario2.bin0 /\
  calls_since Scenario2.bin0
    (Factory.auto_link Scenario.working (Sequence ["src"; "filter"; "sink"])
       Scenario2.bin0).2
    = Built.links ["src"; "filter"; "sink"].
Proof.
  apply (auto_link_chain Scenario.working GhostBin.t (Sequence ["src"; "filter"; "sink"])
           Scenario2.bin0 _ (Ok tt)).
  vm_compute. reflexivity.
Defined.

(** X20: when [add_iterable] returns, every element was added to the
    bin, in the order given.  With [link_] the elements are then linked
    in a chain, when they came as a list or a tuple; an iterator, such as
    a generator, is used up by the loop that adds, so that nothing is
    linked.  Without [link_] nothing is linked. *)
Theorem add_iterable_adds (F : Gst.Framework) (W : Factory.Answers) (bin_ : string)
    (elements : Iterable string) (link_ : bool) (s s' : Sys (list Factory.Event)) :
  Factory.add_iterable F W bin_ elements link_ s = (Ok tt, s') ->
  Built.events_since s s' = map (Factory.Add bin_) (items_of elements) /\
  calls_since s s'
    = match elements with
      | Sequence items => if link_ then Built.links items else []
      | Iterator _ => []
      end.
Proof.
  unfold Factory.add_iterable. unfold bind at 1.
  destruct (for_each _ _ s) as [[[]|e] s1] eqn:Hadd; [|discriminate].
  apply add_each_run in Hadd as (Hcalls & _ & Hevents).
  assert (Hsince : forall s2 : Sys (list Factory.Event),
            self s2 = self s1 ->
            Built.events_since s s2 = map (Factory.Add bin_) (items_of elements)).
  { intros s2 Hs2. unfold Built.events_since.
    rewrite Hs2, Hevents, drop_app_length. reflexivity. }
  destruct link_.
  - intros Hlink. unfold Factory.auto_link in Hlink.
    apply auto_link_from_run in Hlink as (Hself & done & Hdone & Hlinks).
    split; [apply Hsince, Hself|].
    unfold calls_since. rewrite Hdone, Hcalls, drop_app_length.
    destruct elements as [items|items]; exact Hlinks.
  - intros [= <-]. split; [apply Hsince; reflexivity|].
    unfold calls_since. rewrite Hcalls, drop_all. destruct elements; reflexivity.
Qed.

Lemma add_iterable_adds_from_generator :
  Built.events_since Scenario5.nothing
    (Factory.add_iterable Scenario.working Scenario5.willing "bin0"
       (Iterator ["src"; "filter"; "sink"]) true Scenario5.nothing).2
    = map (Factory.Add "bin0") ["src"; "filter"; "sink"] /\
  calls_since Scenario5.nothing
    (Factory.add_iterable Scenario.working Scenario5.willing "bin0"
       (Iterator ["src"; "filter"; "sink"]) true Scenario5.nothing).2
    = [].
Proof.
  apply (add_iterable_adds Scenario.working Scenario5.willing "bin0"
           (Iterator ["src"; "filter"; "sink"]) true Scenario5.nothing).
  vm_compute. reflexivity.
Defined.

(** X21: when [add_iterable] raises, nothing is taken back.  Either the
    bin refused an element: the error is the [BinAddError] naming it, the
    elements before it stay in the bin, those after it were not added
    and nothing was linked.  Or every element was added and a link was
    refused: the error is the [LinkError] of that link, and the links
    before it stay. *)
Theorem add_iterable_stops (F : Gst.Framework) (W : Factory.Answers) (bin_ : string)
    (elements : Iterable string) (link_ : bool) (s s' : Sys (list Factory.Event))
    (e : exn) :
  Factory.add_iterable F W bin_ elements link_ s = (Raise e, s') ->
  (exists done element rest,
     items_of elements = done ++ element :: rest /\
     e = BinAddError ("could not add " +:+ element +:+ " to " +:+ bin_) /\
     Built.events_since s s' = map (Factory.Add bin_) (done ++ [element]) /\
     calls_since s s' = []) \/
  (exists before a b after,
     link_ = true /\
     Built.links (items_of (used_up elements)) = before ++ Gst.ElementLink a b :: after /\
     e = LinkError ("could not link " +:+ a +:+ " to " +:+ b) /\
     Built.events_since s s' = map (Factory.Add bin_) (items_of elements) /\
     calls_since s s' = before ++ [Gst.ElementLink a b]).
Proof.
  unfold Factory.add_iterable. unfold bind at 1.
  destruct (for_each _ _ s) as [[[]|e0] s1] eqn:Hadd;
    apply add_each_run in Hadd as (Hcalls & _ & Hevents).
  - destruct link_; [|discriminate].
    intros Hlink. unfold Factory.auto_link in Hlink.
    apply auto_link_from_run
      in Hlink as (Hself & done & Hdone & before & a & b & after & Hlinks & -> & _ & ->).
    right. exists before, a, b, after. split; [reflexivity|]. split; [exact Hlinks|].
    split; [reflexivity|]. split.
    + unfold Built.events_since. rewrite Hself, Hevents, drop_app_length. reflexivity.
    + unfold calls_since. rewrite Hdone, Hcalls, drop_app_length. reflexivity.
  - intros [= <- <-]. destruct Hevents as (done & element & rest & Hitems & Hself & _ & ->).
    left. exists done, element, rest. split; [exact Hitems|]. split; [reflexivity|]. split.
    + unfold Built.events_since. rewrite Hself, drop_app_length. reflexivity.
    + unfold calls_since. rewrite Hcalls. apply drop_all.
Qed.

Lemma add_iterable_stops_at_filter :
  (exists done element rest,
     ["src"; "filter"; "sink"] = done ++ element :: rest /\
     BinAddError "could not add filter to bin0"
       = BinAddError ("could not add " +:+ element +:+ " to " +:+ "bin0") /\
     Built.events_since Scenario5.nothing
       (Factory.add_iterable Scenario.working (Scenario5.refusing "filter") "bin0"
          (Sequence ["src"; "filter"; "sink"]) true Scenario5.nothing).2
       = map (Factory.Add "bin0") (done ++ [element]) /\
     calls_since Scenario5.nothing
       (Factory.add_iterable Scenario.working (Scenario5.refusing "filter") "bin0"
          (Sequence ["src"; "filter"; "sink"]) true Scenario5.nothing).2 = []) \/
  (exists before a b after,
     true = true /\
     Built.links ["src"; "filter"; "sink"] = before ++ Gst.ElementLink a b :: after /\
     BinAddError "could not add filter to bin0"
       = LinkError ("could not link " +:+ a +:+ " to " +:+ b) /\
     Built.events_since Scenario5.nothing
       (Factory.add_iterable Scenario.working (Scenario5.refusing "filter") "bin0"
          (Sequence ["src"; "filter"; "sink"]) true Scenario5.nothing).2
       = map (Factory.Add "bin0") ["src"; "filter"; "sink"] /\
     calls_since Scenario5.nothing
       (Factory.add_iterable Scenario.working (Scenario5.refusing "filter") "bin0"
          (Sequence ["src"; "filter"; "sink"]) true Scenario5.nothing).2
       = before ++ [Gst.ElementLink a b]).
Proof.
  apply (add_iterable_stops Scenario.working (Scenario5.refusing "filter") "bin0"
           (Sequence ["src"; "filter"; "sink"]) true Scenario5.nothing).
  vm_compute. reflexivity.
Defined.

(** ** Building an inference bin *)

Section InitFacts.
Import Description Factory Built.
Context (F : Gst.Framework) (W : Factory.Answers).
Context (makes : forall h c type_name name, make W h c type_name name = true).
Context (adds : forall h c bin_ element, add W h c bin_ element = true).
Context (element_links : forall h a b, Gst.element_link F h a b = true).



End InitFacts.



(** ** The counts [on_buffer] shows *)

Section OsdFacts.
Import Osd.

Lemma tally_snoc (class : Z) (objects : list ObjectMeta) (o : ObjectMeta) :
  tally class (objects ++ [o])
  = tally class objects + (if decide (class_id o = class) then 1 else 0).
Proof.
  unfold tally. rewrite filter_app, length_app, filter_cons, filter_nil.
  destruct (decide (class_id o = class)); cbn [length]; lia.
Qed.

Lemma counted_initially :
  counted (<[VEHICLE := 0]> (<[PERSON := 0]> (<[BICYCLE := 0]> (<[ROADSIGN := 0]> ∅)))) [].
Proof.
  intros class. destruct (decide (known class)) as [Hknown|Hunknown].
  - unfold known in Hknown.
    assert (class = 0 \/ class = 1 \/ class = 2 \/ class = 3) as [->|[->|[->| ->]]] by lia;
      reflexivity.
  - unfold known, VEHICLE, PERSON, BICYCLE, ROADSIGN in *.
    rewrite !lookup_insert_ne by lia. apply lookup_empty.
Qed.

Lemma count_object_known (m : gmap Z Z) (objects : list ObjectMeta) (o : ObjectMeta) :
  counted m objects -> known (class_id o) ->
  exists m', count_object m o = inr m' /\ counted m' (objects ++ [o]).
Proof.
  intros Hm Hknown. unfold count_object.
  pose proof (Hm (class_id o)) as Hlookup. rewrite decide_True in Hlookup by exact Hknown.
  rewrite Hlookup. eexists. split; [reflexivity|].
  intros class. rewrite tally_snoc.
  destruct (decide (class_id o = class)) as [<-|Hne].
  - rewrite lookup_insert_eq, decide_True by exact Hknown. reflexivity.
  - rewrite lookup_insert_ne by exact Hne. rewrite Hm.
    destruct (decide (known class)); [f_equal; lia|reflexivity].
Qed.

Lemma count_object_unknown (m : gmap Z Z) (objects : list ObjectMeta) (o : ObjectMeta) :
  counted m objects -> ~ known (class_id o) ->
  count_object m o = inl (KeyError (class_id o)).
Proof.
  intros Hm Hunknown. unfold count_object.
  rewrite Hm, decide_False by exact Hunknown. reflexivity.
Qed.

Lemma count_objects_known (new : list ObjectMeta) (m : gmap Z Z)
    (objects : list ObjectMeta) :
  counted m objects -> Forall (fun o => known (class_id o)) new ->
  exists m', count_objects m new = inr m' /\ counted m' (objects ++ new).
Proof.
  revert m objects. induction new as [|o new IH]; intros m objects Hm Hknown.
  - exists m. rewrite app_nil_r. auto.
  - apply Forall_cons in Hknown as [Ho Hnew].
    destruct (count_object_known m objects o Hm Ho) as (m1 & Hcount & Hm1).
    cbn [count_objects]. rewrite Hcount.
    destruct (IH m1 (objects ++ [o]) Hm1 Hnew) as (m' & Hrest & Hm').
    exists m'. rewrite <- app_assoc in Hm'. auto.
Qed.

Lemma count_objects_unknown (pre post : list ObjectMeta) (o : ObjectMeta)
    (m : gmap Z Z) (objects : list ObjectMeta) :
  counted m objects -> Forall (fun o => known (class_id o)) pre ->
  ~ known (class_id o) ->
  count_objects m (pre ++ o :: post) = inl (KeyError (class_id o)).
Proof.
  revert m objects. induction pre as [|p pre IH]; intros m objects Hm Hpre Ho.
  - cbn [app count_objects]. rewrite (count_object_unknown m objects o Hm Ho). reflexivity.
  - apply Forall_cons in Hpre as [Hp Hpre].
    destruct (count_object_known m objects p Hm Hp) as (m1 & Hcount & Hm1).
    cbn [app count_objects]. rewrite Hcount. exact (IH m1 _ Hm1 Hpre Ho).
Qed.

Lemma objects_of_snoc (before : list FrameMeta) (frame_meta : FrameMeta) :
  objects_of (before ++ [frame_meta]) = objects_of before ++ obj_meta_list frame_meta.
Proof.
  unfold objects_of. rewrite map_app, concat_app. cbn. rewrite app_nil_r. reflexivity.
Qed.

(** The loop over frames whose objects are all counted. *)
Lemma each_frame_known (frames before : list FrameMeta) (m : gmap Z Z)
    (added : list (FrameMeta * DisplayMeta)) :
  counted m (objects_of before) -> Forall all_known frames ->
  exists m',
    each_frame m added frames = (inr tt, added ++ texts before frames) /\
    counted m' (objects_of (before ++ frames)).
Proof.
  revert before m added.
  induction frames as [|frame_meta frames IH]; intros before m added Hm Hknown.
  - exists m. rewrite !app_nil_r. auto.
  - apply Forall_cons in Hknown as [Hframe Hframes].
    destruct (count_objects_known (obj_meta_list frame_meta) m _ Hm Hframe)
      as (m1 & Hcount & Hm1).
    rewrite <- objects_of_snoc in Hm1.
    cbn [each_frame texts]. rewrite Hcount.
    rewrite (Hm1 VEHICLE), (Hm1 PERSON).
    rewrite !decide_True by (unfold known, VEHICLE, PERSON; lia).
    fold (seen VEHICLE (before ++ [frame_meta])).
    fold (seen PERSON (before ++ [frame_meta])).
    destruct (IH (before ++ [frame_meta]) m1
                (added ++ [(frame_meta,
                            display frame_meta (seen VEHICLE (before ++ [frame_meta]))
                              (seen PERSON (before ++ [frame_meta])))]) Hm1 Hframes)
      as (m' & Hrest & Hm').
    rewrite <- app_assoc in Hm'. cbn [app] in Hm'.
    exists m'. rewrite Hrest, <- !app_assoc. auto.
Qed.

(** The text of each frame counts the objects of the frames up to it. *)
Lemma texts_lookup (frames before : list FrameMeta) (k : nat) (frame_meta : FrameMeta) :
  frames !! k = Some frame_meta ->
  texts before frames !! k
  = Some (frame_meta,
          display frame_meta (seen VEHICLE (before ++ take (S k) frames))
            (seen PERSON (before ++ take (S k) frames))).
Proof.
  revert before k. induction frames as [|f frames IH]; intros before k; [discriminate|].
  destruct k as [|k]; cbn [texts].
  - intros [= ->]. cbn. reflexivity.
  - intros Hk. change ((f :: frames) !! S k) with (frames !! k) in Hk.
    match goal with
    | |- (?x :: ?l) !! S k = _ => change ((x :: l) !! S k) with (l !! k)
    end.
    rewrite (IH (before ++ [f]) k Hk), <- app_assoc. reflexivity.
Qed.

Lemma texts_frames (frames before : list FrameMeta) :
  map fst (texts before frames) = frames.
Proof.
  revert before. induction frames as [|f frames IH]; intros before; [reflexivity|].
  cbn [texts map fst]. rewrite IH. reflexivity.
Qed.

End OsdFacts.

(** X23: the counts on the screen run on through the batch.  For a
    buffer all of whose objects are of the four classes counted,
    [on_buffer] returns [OK] and adds one text to every frame, in the
    order of the frames.  The text of a frame shows its number and its
    count of objects as the frame carries them, and for vehicles and
    people the numbers seen in the batch up to that frame and in it, not
    in that frame alone. *)
Theorem on_buffer_counts (batch_meta : Osd.BatchMeta) :
  Forall Osd.all_known batch_meta ->
  exists added,
    Osd.on_buffer (Some batch_meta) = (inr Osd.OK, added) /\
    map fst added = batch_meta /\
    forall k frame_meta,
      batch_meta !! k = Some frame_meta ->
      added !! k
      = Some (frame_meta,
              Osd.display frame_meta (Osd.seen Osd.VEHICLE (take (S k) batch_meta))
                (Osd.seen Osd.PERSON (take (S k) batch_meta))).
Proof.
  intros Hknown.
  destruct (each_frame_known batch_meta [] _ [] counted_initially Hknown)
    as (m' & Hrun & _).
  exists (Osd.texts [] batch_meta). unfold Osd.on_buffer. cbv zeta. rewrite Hrun.
  split; [reflexivity|]. split; [apply texts_frames|].
  intros k frame_meta Hk. apply (texts_lookup batch_meta [] k frame_meta Hk).
Qed.

Lemma on_buffer_counts_street :
  exists added,
    Osd.on_buffer (Some Osd.street) = (inr Osd.OK, added) /\
    map fst added = Osd.street /\
    forall k frame_meta,
      Osd.street !! k = Some frame_meta ->
      added !! k
      = Some (frame_meta,
              Osd.display frame_meta (Osd.seen Osd.VEHICLE (take (S k) Osd.street))
                (Osd.seen Osd.PERSON (take (S k) Osd.street))).
Proof.
  apply (on_buffer_counts Osd.street).
  repeat constructor; unfold Osd.VEHICLE, Osd.PERSON, Osd.BICYCLE; cbn; lia.
Defined.

(** X24: an object of a class other than the four counted makes
    [on_buffer] raise [KeyError] with that class.  The frames before the
    frame of the first such object have their text by then; that frame
    and the frames after it get none. *)
Theorem on_buffer_unknown_class (before after : list Osd.FrameMeta)
    (frame_meta : Osd.FrameMeta) (pre post : list Osd.ObjectMeta)
    (obj_meta : Osd.ObjectMeta) :
  Forall Osd.all_known before ->
  Osd.obj_meta_list frame_meta = pre ++ obj_meta :: post ->
  Forall (fun o => Osd.known (Osd.class_id o)) pre ->
  ~ Osd.known (Osd.class_id obj_meta) ->
  Osd.on_buffer (Some (before ++ frame_meta :: after))
  = (inl (Osd.KeyError (Osd.class_id obj_meta)), Osd.texts [] before).
Proof.
  intros Hbefore Hobjects Hpre Hunknown. unfold Osd.on_buffer. cbv zeta.
  assert (Hloop : forall frames done m added,
            Osd.counted m (Osd.objects_of done) -> Forall Osd.all_known frames ->
            Osd.each_frame m added (frames ++ frame_meta :: after)
            = (inl (Osd.KeyError (Osd.class_id obj_meta)), added ++ Osd.texts done frames)).
  { induction frames as [|f frames IH]; intros done m added Hm Hframes.
    - cbn [app Osd.each_frame Osd.texts]. rewrite Hobjects.
      rewrite (count_objects_unknown pre post obj_meta m _ Hm Hpre Hunknown).
      rewrite app_nil_r. reflexivity.
    - apply Forall_cons in Hframes as [Hframe Hframes].
      destruct (count_objects_known (Osd.obj_meta_list f) m _ Hm Hframe)
        as (m1 & Hcount & Hm1).
      rewrite <- objects_of_snoc in Hm1.
      cbn [app Osd.each_frame Osd.texts]. rewrite Hcount.
      rewrite (Hm1 Osd.VEHICLE), (Hm1 Osd.PERSON).
      rewrite !decide_True by (unfold Osd.known, Osd.VEHICLE, Osd.PERSON; lia).
      rewrite (IH (done ++ [f]) m1 _ Hm1 Hframes), <- app_assoc. reflexivity. }
  rewrite (Hloop before [] _ [] counted_initially Hbefore). reflexivity.
Qed.

Lemma on_buffer_unknown_class_4 :
  Osd.on_buffer (Some (Osd.street ++ Osd.odd_frame :: Osd.street))
  = (inl (Osd.KeyError (Osd.class_id {| Osd.class_id := 4 |})), Osd.texts [] Osd.street).
Proof.
  apply (on_buffer_unknown_class Osd.street Osd.street Osd.odd_frame
           [ {| Osd.class_id := Osd.BICYCLE |} ] [] {| Osd.class_id := 4 |}).
  - repeat constructor; unfold Osd.VEHICLE, Osd.PERSON, Osd.BICYCLE; cbn; lia.
  - reflexivity.
  - repeat constructor; unfold Osd.VEHICLE, Osd.PERSON, Osd.BICYCLE; cbn; lia.
  - unfold Osd.known. cbn. lia.
Defined.

(** ** Adding sources *)

Section SourceNames.
Import Description Factory Sources.
Context (W : Factory.Answers).

(** [_add_source] along its three ways out. *)
Lemma add_source_run (uri : string) (s : Sys App) :
  let source := "source_" +:+ pretty (_source_counter (self s)) in
  _add_source W uri s
  = if make W (events (self s)) (calls s) "uridecodebin" source then
      match _inference_bin (self s) with
      | Some _ =>
        (Ok tt,
         Build_Sys
           (set_source_counter (_source_counter (self s) + 1)
              (set_events (events (self s) ++ source_events (self s) uri) (self s)))
           (calls s) (logged s))
      | None =>
        (Raise (AttributeError "link_source"),
         Build_Sys
           (set_events (events (self s) ++ take 5 (source_events (self s) uri)) (self s))
           (calls s) (logged s))
      end
    else
      (Raise (AttributeError "set_property"),
       Build_Sys
         (set_events (events (self s) ++ take 1 (source_events (self s) uri)) (self s))
         (calls s) (logged s)).
Proof.
  cbv zeta. unfold _add_source, asked, lift, event, bind, get, modify, raise, ret.
  cbn [self calls logged].
  destruct (make W _ _ _ _); cbn [self calls logged events set_events];
    [destruct (_inference_bin (self s)); cbn [self calls logged events set_events]|].
  all: unfold set_source_counter, set_events, source_events;
       cbn [name _inference_bin _source_counter events take];
       rewrite <- ?app_assoc; reflexivity.
Qed.

(** The counter of sources never goes down. *)
Lemma add_source_counter (uri : string) (s : Sys App) :
  _source_counter (self s) <= _source_counter (self (_add_source W uri s).2).
Proof.
  rewrite add_source_run. cbv zeta.
  destruct (make W _ _ _ _); [destruct (_inference_bin (self s))|]; cbn; lia.
Qed.

Lemma add_sources_counter (uris : list string) (s : Sys App) :
  _source_counter (self s) <= _source_counter (self (add_sources W uris s)).
Proof.
  unfold add_sources. revert s. induction uris as [|uri uris IH]; intros s; cbn [fold_left].
  - lia.
  - etransitivity; [apply (add_source_counter uri)|apply IH].
Qed.

End SourceNames.

(** X25: [_add_source] returns exactly when the factory made the
    [uridecodebin] and the application has its inference bin; the source
    is then named [source_] and the value of [_source_counter], given its
    four properties and its two handlers and handed to the pipeline, and
    the counter goes up by one, whatever [add] answered: a source the
    pipeline did not take is counted all the same.  Otherwise it raises
    [AttributeError], of an attribute of [None], and never
    [ElementCreationError]; the counter is as before and nothing was
    handed to the pipeline. *)
Theorem add_source_counts (W : Factory.Answers) (uri : string)
    (s s' : Sys Sources.App) (r : result unit) :
  Sources._add_source W uri s = (r, s') ->
  (r = Ok tt <->
   Factory.make W (Sources.events (self s)) (calls s) "uridecodebin"
     ("source_" +:+ pretty (Sources._source_counter (self s))) = true /\
   is_Some (Sources._inference_bin (self s))) /\
  match r with
  | Ok _ =>
    Sources._source_counter (self s') = Sources._source_counter (self s) + 1 /\
    Sources.events (self s')
      = Sources.events (self s) ++ Sources.source_events (self s) uri
  | Raise e =>
    Sources._source_counter (self s') = Sources._source_counter (self s) /\
    (exists attribute, e = AttributeError attribute) /\
    exists asked,
      Sources.events (self s') = Sources.events (self s) ++ asked /\
      forall bin_ element, Factory.Add bin_ element ∉ asked
  end.
Proof.
  rewrite add_source_run. cbv zeta.
  destruct (Factory.make W _ _ _ _);
    [destruct (Sources._inference_bin (self s)) as [bin0|]|].
  all: intros [= <- <-]; cbn [self Sources.events Sources._source_counter
                                Sources.set_events Sources.set_source_counter].
  - split; [split; [intros _; split; [reflexivity|eauto]|reflexivity]|].
    auto.
  - split; [split; [discriminate|intros [_ [? [=]]]]|].
    split; [reflexivity|]. split; [eauto|]. eexists. split; [reflexivity|].
    intros bin_ element. cbn. not_among.
  - split; [split; [discriminate|intros [[=] _]]|].
    split; [reflexivity|]. split; [eauto|]. eexists. split; [reflexivity|].
    intros bin_ element. cbn. not_among.
Qed.

Lemma add_source_counts_in_full_pipeline :
  (Ok tt = Ok tt <->
   Factory.make Sources.full_pipeline (Sources.events (self Sources.entered))
     (calls Sources.entered) "uridecodebin"
     ("source_" +:+ pretty (Sources._source_counter (self Sources.entered))) = true /\
   is_Some (Sources._inference_bin (self Sources.entered))) /\
  Sources._source_counter
    (self (Sources._add_source Sources.full_pipeline "file:///tmp/a.mp4"
             Sources.entered).2)
    = Sources._source_counter (self Sources.entered) + 1 /\
  Sources.events
    (self (Sources._add_source Sources.full_pipeline "file:///tmp/a.mp4"
             Sources.entered).2)
    = Sources.events (self Sources.entered)
        ++ Sources.source_events (self Sources.entered) "file:///tmp/a.mp4".
Proof.
  apply (add_source_counts Sources.full_pipeline "file:///tmp/a.mp4" Sources.entered _
           (Ok tt)).
  vm_compute. reflexivity.
Defined.

(** X26: [_source_counter] never goes down, whatever sources are added
    and whether adding them works.  So once a source was added, every
    source made later is made under a name with a greater number: no two
    sources added share a name. *)
Theorem source_names_increase (W : Factory.Answers) (uri1 uri2 : string)
    (between : list string) (s s1 s2 : Sys Sources.App) (r2 : result unit) :
  Sources._add_source W uri1 s = (Ok tt, s1) ->
  Sources._add_source W uri2 (Sources.add_sources W between s1) = (r2, s2) ->
  exists i j,
    i < j /\
    Factory.Make "uridecodebin" ("source_" +:+ pretty i) ∈ Sources.events (self s1) /\
    (forall type_name name,
       Factory.Make type_name name
         ∈ drop (length (Sources.events (self (Sources.add_sources W between s1))))
             (Sources.events (self s2)) ->
       name = "source_" +:+ pretty j) /\
    "source_" +:+ pretty i <> "source_" +:+ pretty j.
Proof.
  intros H1 H2.
  exists (Sources._source_counter (self s)),
         (Sources._source_counter (self (Sources.add_sources W between s1))).
  pose proof (add_sources_counter W between s1) as Hle.
  rewrite add_source_run in H1, H2. cbv zeta in H1, H2.
  assert (Hlt : Sources._source_counter (self s)
                < Sources._source_counter (self (Sources.add_sources W between s1))).
  { destruct (Factory.make W _ _ _ _) in H1; [|discriminate].
    destruct (Sources._inference_bin (self s)); [|discriminate].
    injection H1 as <-. cbn in Hle. lia. }
  split; [exact Hlt|]. split; [|split].
  - destruct (Factory.make W _ _ _ _) in H1; [|discriminate].
    destruct (Sources._inference_bin (self s)); [|discriminate].
    injection H1 as <-. cbn. apply elem_of_app. right. constructor.
  - set (sb := Sources.add_sources W between s1) in *.
    intros type_name name.
    destruct (Factory.make W _ _ _ _) in H2;
      [destruct (Sources._inference_bin (self sb))|].
    all: injection H2 as <- <-; cbn [self Sources.events Sources.set_events
                                       Sources.set_source_counter].
    all: rewrite drop_app_length; cbn.
    all: intros Hin;
         repeat (apply elem_of_cons in Hin as [Hin|Hin];
                 [first [discriminate Hin | injection Hin as _ ->; reflexivity]|]);
         apply elem_of_nil in Hin as [].
  - intros Heq. apply (inj (String.app _)), (inj pretty) in Heq. lia.
Qed.

Lemma source_names_increase_after_failure :
  exists i j,
    i < j /\
    Factory.Make "uridecodebin" ("source_" +:+ pretty i)
      ∈ Sources.events
          (self (Sources._add_source Scenario5.willing "a.mp4" Sources.entered).2) /\
    (forall type_name name,
       Factory.Make type_name name
         ∈ drop (length (Sources.events
                           (self (Sources.add_sources Scenario5.willing ["b.mp4"]
                                    (Sources._add_source Scenario5.willing "a.mp4"
                                       Sources.entered).2))))
             (Sources.events
                (self (Sources._add_source Scenario5.willing "c.mp4"
                         (Sources.add_sources Scenario5.willing ["b.mp4"]
                            (Sources._add_source Scenario5.willing "a.mp4"
                               Sources.entered).2)).2)) ->
       name = "source_" +:+ pretty j) /\
    "source_" +:+ pretty i <> "source_" +:+ pretty j.
Proof.
  apply (source_names_increase Scenario5.willing "a.mp4" "c.mp4" ["b.mp4"]
           Sources.entered _ _ (Ok tt)).
  - vm_compute. reflexivity.
  - vm_compute. reflexivity.
Defined.

(** ** What [convert_uris] yields *)

Section UriFacts.
Import Uris.
Context (W : World).

Lemma yield_each_run (entries : list (option string)) (s : Sys (list string)) :
  for_each entries
    (fun video => match video with Some url => yield url | None => ret tt end) s
  = (Ok tt, Build_Sys (self s ++ omap id entries) (calls s) (logged s)).
Proof.
  revert s. induction entries as [|[url|] entries IH]; intros s; cbn [for_each].
  - unfold ret. destruct s. cbn. rewrite app_nil_r. reflexivity.
  - unfold bind, yield at 1, modify. rewrite IH. cbn [self calls logged].
    change (omap id (Some url :: entries)) with (url :: omap id entries).
    rewrite <- app_assoc. reflexivity.
  - unfold bind, ret at 1. rewrite IH. reflexivity.
Qed.

(** One turn of the loop: what it yields; it logs nothing for a uri
    that is not of YouTube, and nothing above [DEBUG] when it has a
    [ydl]. *)
Lemma convert_run (ydl : option YoutubeDL) (uri : string) (s : Sys (list string)) :
  exists lines,
    convert W ydl uri s
    = (Ok tt, Build_Sys (self s ++ converted W ydl uri) (calls s) (logged s ++ lines)) /\
    (isfile W uri = true \/ is_youtube W uri = false -> lines = []) /\
    (is_Some ydl -> Forall (fun line : LogRecord => line.1 = Logging.DEBUG) lines).
Proof.
  destruct s as [yielded made logs]. cbn [self calls logged].
  unfold convert, converted.
  destruct (isfile W uri).
  { exists []. rewrite app_nil_r. split; [reflexivity|]. split; [auto|constructor]. }
  destruct (is_youtube W uri).
  2: { exists []. rewrite app_nil_r. split; [reflexivity|]. split; [auto|constructor]. }
  destruct ydl as [ydl|].
  2: { eexists. unfold log. cbn [self calls logged]. rewrite app_nil_r.
       split; [reflexivity|]. split; [intros [[=]|[=]]|intros [? [=]]]. }
  unfold extracted. destruct (ydl uri) as [entries|[title|] [url|]].
  - exists []. rewrite yield_each_run, app_nil_r. cbn [self calls logged].
    split; [reflexivity|]. split; [intros [[=]|[=]]|constructor].
  - eexists. unfold bind, log, yield, modify. cbn [self calls logged].
    rewrite <- app_assoc. split; [reflexivity|].
    split; [intros [[=]|[=]]|repeat constructor].
  - eexists. unfold bind, log, ret. cbn [self calls logged]. rewrite app_nil_r.
    split; [reflexivity|]. split; [intros [[=]|[=]]|repeat constructor].
  - eexists. unfold bind, log, ret, yield, modify. cbn [self calls logged].
    split; [reflexivity|]. split; [intros [[=]|[=]]|repeat constructor].
  - exists []. unfold bind, ret. cbn [self calls logged]. rewrite !app_nil_r.
    split; [reflexivity|]. split; [intros [[=]|[=]]|constructor].
Qed.

(** The loop: it yields what each uri comes to, in the order given. *)
Lemma convert_each_run (ydl : option YoutubeDL) (uris : list string)
    (s : Sys (list string)) :
  exists lines,
    for_each uris (convert W ydl) s
    = (Ok tt,
       Build_Sys (self s ++ concat (map (converted W ydl) uris)) (calls s)
         (logged s ++ lines)) /\
    (youtube_in_uris W uris = false -> lines = []) /\
    (is_Some ydl -> Forall (fun line : LogRecord => line.1 = Logging.DEBUG) lines).
Proof.
  revert s. induction uris as [|uri uris IH]; intros s; cbn [for_each map concat].
  - exists []. unfold ret. rewrite !app_nil_r. destruct s.
    split; [reflexivity|]. split; [auto|constructor].
  - destruct (convert_run ydl uri s) as (lines1 & Hrun1 & Hlines1 & Hdebug1).
    unfold bind. rewrite Hrun1.
    destruct (IH (Build_Sys (self s ++ converted W ydl uri) (calls s)
                    (logged s ++ lines1))) as (lines2 & Hrun2 & Hlines2 & Hdebug2).
    rewrite Hrun2. cbn [self calls logged]. exists (lines1 ++ lines2).
    rewrite <- !app_assoc. split; [reflexivity|]. split.
    + unfold youtube_in_uris. cbn [existsb]. intros [Hy Hrest]%orb_false_iff.
      rewrite Hlines1, Hlines2 by auto. reflexivity.
    + intros Hydl. apply Forall_app. auto.
Qed.

(** Without a YouTube uri among them, the uris come out one for one. *)
Lemma converted_plain (ydl : option YoutubeDL) (uris : list string) :
  youtube_in_uris W uris = false ->
  concat (map (converted W ydl) uris) = map (plain W) uris.
Proof.
  unfold youtube_in_uris. induction uris as [|uri uris IH]; [reflexivity|].
  cbn [existsb map concat]. intros [Hy Hrest]%orb_false_iff.
  rewrite IH by exact Hrest. unfold converted, plain. rewrite Hy.
  destruct (isfile W uri); reflexivity.
Qed.

End UriFacts.

(** X27: with no YouTube uri given, [convert_uris] ends normally and
    logs nothing.  From a list or a tuple it yields one uri for each one
    given, in the order given: the [file://] uri of the absolute path for
    a file, and any other uri as it is.  From an iterator, such as a
    generator, it yields nothing at all, since [list(uris)] has used it
    up before the loop goes over it. *)
Theorem convert_uris_plain (W : Uris.World) (uris : Iterable string)
    (ydl : option Uris.YoutubeDL) (s : Sys (list string)) :
  Uris.youtube_in_uris W (items_of uris) = false ->
  Uris.convert_uris W uris ydl s
  = (Ok Uris.Exhausted,
     Build_Sys
       (self s ++ match uris with
                  | Sequence items => map (Uris.plain W) items
                  | Iterator _ => []
                  end)
       (calls s) (logged s)).
Proof.
  intros Hplain. unfold Uris.convert_uris. cbv zeta. rewrite Hplain.
  assert (Hloop : (bind (for_each (items_of (used_up uris)) (Uris.convert W ydl))
                     (fun _ => ret Uris.Exhausted)) s
                  = (Ok Uris.Exhausted,
                     Build_Sys
                       (self s ++ match uris with
                                  | Sequence items => map (Uris.plain W) items
                                  | Iterator _ => []
                                  end)
                       (calls s) (logged s))).
  { destruct (convert_each_run W ydl (items_of (used_up uris)) s)
      as (lines & Hrun & Hlines & _).
    unfold bind. rewrite Hrun. unfold ret.
    rewrite Hlines, app_nil_r by (destruct uris; [exact Hplain|reflexivity]).
    destruct uris as [items|items]; cbn [items_of used_up map concat].
    - rewrite converted_plain by exact Hplain. reflexivity.
    - reflexivity. }
  destruct (Uris.youtube_dl W), ydl; exact Hloop.
Qed.

Lemma convert_uris_plain_from_generator :
  Uris.convert_uris Uris.laptop (Iterator ["a.mp4"; "rtsp://camera/1"]) None
    (Scenario.start [])
  = (Ok Uris.Exhausted, Build_Sys [] [] []).
Proof.
  apply (convert_uris_plain Uris.laptop (Iterator ["a.mp4"; "rtsp://camera/1"]) None
           (Scenario.start [])).
  reflexivity.
Defined.

(** X28: with [youtube_dl] there, no [ydl] given and a YouTube uri among
    those given, [convert_uris] goes over all the uris with a new
    [YoutubeDL], from a list and from an iterator alike: a file gives its
    [file://] uri, a playlist one uri for each entry that has one, a video
    its uri when it has one, anything else itself.  Having yielded the
    last, the body of the generator raises [StopIteration]: it does not
    come to its end. *)
Theorem convert_uris_youtube (W : Uris.World) (uris : Iterable string)
    (make_ydl : Uris.YoutubeDL) (s : Sys (list string)) :
  Uris.youtube_dl W = Some make_ydl ->
  Uris.youtube_in_uris W (items_of uris) = true ->
  exists lines,
    Uris.convert_uris W uris None s
    = (Ok Uris.RaisedStopIteration,
       Build_Sys
         (self s ++ concat (map (Uris.converted W (Some make_ydl)) (items_of uris)))
         (calls s) (logged s ++ lines)) /\
    Forall (fun line : LogRecord => line.1 = Logging.DEBUG) lines.
Proof.
  intros Hdl Hyoutube. unfold Uris.convert_uris. cbv zeta. rewrite Hdl, Hyoutube.
  destruct (convert_each_run W (Some make_ydl) (items_of uris) s)
    as (lines & Hrun & _ & Hlines).
  specialize (Hlines (ltac:(eauto))).
  exists lines. unfold bind. rewrite Hrun. unfold ret. auto.
Qed.

Lemma convert_uris_youtube_playlist :
  exists lines,
    Uris.convert_uris Uris.laptop (Sequence ["a.mp4"; "https://youtu.be/x"]) None
      (Scenario.start [])
    = (Ok Uris.RaisedStopIteration,
       Build_Sys ["file:///tmp/a.mp4"; "https://youtu.be/x?v=1"] [] lines) /\
    Forall (fun line : LogRecord => line.1 = Logging.DEBUG) lines.
Proof.
  apply (convert_uris_youtube Uris.laptop (Sequence ["a.mp4"; "https://youtu.be/x"])
           (fun uri => Uris.Playlist [Some (uri +:+ "?v=1"); None]) (Scenario.start [])).
  - reflexivity.
  - reflexivity.
Defined.

(** ** A source that is linked, and a bin of nothing *)

(** X29: when the sink pad was got and the link of the source's pad to
    it is made, [link_source] returns: the source and the pad are
    counted, each counter one higher than before, the pad returned by
    [get_sink_pad] is a ghost pad added to the bin, and the link of the
    source's pad to it is the last thing asked of the framework. *)
Theorem link_source_links (F : Gst.Framework) (source : string)
    (src_pad sink_pad : Gst.Pad) (s s1 s2 : Sys InferenceBin.t) :
  String.prefix "video/x-raw" (Gst.query_caps F (calls s) src_pad) = true ->
  InferenceBin.get_sink_pad F (counted source src_pad s) = (Ok sink_pad, s1) ->
  Linker.link F (Linker.APad src_pad) (Linker.APad sink_pad) s1 = (Ok tt, s2) ->
  InferenceBin.link_source F source src_pad s = (Ok tt, s2) /\
  InferenceBin._source_counter (self s2) = InferenceBin._source_counter (self s) + 1 /\
  InferenceBin._pad_counter (self s2) = InferenceBin._pad_counter (self s) + 1 /\
  GhostOps.count (Gst.pad_direction sink_pad) (InferenceBin.ghost_bin (self s2))
    = GhostOps.count (Gst.pad_direction sink_pad) (InferenceBin.ghost_bin (self s)) + 1 /\
  exists before,
    calls s2 = calls s ++ before ++ [Gst.AddPad (InferenceBin.name (self s)) sink_pad;
                                     Gst.PadLink src_pad sink_pad].
Proof.
  intros Hvideo Hget Hlink.
  rewrite (link_source_video F source src_pad s Hvideo).
  unfold InferenceBin.acquire_and_link, bind. rewrite Hget, Hlink.
  split; [reflexivity|].
  apply link_of_pads_run in Hlink as [Hself Hcalls].
  apply get_sink_pad_ok in Hget as (Hpad & Hsource & Hname & Hcount & before & Hbefore).
  unfold counted in *. cbn [self calls logged] in *.
  unfold InferenceBin.name in *.
  cbn [InferenceBin.ghost_bin InferenceBin.set_source_counter
       InferenceBin._pad_counter InferenceBin._source_counter] in *.
  rewrite Hself. split; [exact Hsource|]. split; [exact Hpad|]. split; [exact Hcount|].
  exists before. rewrite Hcalls, Hbefore, <- !app_assoc. reflexivity.
Qed.

Lemma link_source_links_third_source :
  InferenceBin.link_source Scenario.working "source_2" (Scenario.src_pad "source_2")
    Scenario3.two_sources
    = (Ok tt,
       (InferenceBin.link_source Scenario.working "source_2" (Scenario.src_pad "source_2")
          Scenario3.two_sources).2) /\
  InferenceBin._source_counter
    (self (InferenceBin.link_source Scenario.working "source_2"
             (Scenario.src_pad "source_2") Scenario3.two_sources).2)
    = InferenceBin._source_counter (self Scenario3.two_sources) + 1 /\
  InferenceBin._pad_counter
    (self (InferenceBin.link_source Scenario.working "source_2"
             (Scenario.src_pad "source_2") Scenario3.two_sources).2)
    = InferenceBin._pad_counter (self Scenario3.two_sources) + 1 /\
  GhostOps.count Gst.SINK
    (InferenceBin.ghost_bin
       (self (InferenceBin.link_source Scenario.working "source_2"
                (Scenario.src_pad "source_2") Scenario3.two_sources).2))
    = GhostOps.count Gst.SINK (InferenceBin.ghost_bin (self Scenario3.two_sources)) + 1 /\
  exists before,
    calls (InferenceBin.link_source Scenario.working "source_2"
             (Scenario.src_pad "source_2") Scenario3.two_sources).2
    = calls Scenario3.two_sources ++ before ++
        [Gst.AddPad "inference_0"
           {| Gst.pad_name := "sink_0"; Gst.pad_direction := Gst.SINK;
              Gst.pad_parent := "inference_0" |};
         Gst.PadLink (Scenario.src_pad "source_2")
           {| Gst.pad_name := "sink_0"; Gst.pad_direction := Gst.SINK;
              Gst.pad_parent := "inference_0" |}].
Proof.
  eapply (link_source_links Scenario.working "source_2" (Scenario.src_pad "source_2")
            {| Gst.pad_name := "sink_0"; Gst.pad_direction := Gst.SINK;
               Gst.pad_parent := "inference_0" |}
            Scenario3.two_sources).
  - reflexivity.
  - vm_compute. reflexivity.
  - vm_compute. reflexivity.
Defined.


